(** * SelFi holdings import: parsers and reconciliation

    A shallow embedding of the ingestion pipeline of the SelFi backend:

    - [app/services/csv_parser.py]: [ZerodhaCSVParser.parse_holdings_csv],
      [GenericCSVParser.parse_custom_holdings] with [_auto_detect_columns],
      [ExcelParser.parse_excel_file] with [_detect_sheet_type],
      [_parse_stock_sheet], [_parse_mutual_fund_sheet] and
      [_clean_mutual_fund_name];
    - [app/services/pdf_parser.py]: [PDFParser.parse_pdf_file] with
      [_is_mutual_fund_statement], [_is_demat_statement],
      [_parse_mutual_fund_statement], [_extract_mf_table_data],
      [_parse_demat_statement] and [_parse_generic_pdf];
    - [app/api/v1/endpoints/uploads.py]: [validate_file_account_match] and
      the four upload handlers (account check, persistence loop, commit and
      rollback, price enrichment);
    - [app/services/market_data.py]: the ticker of [get_stock_info];
    - [app/api/v1/endpoints/market.py]: the loop body of
      [update_holdings_prices].

    Python [float] is IEEE binary64 and is modelled by Rocq's primitive
    floats: [*], [-], [/] are the kernel's operations, Python's [<], [>] and
    [==] are [PrimFloat.ltb] and [PrimFloat.eqb] (so [nan == nan] is false),
    and Python's [ZeroDivisionError] is made explicit where the source
    divides.  Python [str] is modelled by [string] (8-bit characters; the
    case functions act on ASCII letters only).

    What lies outside the repository is a parameter of the definitions that
    use it: Python's [float(str)] and [str(float)], [pd.read_csv] and the
    reads of the sheets of a workbook, the texts of the pages of a PDF, the
    [re] module where the PDF parser searches free text and where the fund
    names are cleaned ([re.search], [re.findall], [re.sub]), the
    market-data services, the [autoflush] setting of the database session
    and the exceptions the database raises.  The column patterns and the
    symbol patterns of the CSV and Excel parsers are simple enough to be
    matched by the functions of [Re] and [PyStr] below; the pattern of
    [validate_file_account_match] and the ISIN pattern of the demat reader
    are matched by the functions of [FileAccount] and [IsinPattern].

    The file has four parts: the embedding, sample inputs, the predicates
    the statements are made of, and the properties with their proofs. *)

From Stdlib Require Import PrimFloat List String Ascii Bool Arith Lia.
From Stdlib Require Import DecimalString.

(** A decimal literal denotes the nearest binary64 float, as in Python. *)
#[global] Set Warnings "-inexact-float".
Import ListNotations.
Open Scope string_scope.
Open Scope nat_scope.

(** ** Python string operations *)

Module PyStr.

(** [c.upper()] and [c.lower()] on one character. *)
Definition upper_ascii (c : ascii) : ascii :=
  let n := nat_of_ascii c in
  if (97 <=? n) && (n <=? 122) then ascii_of_nat (n - 32) else c.

Definition lower_ascii (c : ascii) : ascii :=
  let n := nat_of_ascii c in
  if (65 <=? n) && (n <=? 90) then ascii_of_nat (n + 32) else c.

Fixpoint map_string (f : ascii -> ascii) (s : string) : string :=
  match s with
  | EmptyString => EmptyString
  | String c r => String (f c) (map_string f r)
  end.

(** [s.upper()], [s.lower()]. *)
Definition upper : string -> string := map_string upper_ascii.
Definition lower : string -> string := map_string lower_ascii.

(** [s.startswith(p)]. *)
Fixpoint startswith (p s : string) : bool :=
  match p, s with
  | EmptyString, _ => true
  | String a p', String b s' => Ascii.eqb a b && startswith p' s'
  | String _ _, EmptyString => false
  end.

(** [p in s] for strings. *)
Fixpoint contains (p s : string) : bool :=
  startswith p s ||
  match s with
  | EmptyString => false
  | String _ s' => contains p s'
  end.

(** [s.endswith(p)]. *)
Fixpoint endswith (p s : string) : bool :=
  String.eqb p s ||
  match s with
  | EmptyString => false
  | String _ s' => endswith p s'
  end.

(** [x in l] for a list of strings. *)
Definition mem (x : string) (l : list string) : bool :=
  existsb (String.eqb x) l.

(** [s.replace(c, '')] for a one-character [c]. *)
Fixpoint remove_char (c : ascii) (s : string) : string :=
  match s with
  | EmptyString => EmptyString
  | String a r =>
      if Ascii.eqb a c then remove_char c r else String a (remove_char c r)
  end.

(** The characters [str.strip()] removes (ASCII white space). *)
Definition is_space (c : ascii) : bool :=
  let n := nat_of_ascii c in
  ((9 <=? n) && (n <=? 13)) || ((28 <=? n) && (n <=? 32)).

Fixpoint lstrip (s : string) : string :=
  match s with
  | EmptyString => EmptyString
  | String c r => if is_space c then lstrip r else s
  end.

Fixpoint rstrip (s : string) : string :=
  match s with
  | EmptyString => EmptyString
  | String c r =>
      match rstrip r with
      | EmptyString => if is_space c then EmptyString else String c EmptyString
      | r' => String c r'
      end
  end.

(** [s.strip()]. *)
Definition strip (s : string) : string := rstrip (lstrip s).

(** [s[:n]]. *)
Definition take (n : nat) (s : string) : string := substring 0 n s.

(** [s[i:j]] for [0 <= i <= j]; Python clips both ends to the string. *)
Definition slice (i j : nat) (s : string) : string :=
  let m := Nat.min j (String.length s) in
  substring i (m - i) s.

(** Truth value of a string: [bool(s)]. *)
Definition truthy (s : string) : bool :=
  match s with EmptyString => false | _ => true end.

(** Truth value of an optional string ([None] and [''] are false). *)
Definition truthy_opt (o : option string) : bool :=
  match o with Some s => truthy s | None => false end.

(** [d.get(k)] on a list of pairs read as a [dict]. *)
Fixpoint dict_get {A : Type} (k : string) (d : list (string * A)) : option A :=
  match d with
  | [] => None
  | (k', v) :: r => if String.eqb k k' then Some v else dict_get k r
  end.

End PyStr.

Import PyStr.

(** ** Python floats *)

Module PyFloat.

Definition zero : float := 0%float.
Definition one : float := 1%float.
Definition hundred : float := 100%float.
Definition thousand : float := 1000%float.
Definition million : float := 1000000%float.

(** [a > b], [a < b], [a == b] on floats. *)
Definition gt (a b : float) : bool := PrimFloat.ltb b a.
Definition lt (a b : float) : bool := PrimFloat.ltb a b.
Definition eq (a b : float) : bool := PrimFloat.eqb a b.

(** [bool(x)]: every float but [0.0] and [-0.0] is true. *)
Definition nonzero (x : float) : bool := negb (PrimFloat.eqb x zero).

End PyFloat.

(** ** Parsed holdings and import warnings

    The parsers return holdings as [dict]s with a fixed set of keys; a key
    that a parser leaves out ([isin], [scheme_code]) and a key bound to
    [None] are both read by the handlers through [dict.get] or a truth
    test, so both are [None] here. *)

Module Parsed.

Record holding : Type := mk {
  symbol : string;
  exchange : string;
  asset_type : string;
  quantity : float;
  average_price : float;
  current_price : float;
  current_value : float;
  pnl : float;
  pnl_percentage : float;
  isin : option string;
  scheme_code : option string
}.

Record warning : Type := mk_warning {
  w_symbol : string;
  missing_fields : list string;
  row_number : option nat;
  sheet : option string;
  message : option string
}.

End Parsed.

(** ** Data frames

    What the parsers use of a pandas [DataFrame]: the column labels and the
    rows, each row a [Series] from column label to cell.  A cell is a
    missing value ([NaN], as pandas reads a blank), a number (a cell of a
    numeric column) or text (a cell of an [object] column). *)

Module Frame.

Inductive cell : Type :=
| CNaN
| CNum (f : float)
| CStr (s : string).

Definition series : Type := list (string * cell).

Record DataFrame : Type := mk {
  columns : list string;
  rows : list series
}.

(** [label in row]. *)
Definition has_label (label : string) (row : series) : bool :=
  match dict_get label row with Some _ => true | None => false end.

(** [pd.isna(row.get(label, None))]. *)
Definition isna_get (label : string) (row : series) : bool :=
  match dict_get label row with
  | Some CNaN | None => true
  | Some _ => false
  end.

(** [df.empty]: an axis of the frame has no entry. *)
Definition empty (df : DataFrame) : bool :=
  match rows df, columns df with
  | [], _ | _, [] => true
  | _, _ => false
  end.

(** [df.iterrows()] of a frame with the default [RangeIndex], which
    [pd.read_csv] and [pd.read_excel] give the frame unless a column is
    taken as the index: the label of a row is its position. *)
Fixpoint iterrows_from (i : nat) (l : list series) : list (nat * series) :=
  match l with
  | [] => []
  | r :: l' => (i, r) :: iterrows_from (S i) l'
  end.

Definition iterrows (df : DataFrame) : list (nat * series) :=
  iterrows_from 0 (rows df).

End Frame.

(** ** Regular expressions of the column patterns

    Every pattern of [_auto_detect_columns] and of the mutual-fund sheet is
    a sequence of literal words joined by [.*] ([avg.*price],
    [net.*asset.*value], [ltp]); [re.search] succeeds when the words occur
    in this order on one line. *)

Module Re.

Definition newline : ascii := ascii_of_nat 10.

Fixpoint drop (n : nat) (s : string) : string :=
  match n, s with
  | 0, _ => s
  | S n', String _ s' => drop n' s'
  | S _, EmptyString => EmptyString
  end.

(** A match of [w1.*w2...] that starts at the head of [s]. *)
Fixpoint match_at (words : list string) (s : string) : bool :=
  match words with
  | [] => true
  | w :: rest =>
      startswith w s &&
      match rest with
      | [] => true
      | _ =>
          (fix gap (t : string) : bool :=
             match_at rest t ||
             match t with
             | EmptyString => false
             | String c t' => negb (Ascii.eqb c newline) && gap t'
             end) (drop (String.length w) s)
      end
  end.

(** [re.search(pattern, s)] as a truth value. *)
Fixpoint search (words : list string) (s : string) : bool :=
  match_at words s ||
  match s with
  | EmptyString => false
  | String _ s' => search words s'
  end.

End Re.

(** ** Exceptions

    A computation that may raise: [Raised detail] is a Python exception
    (for the parsers an [HTTPException] with that detail). *)

Inductive result (A : Type) : Type :=
| Ok (a : A)
| Raised (detail : string).

Arguments Ok {A} a.
Arguments Raised {A} detail.

Definition bind {A B : Type} (m : result A) (k : A -> result B) : result B :=
  match m with
  | Ok a => k a
  | Raised d => Raised d
  end.

Notation "x <- m ;; k" := (bind m (fun x => k))
  (at level 61, m at next level, right associativity).

(** The loop [for x in l: acc = body(acc, x)] whose body may raise. *)
Fixpoint for_each {A S : Type} (body : S -> A -> result S) (l : list A) (s : S)
  : result S :=
  match l with
  | [] => Ok s
  | x :: l' => s' <- body s x ;; for_each body l' s'
  end.

(** ** Conversions of cells

    [py_float] is Python's [float(str)] on text ([None] when it raises
    [ValueError]) and [py_str] is [str(float)]; both are builtins of the
    interpreter and are parameters of the parsers. *)

Section Conversions.

Variable py_float : string -> option float.
Variable py_str : float -> string.

Import Frame.

(** [str(cell)]. *)
Definition str_of_cell (c : cell) : string :=
  match c with
  | CNaN => "nan"
  | CNum f => py_str f
  | CStr s => s
  end.

(** [float(cell)]: a missing value is the float [nan], text is parsed. *)
Definition float_of_cell (c : cell) : result float :=
  match c with
  | CNaN => Ok PrimFloat.nan
  | CNum f => Ok f
  | CStr s =>
      match py_float s with
      | Some f => Ok f
      | None => Raised "could not convert string to float"
      end
  end.

(** [float(str(cell).replace(',', ''))]: [str] of a float has no comma
    and [float] reads it back to the same float. *)
Definition float_of_cell_no_commas (c : cell) : result float :=
  match c with
  | CNaN => Ok PrimFloat.nan
  | CNum f => Ok f
  | CStr s =>
      match py_float (remove_char "," s) with
      | Some f => Ok f
      | None => Raised "could not convert string to float"
      end
  end.

(** [row[label]]; a label the row lacks raises [KeyError]. *)
Definition getitem (row : series) (label : string) : result cell :=
  match dict_get label row with
  | Some c => Ok c
  | None => Raised ("KeyError: " ++ label)
  end.

(** [float(row[label])]. *)
Definition float_at (row : series) (label : string) : result float :=
  c <- getitem row label ;; float_of_cell c.

(** [str(row[label])]. *)
Definition str_at (row : series) (label : string) : result string :=
  c <- getitem row label ;; Ok (str_of_cell c).

End Conversions.

(** ** [ZerodhaCSVParser] (csv_parser.py) *)

Module ZerodhaCSVParser.

Import Frame PyFloat.

Definition ETF_SYMBOL_MAPPINGS : list (string * string) :=
  [ ("MAFSETFINAV", "MAFSETF"); ("MOM100INAV", "MOM100");
    ("SETFNIF50", "SETFNN50"); ("NIFTYBEES", "NIFTYBEES");
    ("BANKBEES", "BANKBEES"); ("GOLDBEES", "GOLDBEES");
    ("JUNIORBEES", "JUNIORBEES"); ("LIQUIDBEES", "LIQUIDBEES");
    ("NIFTYIWIN", "NIFTYIWIN"); ("ICICIB22", "ICICIB22");
    ("SETFNIFBK", "SETFNIFBK"); ("LIQUIDBEESINAV", "LIQUIDBEES");
    ("GOLDBEESINAV", "GOLDBEES"); ("NIFTYBEESINAV", "NIFTYBEES");
    ("BANKBEESINAV", "BANKBEES"); ("JUNIORBEESINAV", "JUNIORBEES") ].

(** [ETF_SYMBOL_MAPPINGS[symbol]] when the symbol is a key, else the
    symbol itself. *)
Definition apply_etf_mapping (symbol : string) : string :=
  match dict_get symbol ETF_SYMBOL_MAPPINGS with
  | Some s => s
  | None => symbol
  end.

Definition etf_keywords : list string :=
  [ "ETF"; "NIFTY"; "SENSEX"; "GOLD"; "SILVER"; "LIQUID"; "GILT";
    "CPSE"; "PSU"; "BANK"; "IT"; "PHARMA"; "AUTO"; "FMCG"; "NEXT50";
    "MIDCAP"; "SMALLCAP"; "DIVIDEND"; "VALUE"; "MOMENTUM"; "QUALITY";
    "LOWVOL"; "ALPHA"; "BHARAT"; "MAFANG"; "NASDAQ"; "HANG" ].

Definition known_etfs : list string :=
  [ "MAFSETFINAV"; "NIFTYBEES"; "BANKBEES"; "GOLDBEES"; "JUNIORBEES";
    "SETFNIF50"; "SETFNIFTY"; "SETFNN50" ].

Definition etf_isin_series : list string :=
  [ "01"; "H1"; "K1"; "L1"; "M1"; "N1"; "P1"; "Q1"; "R1"; "S1"; "T1" ].

(** Lines 119-124: the ISIN test, taken only when the ISIN is true. *)
Definition isin_is_etf (isin : string) : bool :=
  startswith "INF" isin && (String.length isin =? 12) &&
  mem (slice 9 11 isin) etf_isin_series.

(** Lines 136-138 and 193-195: the symbol test for ETFs. *)
Definition symbol_is_etf (symbol : string) : bool :=
  (existsb (fun keyword => contains keyword (upper symbol)) etf_keywords
   && contains "ETF" (upper symbol))
  || mem (upper symbol) known_etfs
  || endswith "BEES" (upper symbol).

(** Lines 142 and 199. *)
Definition symbol_is_sgb (symbol : string) : bool :=
  contains "SGB" (upper symbol) || startswith "SGB" (upper symbol).

(** Lines 146 and 203. *)
Definition symbol_is_reit (symbol : string) : bool :=
  contains "REIT" (upper symbol) || endswith "-RR" (upper symbol)
  || endswith "-RT" (upper symbol).

(** Lines 111-147: [asset_type] starts as ['stock'] and each test that
    succeeds assigns it again, in the order ISIN, ETF symbol, SGB, REIT. *)
Definition console_asset_type (symbol : string) (isin : option string)
  : string :=
  let asset_type := "stock" in
  let asset_type :=
    match isin with
    | Some i =>
        if truthy i then if isin_is_etf i then "etf" else asset_type
        else asset_type
    | None => asset_type
    end in
  let asset_type := if symbol_is_etf symbol then "etf" else asset_type in
  let asset_type := if symbol_is_sgb symbol then "sgb" else asset_type in
  let asset_type := if symbol_is_reit symbol then "reit" else asset_type in
  asset_type.

(** Lines 181-204: the same chain without the ISIN test. *)
Definition legacy_asset_type (symbol : string) : string :=
  let asset_type := "stock" in
  let asset_type := if symbol_is_etf symbol then "etf" else asset_type in
  let asset_type := if symbol_is_sgb symbol then "sgb" else asset_type in
  let asset_type := if symbol_is_reit symbol then "reit" else asset_type in
  asset_type.

(** [\s+(NSE|BSE)] at the head of [s]: the exchange matched. *)
Fixpoint skip_spaces (s : string) : string :=
  match s with
  | String c s' => if is_space c then skip_spaces s' else s
  | EmptyString => s
  end.

Definition spaces_then_exchange (s : string) : option string :=
  match s with
  | String c s' =>
      if is_space c then
        let t := skip_spaces s' in
        if startswith "NSE" t then Some "NSE"
        else if startswith "BSE" t then Some "BSE"
        else None
      else None
  | EmptyString => None
  end.

(** [re.match(r'(.+?)\s+(NSE|BSE)', instrument)]: the shortest non-empty
    prefix without a line break that the exchange follows; the groups. *)
Fixpoint lazy_prefix (s : string) : option (string * string) :=
  match spaces_then_exchange s with
  | Some e => Some (EmptyString, e)
  | None =>
      match s with
      | EmptyString => None
      | String c s' =>
          if Ascii.eqb c Re.newline then None
          else match lazy_prefix s' with
               | Some (g, e) => Some (String c g, e)
               | None => None
               end
      end
  end.

Definition match_instrument (instrument : string) : option (string * string) :=
  match instrument with
  | EmptyString => None
  | String c s' =>
      if Ascii.eqb c Re.newline then None
      else match lazy_prefix s' with
           | Some (g, e) => Some (String c g, e)
           | None => None
           end
  end.

(** [contents.split('\n')]. *)
Fixpoint split_lines (s : string) : list string :=
  match s with
  | EmptyString => [EmptyString]
  | String c s' =>
      match split_lines s' with
      | [] => [String c EmptyString]
      | l :: ls =>
          if Ascii.eqb c Re.newline then EmptyString :: l :: ls
          else String c l :: ls
      end
  end.

(** Lines 55-59: the index of the first line with a header word. *)
Fixpoint find_header_line (i : nat) (lines : list string) : option nat :=
  match lines with
  | [] => None
  | line :: rest =>
      if contains "Symbol" line || contains "Instrument" line then Some i
      else find_header_line (S i) rest
  end.

Definition console_columns : list string :=
  [ "Symbol"; "Quantity Available"; "Average Price";
    "Previous Closing Price"; "Unrealized P&L"; "Unrealized P&L Pct." ].

Definition legacy_columns : list string :=
  [ "Instrument"; "Qty."; "Avg. cost"; "LTP"; "Cur. val"; "P&L" ].

(** [[col for col in required if col not in df.columns]]. *)
Definition missing_columns (required : list string) (df : DataFrame)
  : list string :=
  filter (fun col => negb (mem col (columns df))) required.

Section Parser.

Variable py_float : string -> option float.
Variable py_str : float -> string.

(** Lines 99-165: one row of the Console (current) format; [None] is a
    row the loop skips. *)
Definition parse_console_row (row : series)
  : result (option Parsed.holding) :=
  sym <- getitem row "Symbol" ;;
  match sym with
  | CNaN => Ok None
  | _ =>
      if String.eqb (strip (str_of_cell py_str sym)) "" then Ok None
      else
        quantity <- float_at py_float row "Quantity Available" ;;
        avg_price <- float_at py_float row "Average Price" ;;
        current_price <- float_at py_float row "Previous Closing Price" ;;
        pnl <- float_at py_float row "Unrealized P&L" ;;
        let symbol := strip (str_of_cell py_str sym) in
        let isin :=
          match dict_get "ISIN" row with
          | Some CNaN | None => None
          | Some c => Some (strip (str_of_cell py_str c))
          end in
        let asset_type := console_asset_type symbol isin in
        let symbol := apply_etf_mapping symbol in
        pct <- float_at py_float row "Unrealized P&L Pct." ;;
        Ok (Some
              {| Parsed.symbol := symbol;
                 Parsed.exchange := "NSE";
                 Parsed.asset_type := asset_type;
                 Parsed.quantity := quantity;
                 Parsed.average_price := avg_price;
                 Parsed.current_price := current_price;
                 Parsed.current_value := (quantity * current_price)%float;
                 Parsed.pnl := pnl;
                 Parsed.pnl_percentage := pct;
                 Parsed.isin := isin;
                 Parsed.scheme_code := None |})
  end.

(** Lines 168-224: one row of the legacy format (no row is skipped). *)
Definition parse_legacy_row (row : series) : result Parsed.holding :=
  instrument <- str_at py_str row "Instrument" ;;
  let '(symbol, exchange) :=
    match match_instrument instrument with
    | Some (g1, g2) => (strip g1, g2)
    | None => (strip instrument, "NSE")
    end in
  let asset_type := legacy_asset_type symbol in
  quantity <- float_at py_float row "Qty." ;;
  average_price <- float_at py_float row "Avg. cost" ;;
  current_price <- float_at py_float row "LTP" ;;
  current_value <- float_at py_float row "Cur. val" ;;
  pnl <- float_at py_float row "P&L" ;;
  let investment := (quantity * average_price)%float in
  let pnl_percentage :=
    if gt investment zero then (pnl / investment * hundred)%float
    else zero in
  Ok {| Parsed.symbol := symbol;
        Parsed.exchange := exchange;
        Parsed.asset_type := asset_type;
        Parsed.quantity := quantity;
        Parsed.average_price := average_price;
        Parsed.current_price := current_price;
        Parsed.current_value := current_value;
        Parsed.pnl := pnl;
        Parsed.pnl_percentage := pnl_percentage;
        Parsed.isin := None;
        Parsed.scheme_code := None |}.

(** Lines 94-226: the rows of the frame, by the format detected. *)
Definition parse_rows (df : DataFrame) : result (list Parsed.holding) :=
  if mem "Symbol" (columns df) then
    for_each
      (fun holdings row =>
         r <- parse_console_row row ;;
         Ok (match r with
             | Some h => (holdings ++ [h])%list
             | None => holdings
             end))
      (rows df) []
  else
    for_each
      (fun holdings row => h <- parse_legacy_row row ;; Ok (holdings ++ [h])%list)
      (rows df) [].

(** [pd.read_csv(io.BytesIO(contents), skiprows=n)], which may raise. *)
Variable read_csv : nat -> result DataFrame.

(** Lines 74-83: [for skip_rows in range(1, 30)] with its [else]. *)
Fixpoint retry_header (skips : list nat) (missing : list string)
  : result DataFrame :=
  match skips with
  | [] =>
      Raised ("Missing required columns: " ++ String.concat ", " missing)
  | skip_rows :: rest =>
      df_test <- read_csv skip_rows ;;
      if forallb (fun col => mem col (columns df_test)) console_columns
      then Ok df_test
      else retry_header rest missing
  end.

(** Lines 34-232.  Every exception inside, the [HTTPException]s
    included, is caught by the handler at line 228 and raised again
    with the prefixed detail. *)
Definition parse_holdings_csv (contents : string)
  : result (list Parsed.holding) :=
  match
    (if negb (PyStr.truthy contents) then
       Raised "The uploaded file is empty. Please select a valid CSV file with holdings data."
     else
       let lines := split_lines contents in
       if forallb (fun line => negb (PyStr.truthy (strip line))) lines then
         Raised "The uploaded file contains no data. Please ensure the CSV file has holdings information."
       else
         df <- read_csv (match find_header_line 0 lines with
                         | Some i => i
                         | None => 0
                         end) ;;
         df <-
           (if mem "Symbol" (columns df) then
              match missing_columns console_columns df with
              | [] => Ok df
              | missing => retry_header (seq 1 29) missing
              end
            else
              match missing_columns legacy_columns df with
              | [] => Ok df
              | missing =>
                  Raised ("Missing required columns: "
                          ++ String.concat ", " missing)
              end) ;;
         parse_rows df)
  with
  | Ok holdings => Ok holdings
  | Raised e => Raised ("Error parsing holdings CSV: " ++ e)
  end.

End Parser.

End ZerodhaCSVParser.

(** [a / b] on floats: Python raises [ZeroDivisionError] on a zero divisor. *)
Definition py_div (a b : float) : result float :=
  if PrimFloat.eqb b PyFloat.zero then Raised "float division by zero"
  else Ok (a / b)%float.

(** [try: x = e / except: x = default], as a value. *)
Definition try_or {A : Type} (e : result A) (default : A) : A :=
  match e with
  | Ok a => a
  | Raised _ => default
  end.

(** ** [GenericCSVParser] (csv_parser.py) *)

Module GenericCSVParser.

Import Frame PyFloat.

(** Lines 484-491: the patterns of each field, in the order of the
    [dict]; a pattern is its list of words (see [Re]). *)
Definition patterns : list (string * list (list string)) :=
  [ ("symbol",
     [ ["symbol"]; ["stock"; "name"]; ["instrument"]; ["scrip"];
       ["ticker"]; ["equity"] ]);
    ("quantity",
     [ ["quantity"]; ["qty"]; ["shares"]; ["units"]; ["holdings"] ]);
    ("average_price",
     [ ["avg"; "price"]; ["average"; "price"]; ["cost"; "price"];
       ["buy"; "price"]; ["purchase"; "price"]; ["owned"; "price"];
       ["acquisition"; "price"] ]);
    ("current_price",
     [ ["current"; "price"]; ["ltp"]; ["last"; "price"];
       ["market"; "price"]; ["cmp"]; ["close"; "price"] ]) ].

(** A column that one of the patterns of a field matches. *)
Definition column_matches (field_patterns : list (list string))
  (col : string) : bool :=
  existsb (fun pattern => Re.search pattern (lower col)) field_patterns.

(** Lines 494-502: for each field the first column, in column order, that
    one of its patterns matches. *)
Definition detect (pats : list (string * list (list string)))
  (cols : list string) : list (string * string) :=
  flat_map
    (fun '(field, field_patterns) =>
       match find (column_matches field_patterns) cols with
       | Some col => [(field, col)]
       | None => []
       end)
    pats.

(** Lines 507-509: the columns shown in the error. *)
Definition str_of_nat (n : nat) : string :=
  NilEmpty.string_of_uint (Nat.to_uint n).

Definition available_columns (cols : list string) : string :=
  append (String.concat ", " (firstn 10 cols))
    (if Nat.ltb 10 (List.length cols)
     then append "... and " (append (str_of_nat (List.length cols - 10)) " more")
     else "").

(** [_auto_detect_columns] (lines 479-516). *)
Definition _auto_detect_columns (df : DataFrame)
  : result (list (string * string)) :=
  let mapping := detect patterns (columns df) in
  match dict_get "symbol" mapping with
  | None =>
      Raised ("Could not find a column for stock symbol. Available columns: "
              ++ available_columns (columns df))
  | Some _ => Ok mapping
  end.

(** Lines 360-376. *)
Definition symbol_mappings : list (string * string) :=
  [ ("ColgatePalmolive", "COLPAL"); ("HDFCBank", "HDFCBANK");
    ("LarsenToubro", "LT"); ("Pidilite", "PIDILITIND");
    ("HCLTechnologies", "HCLTECH"); ("APLApolloTubes", "APLAPOLLO");
    ("AsianPaints", "ASIANPAINT"); ("CochinShipyard", "COCHINSHIP");
    ("CEInfosystem", "MAPMYINDIA"); ("SupremeIndustries", "SUPREMEIND");
    ("AshokLeyland", "ASHOKLEY"); ("JioFinancialServices", "JIOFIN");
    ("IDFCFirstBank", "IDFCFIRSTB"); ("DeltaCorp", "DELTACORP");
    ("Infosys", "INFY") ].

(** [s[:-n]]. *)
Definition drop_last (n : nat) (s : string) : string :=
  substring 0 (String.length s - n) s.

(** [re.sub(r'\.(NS|BO|NSE|BSE)$', '', symbol, flags=re.IGNORECASE)]. *)
Definition strip_exchange_suffix (symbol : string) : string :=
  let l := lower symbol in
  if endswith ".ns" l || endswith ".bo" l then drop_last 3 symbol
  else if endswith ".nse" l || endswith ".bse" l then drop_last 4 symbol
  else symbol.

(** Lines 355-357 and 704-705: the cleaning of a symbol. *)
Definition clean_symbol (symbol : string) : string :=
  remove_char "." (remove_char "&" (remove_char " "
    (strip_exchange_suffix symbol))).

(** Lines 425-432: the asset type of a cleaned and mapped symbol. *)
Definition detect_asset_type (symbol : string) : string :=
  let symbol_upper := upper symbol in
  if contains "ETF" symbol_upper || endswith "BEES" symbol_upper
     || endswith "NAV" symbol_upper then "etf"
  else if contains "GOLD" symbol_upper && contains "SGB" symbol_upper
  then "sgb"
  else if contains "REIT" symbol_upper || endswith "-RR" symbol_upper
          || endswith "-RT" symbol_upper then "reit"
  else "stock".

(** [mapping[field]] when [field in mapping and mapping[field] in row]. *)
Definition mapped_cell (mapping : list (string * string)) (field : string)
  (row : series) : option cell :=
  match dict_get field mapping with
  | Some col => dict_get col row
  | None => None
  end.

Section Parser.

Variable py_float : string -> option float.
Variable py_str : float -> string.

(** Lines 386-394: the quantity and the fields it adds to
    [missing_fields]. *)
Definition read_quantity (mapping : list (string * string)) (row : series)
  : float * list string :=
  match mapped_cell mapping "quantity" row with
  | Some c => (try_or (float_of_cell py_float c) one, [])
  | None => (one, ["quantity"])
  end.

(** Lines 397-408. *)
Definition read_average_price (mapping : list (string * string))
  (row : series) : float * list string :=
  match mapped_cell mapping "average_price" row with
  | Some c =>
      match float_of_cell_no_commas py_float c with
      | Ok f => (f, [])
      | Raised _ => (zero, ["average_price (invalid value)"])
      end
  | None => (zero, ["average_price"])
  end.

(** Lines 411-418: no entry of [missing_fields] on either branch. *)
Definition read_current_price (mapping : list (string * string))
  (row : series) : float :=
  match mapped_cell mapping "current_price" row with
  | Some c => try_or (float_of_cell_no_commas py_float c) zero
  | None => zero
  end.

(** Lines 347-460: one row; [None] is a row the loop skips, and the
    warning is the one appended when [missing_fields] is not empty. *)
Definition parse_custom_row (mapping : list (string * string))
  (idx : nat) (row : series)
  : result (option (Parsed.holding * option Parsed.warning)) :=
  match dict_get "symbol" mapping with
  | None => Raised "KeyError: symbol"
  | Some symbol_col =>
      match dict_get symbol_col row with
      | None | Some CNaN => Ok None
      | Some c =>
          let symbol := strip (str_of_cell py_str c) in
          let original_symbol := symbol in
          let symbol := clean_symbol symbol in
          let symbol :=
            match dict_get symbol symbol_mappings with
            | Some s => s
            | None => symbol
            end in
          let '(quantity, missing_q) := read_quantity mapping row in
          let '(avg_price, missing_a) := read_average_price mapping row in
          let missing_fields := (missing_q ++ missing_a)%list in
          let current_price := read_current_price mapping row in
          let symbol := ZerodhaCSVParser.apply_etf_mapping symbol in
          let asset_type := detect_asset_type symbol in
          let current_value :=
            if gt current_price zero then (quantity * current_price)%float
            else (quantity * avg_price)%float in
          let pnl :=
            if gt avg_price zero
            then (current_value - quantity * avg_price)%float
            else zero in
          pnl_percentage <-
            (if gt avg_price zero && gt quantity zero then
               q <- py_div pnl (quantity * avg_price)%float ;;
               Ok (q * hundred)%float
             else Ok zero) ;;
          Ok (Some
                ({| Parsed.symbol := symbol;
                    Parsed.exchange := "NSE";
                    Parsed.asset_type := asset_type;
                    Parsed.quantity := quantity;
                    Parsed.average_price := avg_price;
                    Parsed.current_price := current_price;
                    Parsed.current_value := current_value;
                    Parsed.pnl := pnl;
                    Parsed.pnl_percentage := pnl_percentage;
                    Parsed.isin := None;
                    Parsed.scheme_code := None |},
                 match missing_fields with
                 | [] => None
                 | _ =>
                     Some {| Parsed.w_symbol := original_symbol;
                             Parsed.missing_fields := missing_fields;
                             Parsed.row_number := Some (idx + 2);
                             Parsed.sheet := None;
                             Parsed.message := None |}
                 end))
      end
  end.

(** The loop of lines 346-460 over [df.iterrows()]: the holdings and
    the warnings, in row order. *)
Definition parse_custom_rows (mapping : list (string * string))
  (df : DataFrame)
  : result (list Parsed.holding * list Parsed.warning) :=
  for_each
    (fun '(holdings, warnings_list) '(idx, row) =>
       r <- parse_custom_row mapping idx row ;;
       Ok (match r with
           | Some (h, Some w) =>
               ((holdings ++ [h])%list, (warnings_list ++ [w])%list)
           | Some (h, None) => ((holdings ++ [h])%list, warnings_list)
           | None => (holdings, warnings_list)
           end))
    (iterrows df) ([], []).

(** [pd.read_csv(io.BytesIO(contents))], which may raise. *)
Variable read_csv : result DataFrame.

(** [parse_custom_holdings] (lines 319-476).  An [HTTPException] passes
    the handlers unchanged (line 470); any other exception is raised
    again with the prefixed detail (line 472). *)
Definition parse_custom_holdings (contents : string)
  (mapping : option (list (string * string)))
  : result (list Parsed.holding * list Parsed.warning) :=
  let other (e : string) := ("Error parsing custom CSV: " ++ e)%string in
  if negb (PyStr.truthy contents) then
    Raised "The uploaded file is empty. Please select a valid CSV file with holdings data."
  else
    match read_csv with
    | Raised e => Raised (other e)
    | Ok df =>
        if empty df then Raised "The CSV file contains no data rows."
        else
          mapping <-
            match mapping with
            | Some ((_ :: _) as m) => Ok m
            | _ => _auto_detect_columns df
            end ;;
          match parse_custom_rows mapping df with
          | Raised e => Raised (other e)
          | Ok ([], _) =>
              Raised "No valid holdings data found in the CSV file."
          | Ok (holdings, warnings_list) => Ok (holdings, warnings_list)
          end
    end.

End Parser.

End GenericCSVParser.

(** ** [ExcelParser] (csv_parser.py) *)

Module ExcelParser.

Import Frame PyFloat.

(** Lines 776-784: the patterns of the mutual-fund columns. *)
Definition mf_patterns : list (string * list (list string)) :=
  [ ("scheme_name",
     [ ["scheme"; "name"]; ["fund"; "name"]; ["scheme"]; ["fund"];
       ["symbol"] ]);
    ("folio_number", [ ["folio"]; ["account"; "no"] ]);
    ("units",
     [ ["units"]; ["quantity"; "available"]; ["quantity"];
       ["balance"; "units"] ]);
    ("nav",
     [ ["nav"]; ["net"; "asset"; "value"];
       ["previous"; "closing"; "price"]; ["price"] ]);
    ("current_value", [ ["current"; "value"]; ["market"; "value"]; ["value"] ]);
    ("invested_value",
     [ ["invested"; "value"]; ["cost"; "value"]; ["purchase"; "value"];
       ["average"; "price"] ]);
    ("scheme_code",
     [ ["scheme"; "code"]; ["fund"; "code"]; ["amfi"; "code"]; ["isin"] ]) ].

(** The column of a label, first match: [df.columns[columns_lower.index(l)]]. *)
Definition column_of_lower (l : string) (cols : list string) : option string :=
  find (fun col => String.eqb (lower col) l) cols.

(** [df[col].dropna().head(5).astype(str)]. *)
Definition sample_values (py_str : float -> string) (col : string)
  (df : DataFrame) : list string :=
  firstn 5
    (flat_map
       (fun row =>
          match dict_get col row with
          | Some CNaN | None => []
          | Some c => [str_of_cell py_str c]
          end)
       (rows df)).

(** [sum(1 for indicator in indicators if any(indicator in col ...))]. *)
Definition count_indicators (indicators cols_lower : list string) : nat :=
  List.length
    (filter (fun indicator => existsb (contains indicator) cols_lower)
       indicators).

(** [sum] of the score each sampled value adds. *)
Definition sum_scores (score : string -> nat) (l : list string) : nat :=
  fold_left (fun acc v => acc + score v) l 0.

(** [_detect_sheet_type] (lines 638-684). *)
Definition _detect_sheet_type (py_str : float -> string) (df : DataFrame)
  (sheet_name : string) : option string :=
  let columns_lower := map lower (columns df) in
  let mf_count :=
    count_indicators ["scheme"; "nav"; "folio"; "units"; "fund"; "amc"]
      columns_lower in
  let stock_count :=
    count_indicators
      ["symbol"; "quantity"; "average price"; "ltp"; "exchange"]
      columns_lower in
  let sheet_name_lower := lower sheet_name in
  let mf_count :=
    if contains "mutual" sheet_name_lower || contains "fund" sheet_name_lower
       || contains "mf" sheet_name_lower then mf_count + 3 else mf_count in
  let stock_count :=
    if contains "stock" sheet_name_lower || contains "equity" sheet_name_lower
       || contains "share" sheet_name_lower
    then stock_count + 2 else stock_count in
  let mf_count :=
    match rows df, column_of_lower "symbol" (columns df) with
    | _ :: _, Some symbol_col =>
        mf_count +
        sum_scores
          (fun val =>
             let val_lower := lower val in
             (if existsb (fun keyword => contains keyword val_lower)
                   ["fund"; "scheme"; "elss"; "flexi cap"; "liquid"; "debt";
                    "equity"]
              then 1 else 0)
             + (if contains "direct plan" val_lower
                   || contains "regular plan" val_lower then 2 else 0))
          (sample_values py_str symbol_col df)
    | _, _ => mf_count
    end in
  let mf_count :=
    match column_of_lower "instrument type" (columns df) with
    | Some type_col =>
        mf_count +
        sum_scores
          (fun val =>
             if contains "equity" (lower val)
                && (contains "elss" (lower val) || contains "flexi" (lower val))
             then 2 else 0)
          (sample_values py_str type_col df)
    | None => mf_count
    end in
  if stock_count <? mf_count then Some "mutual_funds"
  else if 0 <? stock_count then Some "stocks"
  else None.

Section Parser.

Variable py_float : string -> option float.
Variable py_str : float -> string.

(** [_clean_mutual_fund_name] (lines 523-554): a chain of [re.sub]
    calls that deletes dates and numbers from the name, then joins the
    words by single spaces.  The claims below do not depend on the
    cleaned text, and the chain is a parameter. *)
Variable _clean_mutual_fund_name : string -> string.

(** Lines 711-719: unlike the CSV parser, an invalid value is reported. *)
Definition read_quantity (mapping : list (string * string)) (row : series)
  : float * list string :=
  match GenericCSVParser.mapped_cell mapping "quantity" row with
  | Some c =>
      match float_of_cell py_float c with
      | Ok f => (f, [])
      | Raised _ => (one, ["quantity (invalid value)"])
      end
  | None => (one, ["quantity"])
  end.

(** Lines 695-768: one row of a stock sheet. *)
Definition parse_stock_row (mapping : list (string * string))
  (sheet_name : string) (idx : nat) (row : series)
  : option (Parsed.holding * option Parsed.warning) :=
  match GenericCSVParser.mapped_cell mapping "symbol" row with
  | None | Some CNaN => None
  | Some c =>
      let symbol := strip (str_of_cell py_str c) in
      let original_symbol := symbol in
      let symbol := GenericCSVParser.clean_symbol symbol in
      let '(quantity, missing_q) := read_quantity mapping row in
      let '(avg_price, missing_a) :=
        GenericCSVParser.read_average_price py_float mapping row in
      let missing_fields := (missing_q ++ missing_a)%list in
      let current_price :=
        GenericCSVParser.read_current_price py_float mapping row in
      let priced := gt avg_price zero && gt current_price zero in
      Some
        ({| Parsed.symbol := symbol;
            Parsed.exchange := "NSE";
            Parsed.asset_type := "stock";
            Parsed.quantity := quantity;
            Parsed.average_price := avg_price;
            Parsed.current_price := current_price;
            Parsed.current_value :=
              if gt current_price zero
              then (quantity * current_price)%float
              else (quantity * avg_price)%float;
            Parsed.pnl :=
              if priced then ((current_price - avg_price) * quantity)%float
              else zero;
            Parsed.pnl_percentage :=
              if priced
              then ((current_price - avg_price) / avg_price * hundred)%float
              else zero;
            Parsed.isin := None;
            Parsed.scheme_code := None |},
         match missing_fields with
         | [] => None
         | _ =>
             Some {| Parsed.w_symbol := original_symbol;
                     Parsed.missing_fields := missing_fields;
                     Parsed.row_number := Some (idx + 2);
                     Parsed.sheet := Some sheet_name;
                     Parsed.message := None |}
         end)
  end.

(** The holdings and the warnings of the rows, in row order. *)
Definition collect (parse : nat -> series ->
                            option (Parsed.holding * option Parsed.warning))
  (df : DataFrame) : list Parsed.holding * list Parsed.warning :=
  fold_left
    (fun '(holdings, warnings_list) '(idx, row) =>
       match parse idx row with
       | Some (h, Some w) =>
           ((holdings ++ [h])%list, (warnings_list ++ [w])%list)
       | Some (h, None) => ((holdings ++ [h])%list, warnings_list)
       | None => (holdings, warnings_list)
       end)
    (iterrows df) ([], []).

(** [_parse_stock_sheet] (lines 687-770). *)
Definition _parse_stock_sheet (df : DataFrame) (sheet_name : string)
  : result (list Parsed.holding * list Parsed.warning) :=
  mapping <- GenericCSVParser._auto_detect_columns df ;;
  Ok (collect (parse_stock_row mapping sheet_name) df).

(** Lines 812-831: units and NAV, read alike. *)
Definition read_number (mapping : list (string * string)) (field : string)
  (row : series) : float * list string :=
  match GenericCSVParser.mapped_cell mapping field row with
  | Some c =>
      match float_of_cell_no_commas py_float c with
      | Ok f => (f, [])
      | Raised _ => (zero, [append field " (invalid value)"])
      end
  | None => (zero, [field])
  end.

(** Lines 839-845: the reading of a value of the column mapped to
    [invested_value]; the result is [(invested_value, avg_price)]. *)
Definition interpret_invested (value units nav : float) : float * float :=
  if lt value thousand then
    let avg_price := value in
    (if gt units zero then (avg_price * units)%float else zero, avg_price)
  else
    let invested_value := value in
    (invested_value,
     if gt units zero then (invested_value / units)%float else nav).

(** Lines 834-848: [(invested_value, avg_price)] of a row. *)
Definition read_invested (mapping : list (string * string)) (row : series)
  (units nav : float) : float * float :=
  match GenericCSVParser.mapped_cell mapping "invested_value" row with
  | Some c =>
      match float_of_cell_no_commas py_float c with
      | Ok value => interpret_invested value units nav
      | Raised _ => (zero, nav)
      end
  | None => (zero, zero)
  end.

(** Lines 851-858. *)
Definition read_current_value (mapping : list (string * string))
  (row : series) (units nav : float) : float :=
  let current_value := if gt nav zero then (units * nav)%float else zero in
  match GenericCSVParser.mapped_cell mapping "current_value" row with
  | Some c =>
      match float_of_cell_no_commas py_float c with
      | Ok parsed_value =>
          if gt parsed_value zero then parsed_value else current_value
      | Raised _ => current_value
      end
  | None => current_value
  end.

(** Lines 801-888: one row of a mutual-fund sheet. *)
Definition parse_mutual_fund_row (mapping : list (string * string))
  (sheet_name : string) (idx : nat) (row : series)
  : option (Parsed.holding * option Parsed.warning) :=
  match GenericCSVParser.mapped_cell mapping "scheme_name" row with
  | None | Some CNaN => None
  | Some c =>
      let scheme_name :=
        _clean_mutual_fund_name (strip (str_of_cell py_str c)) in
      let '(units, missing_u) := read_number mapping "units" row in
      let '(nav, missing_n) := read_number mapping "nav" row in
      let missing_fields := (missing_u ++ missing_n)%list in
      let '(invested_value, avg_price) :=
        read_invested mapping row units nav in
      let current_value := read_current_value mapping row units nav in
      let scheme_code :=
        match GenericCSVParser.mapped_cell mapping "scheme_code" row with
        | Some sc => Some (strip (str_of_cell py_str sc))
        | None => None
        end in
      Some
        ({| Parsed.symbol := take 50 scheme_name;
            Parsed.exchange := "MF";
            Parsed.asset_type := "mutual_fund";
            Parsed.quantity := units;
            Parsed.average_price := avg_price;
            Parsed.current_price := nav;
            Parsed.current_value := current_value;
            Parsed.pnl :=
              if gt invested_value zero
              then (current_value - invested_value)%float else zero;
            Parsed.pnl_percentage :=
              if gt invested_value zero
              then ((current_value - invested_value) / invested_value
                    * hundred)%float
              else zero;
            Parsed.isin := None;
            Parsed.scheme_code := scheme_code |},
         match missing_fields with
         | [] => None
         | _ =>
             Some {| Parsed.w_symbol := scheme_name;
                     Parsed.missing_fields := missing_fields;
                     Parsed.row_number := Some (idx + 2);
                     Parsed.sheet := Some sheet_name;
                     Parsed.message := None |}
         end)
  end.

(** [_parse_mutual_fund_sheet] (lines 773-890). *)
Definition _parse_mutual_fund_sheet (df : DataFrame) (sheet_name : string)
  : list Parsed.holding * list Parsed.warning :=
  let mapping := GenericCSVParser.detect mf_patterns (columns df) in
  collect (parse_mutual_fund_row mapping sheet_name) df.

End Parser.

End ExcelParser.

(** ** [PDFParser] (pdf_parser.py) *)

Module PDFParser.

Import PyFloat.

(** [text.find(p)]; [None] is Python's [-1]. *)
Fixpoint find_index (p s : string) : option nat :=
  if startswith p s then Some 0
  else match s with
       | EmptyString => None
       | String _ s' => option_map S (find_index p s')
       end.

(** [sum(1 for keyword in keywords if keyword in text_lower) >= 3]. *)
Definition has_three (keywords : list string) (text : string) : bool :=
  3 <=? List.length (filter (fun keyword => contains keyword (lower text)) keywords).

(** [_is_mutual_fund_statement] (lines 49-54). *)
Definition _is_mutual_fund_statement (text : string) : bool :=
  has_three
    [ "mutual fund"; "scheme"; "nav"; "folio"; "units"; "redemption"; "amc";
      "fund house" ] text.

(** Lines 71-76: the patterns, as the source spells them. *)
Definition scheme_pattern : string := "([A-Za-z\s]+(?:Fund|Scheme)[^\n]*)".
Definition units_pattern : string :=
  "(?:Balance|Units|Closing)\s*:?\s*([\d,]+\.?\d*)".
Definition nav_pattern : string :=
  "NAV\s*(?:as\s*on[^:]*)?:?\s*₹?\s*([\d,]+\.?\d*)".
Definition number_pattern : string := "[\d,]+\.?\d*".

(** [' '.join(l)]. *)
Definition join_spaces (l : list string) : string := String.concat " " l.

(** [re.search(r'(Fund|ELSS|...)', line, re.IGNORECASE)] as a truth value. *)
Definition has_fund_word (line : string) : bool :=
  existsb (fun w => contains w (lower line))
    [ "fund"; "elss"; "liquid"; "debt"; "equity"; "growth"; "dividend" ].

Section Parser.

Variable py_float : string -> option float.

(** Python's [re] module: [re.findall(pattern, text)] for a pattern with
    at most one group, and group 1 of [re.search(pattern, text)]
    ([None] when there is no match).  [re.IGNORECASE] is passed only
    with [scheme_pattern]. *)
Variable re_findall : string -> string -> list string.
Variable re_search : string -> string -> option string.

(** [float(s.replace(',', ''))]. *)
Definition float_no_commas (s : string) : option float :=
  py_float (remove_char "," s).

(** Lines 83-135: one scheme found in the text; the holding appended,
    if any, and the warnings appended. *)
Definition parse_scheme (text scheme : string)
  : option Parsed.holding * list Parsed.warning :=
  match find_index scheme text with
  | None => (None, [])
  | Some scheme_pos =>
      let nearby_text := slice scheme_pos (scheme_pos + 500) text in
      let unparsed (field msg : string) :=
        {| Parsed.w_symbol := scheme;
           Parsed.missing_fields := [field];
           Parsed.row_number := None;
           Parsed.sheet := None;
           Parsed.message := Some msg |} in
      let '(quantity, warn_q) :=
        match re_search units_pattern nearby_text with
        | Some g =>
            match float_no_commas g with
            | Some f => (f, [])
            | None =>
                (zero, [unparsed "quantity" "Could not parse units value"])
            end
        | None => (zero, [])
        end in
      let '(current_price, average_price, warn_n) :=
        match re_search nav_pattern nearby_text with
        | Some g =>
            match float_no_commas g with
            | Some nav => (nav, nav, [])
            | None =>
                (zero, zero, [unparsed "nav" "Could not parse NAV value"])
            end
        | None => (zero, zero, [])
        end in
      let current_value :=
        if gt quantity zero && gt current_price zero
        then (quantity * current_price)%float else zero in
      let scheme_data :=
        {| Parsed.symbol := take 50 (strip scheme);
           Parsed.exchange := "MF";
           Parsed.asset_type := "mutual_fund";
           Parsed.quantity := quantity;
           Parsed.average_price := average_price;
           Parsed.current_price := current_price;
           Parsed.current_value := current_value;
           Parsed.pnl := zero;
           Parsed.pnl_percentage := zero;
           Parsed.isin := None;
           Parsed.scheme_code := None |} in
      (if gt quantity zero then Some scheme_data else None,
       (warn_q ++ warn_n)%list)
  end.

(** The loop of lines 82-135 over the schemes. *)
Definition parse_schemes (text : string) (schemes : list string)
  : list Parsed.holding * list Parsed.warning :=
  fold_left
    (fun '(holdings, warnings) scheme =>
       let '(h, ws) := parse_scheme text scheme in
       ((holdings ++ match h with Some x => [x] | None => [] end)%list,
        (warnings ++ ws)%list))
    schemes ([], []).

(** Lines 155-184: the holding of the table line at the head of
    [lines], if one is appended. *)
Definition parse_table_line (lines : list string) : option Parsed.holding :=
  match lines with
  | [] => None
  | line :: _ =>
      if has_fund_word line then
        match re_findall number_pattern (join_spaces (firstn 5 lines)) with
        | n0 :: n1 :: _ =>
            match float_no_commas n0, float_no_commas n1 with
            | Some units, Some nav =>
                if gt units zero && lt units million then
                  Some {| Parsed.symbol := take 50 (strip line);
                          Parsed.exchange := "MF";
                          Parsed.asset_type := "mutual_fund";
                          Parsed.quantity := units;
                          Parsed.average_price := nav;
                          Parsed.current_price := nav;
                          Parsed.current_value := (units * nav)%float;
                          Parsed.pnl := zero;
                          Parsed.pnl_percentage := zero;
                          Parsed.isin := None;
                          Parsed.scheme_code := None |}
                else None
            | _, _ => None
            end
        | _ => None
        end
      else None
  end.

(** The loop of [_extract_mf_table_data] over [lines[i:]], [i = 0, 1, ...]. *)
Fixpoint table_holdings (lines : list string) : list Parsed.holding :=
  match lines with
  | [] => []
  | _ :: rest =>
      (match parse_table_line lines with
       | Some h => [h]
       | None => []
       end ++ table_holdings rest)%list
  end.

(** [_extract_mf_table_data] (lines 145-186). *)
Definition _extract_mf_table_data (text : string)
  : list Parsed.holding * list Parsed.warning :=
  (table_holdings (ZerodhaCSVParser.split_lines text), []).

(** [_parse_mutual_fund_statement] (lines 65-142). *)
Definition _parse_mutual_fund_statement (text : string)
  : list Parsed.holding * list Parsed.warning :=
  match parse_schemes text (re_findall scheme_pattern text) with
  | ([], _) => _extract_mf_table_data text
  | (holdings, warnings) => (holdings, warnings)
  end.

(** [_is_demat_statement] (lines 57-62). *)
Definition _is_demat_statement (text : string) : bool :=
  has_three
    [ "demat"; "cdsl"; "nsdl"; "isin"; "depository"; "securities"; "shares" ]
    text.

(** Lines 195-196 and 250: the patterns, as the source spells them. *)
Definition isin_pattern : string := "(IN[A-Z0-9]{9})\s+([A-Za-z\s&\.\-]+)".
Definition quantity_pattern : string := "([\d,]+)\s*(?:shares?|units?)".
Definition pattern1 : string :=
  "([A-Z]{2,}[A-Z0-9\-]*)\s+([\d,]+)\s+([\d,]+\.?\d*)".

(** [re.findall] for a pattern with two groups and with three. *)
Variable re_findall2 : string -> string -> list (string * string).
Variable re_findall3 : string -> string -> list (string * string * string).

(** [s.replace(old, '')] for a non-empty [old]: its occurrences from the
    left, without overlap; [skip] characters of an occurrence are still to
    be left out. *)
Fixpoint remove_from (skip : nat) (old s : string) : string :=
  match s with
  | EmptyString => EmptyString
  | String c s' =>
      match skip with
      | S k => remove_from k old s'
      | 0 =>
          if startswith old s
          then remove_from (String.length old - 1) old s'
          else String c (remove_from 0 old s')
      end
  end.

(** Lines 202-236: one match of [isin_pattern]; the holding appended, if
    any, and the warnings appended. *)
Definition parse_isin_match (text : string) (m : string * string)
  : option Parsed.holding * list Parsed.warning :=
  let '(isin, company_name) := m in
  let symbol :=
    remove_from 0 " LIMITED"
      (remove_from 0 " LTD" (upper (strip company_name))) in
  let '(quantity, warn_q) :=
    match find_index isin text with
    | Some isin_pos =>
        let nearby_text := slice isin_pos (isin_pos + 200) text in
        match re_search quantity_pattern nearby_text with
        | Some g =>
            match float_no_commas g with
            | Some f => (f, [])
            | None =>
                (zero,
                 [ {| Parsed.w_symbol := company_name;
                      Parsed.missing_fields := ["quantity"];
                      Parsed.row_number := None;
                      Parsed.sheet := None;
                      Parsed.message := Some "Could not parse quantity" |} ])
            end
        | None => (zero, [])
        end
    | None => (zero, [])
    end in
  if gt quantity zero then
    (Some {| Parsed.symbol := symbol;
             Parsed.exchange := "NSE";
             Parsed.asset_type := "stock";
             Parsed.quantity := quantity;
             Parsed.average_price := zero;
             Parsed.current_price := zero;
             Parsed.current_value := zero;
             Parsed.pnl := zero;
             Parsed.pnl_percentage := zero;
             Parsed.isin := Some isin;
             Parsed.scheme_code := None |},
     (warn_q ++
      [ {| Parsed.w_symbol := symbol;
           Parsed.missing_fields := ["average_price"; "current_price"];
           Parsed.row_number := None;
           Parsed.sheet := None;
           Parsed.message :=
             Some "Prices will be fetched from market data" |} ])%list)
  else (None, warn_q).

(** [_parse_demat_statement] (lines 189-238). *)
Definition _parse_demat_statement (text : string)
  : list Parsed.holding * list Parsed.warning :=
  fold_left
    (fun '(holdings, warnings) m =>
       let '(h, ws) := parse_isin_match text m in
       ((holdings ++ match h with Some x => [x] | None => [] end)%list,
        (warnings ++ ws)%list))
    (re_findall2 isin_pattern text) ([], []).

(** Lines 253-271: one match of [pattern1]; no holding when a number
    cannot be read or the quantity is out of range. *)
Definition parse_generic_match (m : string * string * string)
  : option Parsed.holding :=
  let '(symbol, quantity, price) := m in
  match float_no_commas quantity, float_no_commas price with
  | Some q, Some p =>
      if gt q zero && lt q million then
        Some {| Parsed.symbol := symbol;
                Parsed.exchange := "NSE";
                Parsed.asset_type := "stock";
                Parsed.quantity := q;
                Parsed.average_price := p;
                Parsed.current_price := zero;
                Parsed.current_value := zero;
                Parsed.pnl := zero;
                Parsed.pnl_percentage := zero;
                Parsed.isin := None;
                Parsed.scheme_code := None |}
      else None
  | _, _ => None
  end.

(** [_parse_generic_pdf] (lines 241-280). *)
Definition _parse_generic_pdf (text : string)
  : list Parsed.holding * list Parsed.warning :=
  let holdings :=
    flat_map
      (fun m =>
         match parse_generic_match m with
         | Some h => [h]
         | None => []
         end)
      (re_findall3 pattern1 text) in
  (holdings,
   match holdings with
   | [] =>
       [ {| Parsed.w_symbol := "PDF";
            Parsed.missing_fields := ["all"];
            Parsed.row_number := None;
            Parsed.sheet := None;
            Parsed.message :=
              Some "Could not parse PDF format. Please check if this is a valid holdings statement." |} ]
   | _ => []
   end).

(** [parse_pdf_file] (lines 12-46).  [pages] is the text PyPDF2 extracts
    from each page, or the exception it raises. *)
Definition parse_pdf_file (contents : string) (pages : result (list string))
  : result (list Parsed.holding * list Parsed.warning) :=
  if negb (PyStr.truthy contents) then
    Raised "The uploaded file is empty. Please select a valid PDF file."
  else
    match pages with
    | Raised e => Raised ("Error parsing PDF file: " ++ e)
    | Ok page_texts =>
        let text :=
          String.concat ""
            (map (fun page => page ++ String Re.newline EmptyString)
               page_texts) in
        Ok (if _is_mutual_fund_statement text
            then _parse_mutual_fund_statement text
            else if _is_demat_statement text
            then _parse_demat_statement text
            else _parse_generic_pdf text)
    end.

End Parser.

End PDFParser.

(** ** The persisted records (app/db/models.py)

    [Holding] without its surrogate [id], [portfolio_id] and
    [last_updated]: the handlers never read them, and a row is identified
    here by its position in the table. *)

Module models.

Inductive AssetType : Type := STOCK | MUTUAL_FUND | SGB | ETF | REIT.

Definition AssetType_eqb (a b : AssetType) : bool :=
  match a, b with
  | STOCK, STOCK | MUTUAL_FUND, MUTUAL_FUND | SGB, SGB | ETF, ETF
  | REIT, REIT => true
  | _, _ => false
  end.

Record Holding : Type := mkHolding {
  platform_account_id : nat;
  symbol : string;
  exchange : option string;
  asset_type : AssetType;
  quantity : float;
  average_price : float;
  current_price : float;
  current_value : float;
  pnl : float;
  pnl_percentage : float;
  scheme_code : option string;
  isin : option string
}.

Record ImportHistory : Type := mkImportHistory {
  import_status : string;
  records_imported : nat;
  error_message : option string
}.

End models.

(** ** The database session

    What the handlers use of a SQLAlchemy [Session] on the holdings table:
    [table] is the committed table, [rows] the table as the session's
    queries see it (committed rows with the attribute changes made in this
    transaction, followed by the flushed new rows) and [pending] the objects
    given to [db.add] and not flushed yet.  Whether a query flushes the
    pending objects first is the session's [autoflush] setting, fixed in
    [app/db/database.py]; it is a parameter of the handlers. *)

Module Db.

Import models.

Record Session : Type := mkSession {
  table : list Holding;
  rows : list Holding;
  pending : list Holding
}.

(** A session opened on a committed table. *)
Definition open (t : list Holding) : Session :=
  {| table := t; rows := t; pending := [] |}.

Definition flush (s : Session) : Session :=
  {| table := table s; rows := rows s ++ pending s; pending := [] |}.

(** [db.commit()]. *)
Definition commit (s : Session) : Session :=
  open (rows s ++ pending s).

(** [db.rollback()]. *)
Definition rollback (s : Session) : Session := open (table s).

(** [db.add(h)]. *)
Definition add (h : Holding) (s : Session) : Session :=
  {| table := table s; rows := rows s; pending := pending s ++ [h] |}.

(** The session when a query is about to run. *)
Definition before_query (autoflush : bool) (s : Session) : Session :=
  if autoflush then flush s else s.

(** The object that was the first result of a query is assigned new
    attribute values: the first row that satisfies [p] becomes [f] of it. *)
Fixpoint assign_first (p : Holding -> bool) (f : Holding -> Holding)
  (l : list Holding) : list Holding :=
  match l with
  | [] => []
  | h :: l' => if p h then f h :: l' else h :: assign_first p f l'
  end.

Definition assign (p : Holding -> bool) (f : Holding -> Holding)
  (s : Session) : Session :=
  {| table := table s; rows := assign_first p f (rows s);
     pending := pending s |}.

End Db.

(** ** The upload handlers (app/api/v1/endpoints/uploads.py): persistence *)

Module Uploads.

Import models Db.

(** The four handlers: [upload_zerodha_holdings],
    [upload_generic_holdings], [upload_excel_holdings],
    [upload_pdf_holdings]. *)
Inductive handler : Type := Zerodha | Generic | Excel | Pdf.

(** [asset_type_map] of each handler; the one of the Excel handler
    (lines 501-506) has no ['REIT'] entry. *)
Definition asset_type_map (hd : handler) : list (string * AssetType) :=
  match hd with
  | Excel =>
      [ ("STOCK", STOCK); ("ETF", ETF); ("MUTUAL_FUND", MUTUAL_FUND);
        ("SGB", SGB) ]
  | _ =>
      [ ("STOCK", STOCK); ("ETF", ETF); ("MUTUAL_FUND", MUTUAL_FUND);
        ("SGB", SGB); ("REIT", REIT) ]
  end.

(** [asset_type_map.get(holding_data.get('asset_type', 'stock').upper(),
    models.AssetType.STOCK)]. *)
Definition asset_type_of (hd : handler) (holding_data : Parsed.holding)
  : AssetType :=
  match dict_get (upper (Parsed.asset_type holding_data)) (asset_type_map hd)
  with
  | Some a => a
  | None => STOCK
  end.

(** The filter of the query for an existing holding. *)
Definition same_key (platform_account_id : nat) (sym : string)
  (a : AssetType) (h : Holding) : bool :=
  (models.platform_account_id h =? platform_account_id)
  && String.eqb (models.symbol h) sym
  && AssetType_eqb (models.asset_type h) a.

Definition key_filter (hd : handler) (platform_account_id : nat)
  (holding_data : Parsed.holding) : Holding -> bool :=
  same_key platform_account_id (Parsed.symbol holding_data)
    (asset_type_of hd holding_data).

(** The six assignments every handler makes to an existing holding. *)
Definition overwrite (holding_data : Parsed.holding) (h : Holding) : Holding :=
  {| platform_account_id := platform_account_id h;
     symbol := symbol h;
     exchange := exchange h;
     asset_type := asset_type h;
     quantity := Parsed.quantity holding_data;
     average_price := Parsed.average_price holding_data;
     current_price := Parsed.current_price holding_data;
     current_value := Parsed.current_value holding_data;
     pnl := Parsed.pnl holding_data;
     pnl_percentage := Parsed.pnl_percentage holding_data;
     scheme_code := scheme_code h;
     isin := isin h |}.

(** [if 'isin' in holding_data and holding_data['isin']:
       existing_holding.isin = holding_data['isin']]. *)
Definition set_isin (holding_data : Parsed.holding) (h : Holding) : Holding :=
  if truthy_opt (Parsed.isin holding_data) then
    {| platform_account_id := platform_account_id h; symbol := symbol h;
       exchange := exchange h; asset_type := asset_type h;
       quantity := quantity h; average_price := average_price h;
       current_price := current_price h; current_value := current_value h;
       pnl := pnl h; pnl_percentage := pnl_percentage h;
       scheme_code := scheme_code h;
       isin := Parsed.isin holding_data |}
  else h.

(** The same for [scheme_code] (lines 529-530). *)
Definition set_scheme_code (holding_data : Parsed.holding) (h : Holding)
  : Holding :=
  if truthy_opt (Parsed.scheme_code holding_data) then
    {| platform_account_id := platform_account_id h; symbol := symbol h;
       exchange := exchange h; asset_type := asset_type h;
       quantity := quantity h; average_price := average_price h;
       current_price := current_price h; current_value := current_value h;
       pnl := pnl h; pnl_percentage := pnl_percentage h;
       scheme_code := Parsed.scheme_code holding_data;
       isin := isin h |}
  else h.

(** The assignments of each handler to an existing holding. *)
Definition update_existing (hd : handler) (holding_data : Parsed.holding)
  (h : Holding) : Holding :=
  match hd with
  | Zerodha | Pdf => set_isin holding_data (overwrite holding_data h)
  | Generic => overwrite holding_data h
  | Excel => set_scheme_code holding_data (overwrite holding_data h)
  end.

(** [models.Holding(...)] of each handler; only the Excel handler passes
    [scheme_code]. *)
Definition new_holding (hd : handler) (platform_account_id : nat)
  (holding_data : Parsed.holding) : Holding :=
  {| platform_account_id := platform_account_id;
     symbol := Parsed.symbol holding_data;
     exchange := Some (Parsed.exchange holding_data);
     asset_type := asset_type_of hd holding_data;
     quantity := Parsed.quantity holding_data;
     average_price := Parsed.average_price holding_data;
     current_price := Parsed.current_price holding_data;
     current_value := Parsed.current_value holding_data;
     pnl := Parsed.pnl holding_data;
     pnl_percentage := Parsed.pnl_percentage holding_data;
     scheme_code :=
       match hd with
       | Excel => Parsed.scheme_code holding_data
       | _ => None
       end;
     isin := Parsed.isin holding_data |}.

(** The counters of a handler, the advisories of the Zerodha handler
    ([duplicate_holdings]) and the session. *)
Record duplicate : Type := mkDuplicate {
  d_symbol : string;
  old_quantity : float;
  new_quantity : float;
  old_avg_price : float;
  new_avg_price : float
}.

Record state : Type := mkState {
  session : Session;
  imported_count : nat;
  updated_count : nat;
  skipped_count : nat;
  duplicate_holdings : list duplicate
}.

Definition start (s : Session) : state :=
  {| session := s; imported_count := 0; updated_count := 0;
     skipped_count := 0; duplicate_holdings := [] |}.

(** [existing_holding.quantity == holding_data['quantity'] and
    existing_holding.average_price == holding_data['average_price']]. *)
Definition unchanged (existing : Holding) (holding_data : Parsed.holding)
  : bool :=
  PyFloat.eq (quantity existing) (Parsed.quantity holding_data)
  && PyFloat.eq (average_price existing) (Parsed.average_price holding_data).

(** An exception of the persistence phase.  The bodies of the loops
    raise nothing by themselves on parsed holdings; what can raise is the
    database (a query, a flush, the commit).  [RaiseAt k e] is the
    exception [e] raised while the [k]-th holding of the batch is
    processed, counted from 0 in processing order, or by the [db.commit()]
    that follows the loop when [k] is the number of holdings. *)
Inductive fault : Type :=
| NoFault
| RaiseAt (k : nat) (e : string).

Definition raised_at (f : fault) (i : nat) : option string :=
  match f with
  | RaiseAt k e => if k =? i then Some e else None
  | NoFault => None
  end.

(** The end of a phase: its state, or the exception that left it and the
    session as it was then. *)
Inductive outcome (S : Type) : Type :=
| Done (st : S)
| Failed (db : Session) (e : string).

Arguments Done {S} st.
Arguments Failed {S} db e.

Section Persistence.

Variable autoflush : bool.
Variable platform_account_id : nat.

(** The body of the loop of [upload_zerodha_holdings] (lines 82-139):
    an existing holding is always updated, and [imported_count] is
    incremented in either case (line 139). *)
Definition zerodha_body (st : state) (holding_data : Parsed.holding)
  : state :=
  let db := before_query autoflush (session st) in
  let q := key_filter Zerodha platform_account_id holding_data in
  match find q (rows db) with
  | Some existing_holding =>
      {| session := assign q (update_existing Zerodha holding_data) db;
         imported_count := imported_count st + 1;
         updated_count := updated_count st + 1;
         skipped_count := skipped_count st;
         duplicate_holdings :=
           duplicate_holdings st ++
           [ {| d_symbol := Parsed.symbol holding_data;
                old_quantity := quantity existing_holding;
                new_quantity := Parsed.quantity holding_data;
                old_avg_price := average_price existing_holding;
                new_avg_price := Parsed.average_price holding_data |} ] |}
  | None =>
      {| session :=
           add (new_holding Zerodha platform_account_id holding_data) db;
         imported_count := imported_count st + 1;
         updated_count := updated_count st;
         skipped_count := skipped_count st;
         duplicate_holdings := duplicate_holdings st |}
  end.

(** The body of the loops of [upload_generic_holdings] (lines 307-360),
    [upload_excel_holdings] (lines 498-549) and [upload_pdf_holdings]
    (lines 708-762); they differ in [asset_type_map], in
    [update_existing] and in [new_holding]. *)
Definition three_way_body (hd : handler) (st : state)
  (holding_data : Parsed.holding) : state :=
  let db := before_query autoflush (session st) in
  let q := key_filter hd platform_account_id holding_data in
  match find q (rows db) with
  | Some existing_holding =>
      if unchanged existing_holding holding_data then
        {| session := db;
           imported_count := imported_count st;
           updated_count := updated_count st;
           skipped_count := skipped_count st + 1;
           duplicate_holdings := duplicate_holdings st |}
      else
        {| session := assign q (update_existing hd holding_data) db;
           imported_count := imported_count st;
           updated_count := updated_count st + 1;
           skipped_count := skipped_count st;
           duplicate_holdings := duplicate_holdings st |}
  | None =>
      {| session := add (new_holding hd platform_account_id holding_data) db;
         imported_count := imported_count st + 1;
         updated_count := updated_count st;
         skipped_count := skipped_count st;
         duplicate_holdings := duplicate_holdings st |}
  end.

Definition body (hd : handler) : state -> Parsed.holding -> state :=
  match hd with
  | Zerodha => zerodha_body
  | _ => three_way_body hd
  end.

(** [for holding_data in holdings_data: ...], the [i]-th holding of the
    batch first. *)
Fixpoint process_from (f : fault) (i : nat) (hd : handler)
  (holdings_data : list Parsed.holding) (st : state) : outcome state :=
  match holdings_data with
  | [] => Done st
  | holding_data :: rest =>
      let st' := body hd st holding_data in
      match raised_at f i with
      | Some e => Failed (session st') e
      | None => process_from f (S i) hd rest st'
      end
  end.

(** The persistence phase of the Zerodha, generic and PDF handlers: the
    loop, then [db.commit()]. *)
Definition persist (f : fault) (hd : handler)
  (holdings_data : list Parsed.holding) (db : Session) : outcome state :=
  match process_from f 0 hd holdings_data (start db) with
  | Failed db' e => Failed db' e
  | Done st =>
      match raised_at f (List.length holdings_data) with
      | Some e => Failed (session st) e
      | None =>
          Done {| session := commit (session st);
                  imported_count := imported_count st;
                  updated_count := updated_count st;
                  skipped_count := skipped_count st;
                  duplicate_holdings := duplicate_holdings st |}
      end
  end.

End Persistence.

(** ** Price enrichment *)

(** A call of the market-data services (app/services/market_data.py). *)
Inductive call : Type :=
| StockInfo (symbol exchange_suffix : string)
| FundInfo (scheme_code : string)
| FundSearch (query : string).

(** Lines 157-162: the Yahoo suffix of the exchange of a holding. *)
Definition exchange_suffix (h : Holding) : string :=
  match exchange h with
  | Some e =>
      if PyStr.truthy e then
        if String.eqb (upper e) "NSE" then "NS"
        else if String.eqb (upper e) "BSE" then "BO"
        else "NS"
      else "NS"
  | None => "NS"
  end.

(** Lines 166-169: the four assignments, in order.  The division of the
    fourth raises [ZeroDivisionError] when [quantity * average_price] is
    zero; the first three assignments are made by then.  The result is
    the holding and whether the fourth assignment was reached. *)
Definition reprice (price : float) (h : Holding) : Holding * bool :=
  let value := (quantity h * price)%float in
  let gain := (value - quantity h * average_price h)%float in
  let priced (pct : float) :=
    {| platform_account_id := platform_account_id h; symbol := symbol h;
       exchange := exchange h; asset_type := asset_type h;
       quantity := quantity h; average_price := average_price h;
       current_price := price; current_value := value;
       pnl := gain; pnl_percentage := pct;
       scheme_code := scheme_code h; isin := isin h |} in
  match py_div gain (quantity h * average_price h)%float with
  | Ok q => (priced (q * PyFloat.hundred)%float, true)
  | Raised _ => (priced (pnl_percentage h), false)
  end.

(** Line 809: [holding.scheme_code = info[0]['schemeCode']]. *)
Definition with_scheme_code (code : string) (h : Holding) : Holding :=
  {| platform_account_id := platform_account_id h; symbol := symbol h;
     exchange := exchange h; asset_type := asset_type h;
     quantity := quantity h; average_price := average_price h;
     current_price := current_price h; current_value := current_value h;
     pnl := pnl h; pnl_percentage := pnl_percentage h;
     scheme_code := Some code; isin := isin h |}.

(** The filter of the enrichment query (lines 148-151). *)
Definition needs_price (platform_account_id : nat) (h : Holding) : bool :=
  (models.platform_account_id h =? platform_account_id)
  && PyFloat.eq (current_price h) PyFloat.zero.

Section Enrichment.

(** The services.  A result [Raised e] is an exception that reaches
    the handler, [Ok None] an answer the handler does not use ([None],
    or no price in it); [search_mutual_fund] answers with the scheme
    codes of the funds found. *)
Variable get_stock_info : string -> string -> result (option float).
Variable get_mutual_fund_info : string -> result (option float).
Variable search_mutual_fund : string -> result (list string).

(** The outcome of the [try] block for one holding: the holding as the
    block left it, the increment of [price_update_count] and the calls
    made, in order. *)
Definition enriched : Type := Holding * nat * list call.

Definition count_of (done : bool) : nat := if done then 1 else 0.

(** Lines 155-172 (and 376-393, 577-594, 778-795). *)
Definition enrich_stock (h : Holding) : enriched :=
  let calls := [StockInfo (symbol h) (exchange_suffix h)] in
  match get_stock_info (symbol h) (exchange_suffix h) with
  | Ok (Some price) =>
      if PyFloat.nonzero price then
        let '(h', done) := reprice price h in (h', count_of done, calls)
      else (h, 0, calls)
  | Ok None | Raised _ => (h, 0, calls)
  end.

(** Lines 174-182 and 596-604: by [scheme_code], when one is stored. *)
Definition enrich_fund_by_code (h : Holding) : enriched :=
  match scheme_code h with
  | Some code =>
      if PyStr.truthy code then
        match get_mutual_fund_info code with
        | Ok (Some nav) =>
            let '(h', done) := reprice nav h in
            (h', count_of done, [FundInfo code])
        | Ok None | Raised _ => (h, 0, [FundInfo code])
        end
      else (h, 0, [])
  | None => (h, 0, [])
  end.

(** Lines 797-810: by a search on the name. *)
Definition enrich_fund_by_search (h : Holding) : enriched :=
  match search_mutual_fund (symbol h) with
  | Ok (code :: _) =>
      match get_mutual_fund_info code with
      | Ok (Some nav) =>
          let '(h', done) := reprice nav h in
          (if done then with_scheme_code code h' else h', count_of done,
           [FundSearch (symbol h); FundInfo code])
      | Ok None | Raised _ => (h, 0, [FundSearch (symbol h); FundInfo code])
      end
  | Ok [] | Raised _ => (h, 0, [FundSearch (symbol h)])
  end.

(** The [try] block of each handler. *)
Definition enrich_one (hd : handler) (h : Holding) : enriched :=
  match asset_type h with
  | STOCK | ETF => enrich_stock h
  | MUTUAL_FUND =>
      match hd with
      | Zerodha | Excel => enrich_fund_by_code h
      | Generic => (h, 0, [])
      | Pdf => enrich_fund_by_search h
      end
  | SGB | REIT => (h, 0, [])
  end.

(** The enrichment loop over the result of the query; the holdings it
    does not select stay as they are. *)
Fixpoint enrich_rows (hd : handler) (platform_account_id : nat)
  (l : list Holding) : list Holding * nat * list call :=
  match l with
  | [] => ([], 0, [])
  | h :: l' =>
      let '(h', n, cs) :=
        if needs_price platform_account_id h then enrich_one hd h
        else (h, 0, []) in
      let '(l'', m, cs') := enrich_rows hd platform_account_id l' in
      (h' :: l'', n + m, (cs ++ cs')%list)
  end.

End Enrichment.

(** ** The handlers *)

(** The counters of the JSON answer; the Zerodha handler answers without
    [skipped_count]. *)
Record response : Type := mkResponse {
  r_imported_count : nat;
  r_updated_count : nat;
  r_skipped_count : option nat;
  r_prices_updated : nat;
  r_duplicate_holdings : list duplicate;
  r_warnings : list Parsed.warning
}.

(** What a request leaves: the session after its last commit, the import
    record, the answer (or the [HTTPException]) and the service calls of
    the enrichment. *)
Record run : Type := mkRun {
  db_after : Session;
  import_record : ImportHistory;
  answer : result response;
  calls : list call
}.

Definition failure_detail : string :=
  "Failed to process the uploaded file. Please check the file format and try again.".

(** The [except Exception] clause of every handler (lines 209-215):
    [db.rollback()], the import record marked, [db.commit()]. *)
Definition on_exception (db : Session) (e : string) : run :=
  {| db_after := commit (rollback db);
     import_record :=
       {| import_status := "failed"; records_imported := 0;
          error_message := Some e |};
     answer := Raised failure_detail;
     calls := [] |}.

Record sheet_data : Type := mkSheet {
  sheet_key : string;
  sheet_type : string;
  data : list Parsed.holding;
  warnings : list Parsed.warning
}.

Record sheet_summary : Type := mkSummary {
  s_sheet : string;
  s_type : string;
  s_imported : nat;
  s_updated : nat;
  s_skipped : nat
}.

(** The totals of the Excel handler (lines 476-480). *)
Record totals : Type := mkTotals {
  x_session : Session;
  total_imported : nat;
  total_updated : nat;
  total_skipped : nat;
  all_warnings : list Parsed.warning;
  sheet_summaries : list sheet_summary
}.

Section Handlers.

Variable autoflush : bool.
Variable get_stock_info : string -> string -> result (option float).
Variable get_mutual_fund_info : string -> result (option float).
Variable search_mutual_fund : string -> result (list string).

(** The enrichment phase: the loop over the holdings selected, then
    [db.commit()]. *)
Definition enrich (hd : handler) (platform_account_id : nat) (db : Session)
  : Session * nat * list call :=
  let '(rows', n, cs) :=
    enrich_rows get_stock_info get_mutual_fund_info search_mutual_fund
      hd platform_account_id (rows db) in
  (commit {| table := table db; rows := rows'; pending := pending db |},
   n, cs).

(** [upload_zerodha_holdings], [upload_generic_holdings] and
    [upload_pdf_holdings] from the parsed holdings on: the import record
    is committed as ["processing"], then persistence, enrichment and
    the answer. *)
Definition upload (hd : handler) (f : fault) (platform_account_id : nat)
  (holdings_data : list Parsed.holding)
  (parse_warnings : list Parsed.warning) (db : Session) : run :=
  match
    persist autoflush platform_account_id f hd holdings_data (commit db)
  with
  | Failed db' e => on_exception db' e
  | Done st =>
      let '(db', price_update_count, cs) :=
        enrich hd platform_account_id (session st) in
      {| db_after := db';
         import_record :=
           {| import_status := "success";
              records_imported := imported_count st;
              error_message := None |};
         answer :=
           Ok {| r_imported_count := imported_count st;
                 r_updated_count := updated_count st;
                 r_skipped_count :=
                   match hd with
                   | Zerodha => None
                   | _ => Some (skipped_count st)
                   end;
                 r_prices_updated := price_update_count;
                 r_duplicate_holdings := duplicate_holdings st;
                 r_warnings :=
                   match hd with
                   | Zerodha => []
                   | _ => parse_warnings
                   end |};
         calls := cs |}
  end.

(** The loop over the sheets of [upload_excel_holdings] (lines
    484-561); [i] holdings were processed before [sheets]. *)
Fixpoint process_sheets (f : fault) (i : nat) (platform_account_id : nat)
  (sheets : list sheet_data) (t : totals) : outcome totals :=
  match sheets with
  | [] => Done t
  | sh :: rest =>
      match
        process_from autoflush platform_account_id f i Excel (data sh)
          (start (x_session t))
      with
      | Failed db' e => Failed db' e
      | Done st =>
          process_sheets f (i + List.length (data sh)) platform_account_id
            rest
            {| x_session := session st;
               total_imported := total_imported t + imported_count st;
               total_updated := total_updated t + updated_count st;
               total_skipped := total_skipped t + skipped_count st;
               all_warnings := all_warnings t ++ warnings sh;
               sheet_summaries :=
                 sheet_summaries t ++
                 [ {| s_sheet := sheet_key sh; s_type := sheet_type sh;
                      s_imported := imported_count st;
                      s_updated := updated_count st;
                      s_skipped := skipped_count st |} ] |}
      end
  end.

(** The number of holdings of all the sheets. *)
Definition holdings_of (sheets : list sheet_data) : list Parsed.holding :=
  flat_map data sheets.

(** [upload_excel_holdings] from the parsed sheets on. *)
Definition upload_excel (f : fault) (platform_account_id : nat)
  (sheets : list sheet_data) (db : Session) : run :=
  let db0 := commit db in
  match
    process_sheets f 0 platform_account_id sheets
      {| x_session := db0; total_imported := 0; total_updated := 0;
         total_skipped := 0; all_warnings := []; sheet_summaries := [] |}
  with
  | Failed db' e => on_exception db' e
  | Done t =>
      match raised_at f (List.length (holdings_of sheets)) with
      | Some e => on_exception (x_session t) e
      | None =>
          let '(db', price_update_count, cs) :=
            enrich Excel platform_account_id (commit (x_session t)) in
          {| db_after := db';
             import_record :=
               {| import_status := "success";
                  records_imported := total_imported t;
                  error_message := None |};
             answer :=
               Ok {| r_imported_count := total_imported t;
                     r_updated_count := total_updated t;
                     r_skipped_count := Some (total_skipped t);
                     r_prices_updated := price_update_count;
                     r_duplicate_holdings := [];
                     r_warnings := all_warnings t |};
             calls := cs |}
      end
  end.

End Handlers.

End Uploads.

(** ** The account of a file name (uploads.py)

    [account_pattern] is
    [(?:holdings[-_])?([A-Z0-9]{6})(?:[-_]|\.)]; it is matched by the
    functions below, which follow the backtracking of [re]: at each
    position the optional group first, then the match without it. *)

Module FileAccount.

(** [[A-Z0-9]]. *)
Definition is_id_char (c : ascii) : bool :=
  let n := nat_of_ascii c in
  ((65 <=? n) && (n <=? 90)) || ((48 <=? n) && (n <=? 57)).

(** [(?:[-_]|\.)]. *)
Definition is_separator (c : ascii) : bool :=
  Ascii.eqb c "-" || Ascii.eqb c "_" || Ascii.eqb c ".".

(** [([A-Z0-9]{n})] at the head of [s]: the group and what follows it. *)
Fixpoint id_chars (n : nat) (s : string) : option (string * string) :=
  match n with
  | 0 => Some (EmptyString, s)
  | S n' =>
      match s with
      | String c s' =>
          if is_id_char c then
            match id_chars n' s' with
            | Some (g, rest) => Some (String c g, rest)
            | None => None
            end
          else None
      | EmptyString => None
      end
  end.

(** [([A-Z0-9]{6})(?:[-_]|\.)] at the head of [s]: group 1. *)
Definition id_then_separator (s : string) : option string :=
  match id_chars 6 s with
  | Some (g, String c _) => if is_separator c then Some g else None
  | _ => None
  end.

(** [holdings[-_]] at the head of [s]: what follows it. *)
Definition holdings_prefix (s : string) : option string :=
  if startswith "holdings" s then
    match Re.drop 8 s with
    | String c rest =>
        if Ascii.eqb c "-" || Ascii.eqb c "_" then Some rest else None
    | EmptyString => None
    end
  else None.

(** A match of [account_pattern] at the head of [s]: the optional group
    is tried first, and left out when the rest does not match after it. *)
Definition match_here (s : string) : option string :=
  match
    match holdings_prefix s with
    | Some rest => id_then_separator rest
    | None => None
    end
  with
  | Some g => Some g
  | None => id_then_separator s
  end.

(** [matches[0]] of [re.findall(account_pattern, s)]: group 1 of the
    leftmost match; [None] when the list is empty. *)
Fixpoint first_match (s : string) : option string :=
  match match_here s with
  | Some g => Some g
  | None =>
      match s with
      | EmptyString => None
      | String _ s' => first_match s'
      end
  end.

(** [validate_file_account_match] (lines 18-39): [(is_valid,
    error_message)]. *)
Definition validate_file_account_match (filename client_id : string)
  : bool * string :=
  match first_match (upper filename) with
  | Some file_account_id =>
      if negb (String.eqb file_account_id (upper client_id)) then
        (false,
         "File appears to be for account " ++ file_account_id
         ++ ", but you selected account " ++ client_id)
      else (true, "")
  | None => (true, "")
  end.

End FileAccount.

(** ** The ISIN pattern of the demat statement (pdf_parser.py)

    [isin_pattern] is [(IN[A-Z0-9]{9})\s+([A-Za-z\s&\.\-]+)]: the letters
    [IN], nine capital letters or digits, white space, then a run of
    letters, white space, [&], [.] and [-].  Both runs are greedy; the
    white space gives its last character back to the second group when
    nothing else can start it. *)

Module IsinPattern.

(** [[A-Za-z\s&\.\-]]. *)
Definition is_name_char (c : ascii) : bool :=
  let n := nat_of_ascii c in
  ((65 <=? n) && (n <=? 90)) || ((97 <=? n) && (n <=? 122))
  || is_space c || Ascii.eqb c "&" || Ascii.eqb c "." || Ascii.eqb c "-".

(** The longest prefix of [s] whose characters satisfy [p], and the rest. *)
Fixpoint span (p : ascii -> bool) (s : string) : string * string :=
  match s with
  | EmptyString => (EmptyString, EmptyString)
  | String c s' =>
      if p c then let '(a, b) := span p s' in (String c a, b)
      else (EmptyString, s)
  end.

(** The last character of a string that is not empty. *)
Fixpoint last_char (c : ascii) (s : string) : ascii :=
  match s with
  | EmptyString => c
  | String c' s' => last_char c' s'
  end.

(** A match of [isin_pattern] at the head of [s]: the two groups and the
    length of the match. *)
Definition match_here (s : string) : option (string * string * nat) :=
  if startswith "IN" s then
    match FileAccount.id_chars 9 (Re.drop 2 s) with
    | Some (g, rest) =>
        match span is_space rest with
        | (EmptyString, _) => None
        | (String w ws, after) =>
            match span is_name_char after with
            | (EmptyString, _) =>
                match ws with
                | EmptyString => None
                | _ =>
                    Some ("IN" ++ g, String (last_char w ws) EmptyString,
                          12 + String.length ws)
                end
            | (name, _) =>
                Some ("IN" ++ g, name,
                      12 + String.length ws + String.length name)
            end
        end
    | None => None
    end
  else None.

(** [re.findall(isin_pattern, s)]: the matches from the left, without
    overlap; [skip] characters of a match are still to be passed. *)
Fixpoint findall_from (skip : nat) (s : string) : list (string * string) :=
  match s with
  | EmptyString => []
  | String _ s' =>
      match skip with
      | S k => findall_from k s'
      | 0 =>
          match match_here s with
          | Some (g1, g2, len) => (g1, g2) :: findall_from (len - 1) s'
          | None => findall_from 0 s'
          end
      end
  end.

(** [re.findall] on [isin_pattern]; the demat parser calls it with no
    other pattern. *)
Definition re_findall (pattern text : string) : list (string * string) :=
  if String.eqb pattern PDFParser.isin_pattern then findall_from 0 text
  else [].

End IsinPattern.

(** ** The upload handlers: before the import record

    Every handler looks the platform account up, checks the name of the
    file and calls its parser; an [HTTPException] raised here leaves
    before the import record is created. *)

Module Requests.

Import models Db Uploads FileAccount.

(** [models.PlatformAccount], the columns the handlers read. *)
Record PlatformAccount : Type := mkPlatformAccount {
  id : nat;
  user_id : nat;
  client_id : string
}.

(** What a request gets: an [HTTPException] raised before the import
    record is created, or the run of the handler from there on. *)
Inductive reply : Type :=
| HTTPException (status_code : nat) (detail : string)
| Handled (r : run).

(** [db.query(models.PlatformAccount).filter(...).first()]. *)
Definition account_of (accounts : list PlatformAccount)
  (platform_account_id current_user : nat) : option PlatformAccount :=
  find
    (fun a => (id a =? platform_account_id) && (user_id a =? current_user))
    accounts.

Definition account_not_found : string :=
  "The selected account could not be found. Please refresh the page and try again.".

Section Handlers.

Variable autoflush : bool.
Variable get_stock_info : string -> string -> result (option float).
Variable get_mutual_fund_info : string -> result (option float).
Variable search_mutual_fund : string -> result (list string).

(** [upload_zerodha_holdings] (lines 48-63), [upload_generic_holdings]
    (lines 267-288) and [upload_pdf_holdings] (lines 664-689), then
    [Uploads.upload].  [parsed] is what the parser of the handler returns
    on the file, or the detail of the [HTTPException] it raises.  The PDF
    handler keeps the mismatch of the account in [warnings] (line 677)
    and assigns [warnings] again from the parser (line 689). *)
Definition request (hd : handler) (f : fault)
  (accounts : list PlatformAccount) (current_user platform_account_id : nat)
  (filename : string)
  (parsed : result (list Parsed.holding * list Parsed.warning))
  (db : Session) : reply :=
  match account_of accounts platform_account_id current_user with
  | None => HTTPException 404 account_not_found
  | Some platform_account =>
      let '(is_valid, error_msg) :=
        validate_file_account_match filename (client_id platform_account) in
      match hd with
      | Pdf =>
          let warnings :=
            if negb is_valid && contains "appears to be for account" error_msg
            then [error_msg] else [] in
          if negb (endswith ".pdf" (lower filename)) then
            HTTPException 400 "Please upload a PDF file (.pdf)"
          else
            match parsed with
            | Raised detail => HTTPException 400 detail
            | Ok (holdings_data, warnings) =>
                Handled
                  (upload autoflush get_stock_info get_mutual_fund_info
                     search_mutual_fund Pdf f platform_account_id
                     holdings_data warnings db)
            end
      | _ =>
          if negb is_valid then HTTPException 400 error_msg
          else
            match parsed with
            | Raised detail => HTTPException 400 detail
            | Ok (holdings_data, parse_warnings) =>
                Handled
                  (upload autoflush get_stock_info get_mutual_fund_info
                     search_mutual_fund hd f platform_account_id
                     holdings_data parse_warnings db)
            end
      end
  end.

(** [upload_excel_holdings] (lines 441-463), then
    [Uploads.upload_excel]; the extension is compared as it is written. *)
Definition request_excel (f : fault) (accounts : list PlatformAccount)
  (current_user platform_account_id : nat) (filename : string)
  (parsed : result (list sheet_data)) (db : Session) : reply :=
  match account_of accounts platform_account_id current_user with
  | None => HTTPException 404 account_not_found
  | Some platform_account =>
      let '(is_valid, error_msg) :=
        validate_file_account_match filename (client_id platform_account) in
      if negb is_valid then HTTPException 400 error_msg
      else if negb (endswith ".xlsx" filename || endswith ".xls" filename)
      then HTTPException 400 "Please upload an Excel file (.xlsx or .xls)"
      else
        match parsed with
        | Raised detail => HTTPException 400 detail
        | Ok all_sheet_data =>
            Handled
              (upload_excel autoflush get_stock_info get_mutual_fund_info
                 search_mutual_fund f platform_account_id all_sheet_data db)
        end
  end.

End Handlers.

End Requests.

(** ** [ExcelParser.parse_excel_file] (csv_parser.py)

    A sheet of the workbook is what pandas reads of it: [df_raw] is
    [pd.read_excel(..., header=None)], the rows as lists of cells, and
    [read_excel i] is [pd.read_excel(..., header=i)]; either may raise.
    The result is the [dict] [all_data] as the list of its items. *)

Module Workbook.

Import Frame.

Record worksheet : Type := mkWorksheet {
  sheet_name : string;
  df_raw : result (list (list cell));
  read_excel : nat -> result DataFrame
}.

(** [all_data[key] = value]: a key the [dict] has keeps its place. *)
Fixpoint dict_set (value : Uploads.sheet_data) (d : list Uploads.sheet_data)
  : list Uploads.sheet_data :=
  match d with
  | [] => [value]
  | item :: d' =>
      if String.eqb (Uploads.sheet_key item) (Uploads.sheet_key value)
      then value :: d'
      else item :: dict_set value d'
  end.

Section Parser.

Variable py_float : string -> option float.
Variable py_str : float -> string.
Variable _clean_mutual_fund_name : string -> string.

(** Line 581: the values of a row that are not missing, in lower case,
    joined by spaces. *)
Definition row_str (row : list cell) : string :=
  String.concat " "
    (map (fun val => lower (str_of_cell py_str val))
       (filter (fun val => match val with CNaN => false | _ => true end)
          row)).

(** Lines 578-586: the first row that has a header word, from row [i]. *)
Fixpoint find_header_row (i : nat) (raw : list (list cell)) : option nat :=
  match raw with
  | [] => None
  | row :: rest =>
      if existsb (fun keyword => contains keyword (row_str row))
           ["symbol"; "quantity"; "price"; "scheme"; "nav"; "units"]
      then Some i
      else find_header_row (S i) rest
  end.

(** Lines 573-619: one sheet; an exception of pandas is raised again
    with the prefix of line 634, and the [HTTPException] of
    [_parse_stock_sheet] as it is. *)
Definition parse_sheet (all_data : list Uploads.sheet_data) (sh : worksheet)
  : result (list Uploads.sheet_data) :=
  let other (e : string) := ("Error parsing Excel file: " ++ e)%string in
  match df_raw sh with
  | Raised e => Raised (other e)
  | Ok raw =>
      match find_header_row 0 (firstn 50 raw) with
      | None => Ok all_data
      | Some header_row =>
          match read_excel sh header_row with
          | Raised e => Raised (other e)
          | Ok df =>
              if empty df || (List.length (rows df) =? 0) then Ok all_data
              else
                match ExcelParser._detect_sheet_type py_str df (sheet_name sh)
                with
                | Some sheet_data_type =>
                    if String.eqb sheet_data_type "stocks" then
                      r <- ExcelParser._parse_stock_sheet py_float py_str df
                             (sheet_name sh) ;;
                      Ok (dict_set
                            {| Uploads.sheet_key :=
                                 sheet_name sh ++ "_stocks";
                               Uploads.sheet_type := "stocks";
                               Uploads.data := fst r;
                               Uploads.warnings := snd r |}
                            all_data)
                    else if String.eqb sheet_data_type "mutual_funds" then
                      let r :=
                        ExcelParser._parse_mutual_fund_sheet py_float py_str
                          _clean_mutual_fund_name df (sheet_name sh) in
                      Ok (dict_set
                            {| Uploads.sheet_key :=
                                 sheet_name sh ++ "_mutual_funds";
                               Uploads.sheet_type := "mutual_funds";
                               Uploads.data := fst r;
                               Uploads.warnings := snd r |}
                            all_data)
                    else Ok all_data
                | None => Ok all_data
                end
          end
      end
  end.

(** [parse_excel_file] (lines 557-635).  [excel_file] is the sheets of
    [pd.ExcelFile(...)], or the exception it raises. *)
Definition parse_excel_file (contents : string)
  (excel_file : result (list worksheet)) : result (list Uploads.sheet_data) :=
  if negb (PyStr.truthy contents) then
    Raised "The uploaded file is empty. Please select a valid Excel file."
  else
    match excel_file with
    | Raised e => Raised ("Error parsing Excel file: " ++ e)
    | Ok sheets =>
        all_data <- for_each parse_sheet sheets [] ;;
        match all_data with
        | [] =>
            Raised "No valid holdings data found in any sheet of the Excel file."
        | _ => Ok all_data
        end
    end.

End Parser.

End Workbook.

(** ** [ExcelParser._clean_mutual_fund_name] (csv_parser.py)

    [re_sub pattern ignorecase s] is [re.sub(pattern, '', s)], with
    [flags=re.IGNORECASE] when [ignorecase] is true; what the patterns
    delete is left to [re], the rest of the function is modelled. *)

Module FundNames.

(** [s.split()]: the words of [s], white space between them; [word] is
    the beginning of the word being read. *)
Fixpoint words_from (word s : string) : list string :=
  match s with
  | EmptyString => if PyStr.truthy word then [word] else []
  | String c s' =>
      if is_space c then
        ((if PyStr.truthy word then [word] else []) ++ words_from "" s')%list
      else words_from (word ++ String c "") s'
  end.

Definition split (s : string) : list string := words_from "" s.

(** Lines 530-535. *)
Definition date_patterns : list string :=
  [ "\d{1,2}[-/]\w{3}[-/]\d{2,4}"; "\d{1,2}[-/]\d{1,2}[-/]\d{2,4}";
    "\w{3}\s+\d{1,2}\s+\d{2,4}"; "\d{4}[-/]\d{1,2}[-/]\d{1,2}" ].

Section Names.

Variable re_sub : string -> bool -> string -> string.

(** [_clean_mutual_fund_name] (lines 523-554). *)
Definition _clean_mutual_fund_name (name : string) : string :=
  if negb (PyStr.truthy name) then name
  else
    let name :=
      fold_left (fun name pattern => re_sub pattern true name)
        date_patterns name in
    let name := re_sub "\b\d+\.\d+\b" false name in
    let name := re_sub "\b\d{2,}\b" false name in
    let name := String.concat " " (split name) in
    strip name.

End Names.

End FundNames.

(** ** Market data (app/services/market_data.py, endpoints/market.py) *)

Module Market.

Import models Uploads.

(** [StockDataService.get_stock_info], lines 23-26: the ticker asked of
    Yahoo Finance. *)
Definition ticker_symbol (symbol exchange : string) : string :=
  if PyStr.truthy exchange && negb (endswith ("." ++ exchange) symbol)
  then symbol ++ "." ++ exchange
  else symbol.

(** [update_holdings_prices], lines 103-110: the suffix of the exchange
    of a holding; an exchange other than NSE and BSE is its own suffix. *)
Definition exchange_suffix (h : Holding) : string :=
  match exchange h with
  | Some e =>
      if PyStr.truthy e then
        if String.eqb (upper e) "NSE" then "NS"
        else if String.eqb (upper e) "BSE" then "BO"
        else e
      else "NS"
  | None => "NS"
  end.

(** A call of a service by [update_holdings_prices]. *)
Inductive call : Type :=
| Asked (c : Uploads.call)
| SgbInfo (symbol : string).

Section Refresh.

Variable get_stock_info : string -> string -> result (option float).
Variable get_mutual_fund_info : string -> result (option float).

(** [SGBService.get_sgb_info]: the price of the answer; [Ok None] is the
    answer [None]. *)
Variable get_sgb_info : string -> result (option float).

(** The [try] block of [update_holdings_prices] for one holding (lines
    99-149): the holding as the block left it, the increment of
    [updated_count] and the calls made. *)
Definition refresh_one (h : Holding) : Holding * nat * list call :=
  match asset_type h with
  | STOCK | ETF | REIT =>
      let calls := [Asked (StockInfo (symbol h) (exchange_suffix h))] in
      match get_stock_info (symbol h) (exchange_suffix h) with
      | Ok (Some price) =>
          if PyFloat.nonzero price then
            let '(h', done) := reprice price h in (h', count_of done, calls)
          else (h, 0, calls)
      | Ok None | Raised _ => (h, 0, calls)
      end
  | MUTUAL_FUND =>
      match scheme_code h with
      | Some code =>
          if PyStr.truthy code then
            match get_mutual_fund_info code with
            | Ok (Some nav) =>
                let '(h', done) := reprice nav h in
                (h', count_of done, [Asked (FundInfo code)])
            | Ok None | Raised _ => (h, 0, [Asked (FundInfo code)])
            end
          else (h, 0, [])
      | None => (h, 0, [])
      end
  | SGB =>
      match get_sgb_info (symbol h) with
      | Ok (Some price) =>
          let '(h', done) := reprice price h in
          (h', count_of done, [SgbInfo (symbol h)])
      | Ok None | Raised _ => (h, 0, [SgbInfo (symbol h)])
      end
  end.

End Refresh.

End Market.

(** * Sample inputs *)

Module Samples.

Import Frame.

(** Conversions for frames whose numbers are numeric cells: no text is
    read as a number and no number is printed, so the samples below do not
    depend on how Python reads or prints a float. *)
Definition no_text_float : string -> option float := fun _ => None.
Definition no_float_text : float -> string := fun _ => "".

(** [_clean_mutual_fund_name] on the names of the samples, which have no
    date, no number and single spaces: the name comes back as it is. *)
Definition plain_name (name : string) : string := name.

(** A Console export whose only row has no closing price. *)
Definition console_frame : DataFrame :=
  {| columns := ZerodhaCSVParser.console_columns;
     rows :=
       [ [ ("Symbol", CStr "RELIANCE");
           ("Quantity Available", CNum 10%float);
           ("Average Price", CNum 220.5%float);
           ("Previous Closing Price", CNum 0%float);
           ("Unrealized P&L", CNum 0%float);
           ("Unrealized P&L Pct.", CNum 0%float) ] ] |}.

Definition console_holding : Parsed.holding :=
  {| Parsed.symbol := "RELIANCE"; Parsed.exchange := "NSE";
     Parsed.asset_type := "stock";
     Parsed.quantity := 10%float; Parsed.average_price := 220.5%float;
     Parsed.current_price := 0%float; Parsed.current_value := 0%float;
     Parsed.pnl := 0%float; Parsed.pnl_percentage := 0%float;
     Parsed.isin := None; Parsed.scheme_code := None |}.

(** A legacy export whose [Cur. val] is not [Qty. * LTP]. *)
Definition legacy_frame : DataFrame :=
  {| columns := ZerodhaCSVParser.legacy_columns;
     rows :=
       [ [ ("Instrument", CStr "RELIANCE NSE");
           ("Qty.", CNum 10%float);
           ("Avg. cost", CNum 100%float);
           ("LTP", CNum 120%float);
           ("Cur. val", CNum 1250%float);
           ("P&L", CNum 250%float) ] ] |}.

Definition legacy_holding : Parsed.holding :=
  {| Parsed.symbol := "RELIANCE"; Parsed.exchange := "NSE";
     Parsed.asset_type := "stock";
     Parsed.quantity := 10%float; Parsed.average_price := 100%float;
     Parsed.current_price := 120%float; Parsed.current_value := 1250%float;
     Parsed.pnl := 250%float; Parsed.pnl_percentage := 25%float;
     Parsed.isin := None; Parsed.scheme_code := None |}.

(** A mutual-fund sheet with a [Current Value] column. *)
Definition fund_frame : DataFrame :=
  {| columns := ["Scheme Name"; "Units"; "NAV"; "Current Value"];
     rows :=
       [ [ ("Scheme Name", CStr "Parag Parikh Flexi Cap Fund");
           ("Units", CNum 5%float);
           ("NAV", CNum 10%float);
           ("Current Value", CNum 60%float) ] ] |}.

Definition fund_holding : Parsed.holding :=
  {| Parsed.symbol := "Parag Parikh Flexi Cap Fund"; Parsed.exchange := "MF";
     Parsed.asset_type := "mutual_fund";
     Parsed.quantity := 5%float; Parsed.average_price := 0%float;
     Parsed.current_price := 10%float; Parsed.current_value := 60%float;
     Parsed.pnl := 0%float; Parsed.pnl_percentage := 0%float;
     Parsed.isin := None; Parsed.scheme_code := None |}.

(** A generic CSV with a symbol, a quantity and an average price, and no
    column of current prices. *)
Definition generic_frame : DataFrame :=
  {| columns := ["Symbol"; "Quantity"; "Avg Price"];
     rows :=
       [ [ ("Symbol", CStr "INFY");
           ("Quantity", CNum 5%float);
           ("Avg Price", CNum 100%float) ] ] |}.

Definition generic_holding : Parsed.holding :=
  {| Parsed.symbol := "INFY"; Parsed.exchange := "NSE";
     Parsed.asset_type := "stock";
     Parsed.quantity := 5%float; Parsed.average_price := 100%float;
     Parsed.current_price := 0%float; Parsed.current_value := 500%float;
     Parsed.pnl := 0%float; Parsed.pnl_percentage := 0%float;
     Parsed.isin := None; Parsed.scheme_code := None |}.

(** A generic CSV with no column of quantities. *)
Definition no_quantity_frame : DataFrame :=
  {| columns := ["Symbol"; "Avg Price"];
     rows :=
       [ [ ("Symbol", CStr "TCS"); ("Avg Price", CNum 3000%float) ];
         [ ("Symbol", CStr "NIFTYBEES"); ("Avg Price", CNum 220.5%float) ] ] |}.






(** A statement of one line, and what Python's [re] and [float] answer on
    it: the scheme is the line, the units are [10] and the NAV is [25]. *)
Definition statement_text : string := "HDFC Equity Fund Units: 10 NAV: 25".

Definition statement_findall (pattern text : string) : list string :=
  if String.eqb pattern PDFParser.scheme_pattern then [statement_text] else [].

Definition statement_search (pattern text : string) : option string :=
  if String.eqb pattern PDFParser.units_pattern then Some "10"
  else if String.eqb pattern PDFParser.nav_pattern then Some "25"
  else None.

Definition statement_float (s : string) : option float :=
  if String.eqb s "10" then Some 10%float
  else if String.eqb s "25" then Some 25%float
  else None.

(** A sheet, or a generic CSV, with a gold bond and an ETF. *)
Definition bond_frame : DataFrame :=
  {| columns := ["Symbol"; "Quantity"; "Avg Price"];
     rows :=
       [ [ ("Symbol", CStr "SGBMAR29"); ("Quantity", CNum 10%float);
           ("Avg Price", CNum 5000%float) ];
         [ ("Symbol", CStr "NIFTYBEES"); ("Quantity", CNum 10%float);
           ("Avg Price", CNum 220.5%float) ] ] |}.

(** The same two holdings in a Console export. *)
Definition bond_console_frame : DataFrame :=
  {| columns := ZerodhaCSVParser.console_columns;
     rows :=
       [ [ ("Symbol", CStr "SGBMAR29");
           ("Quantity Available", CNum 10%float);
           ("Average Price", CNum 5000%float);
           ("Previous Closing Price", CNum 5100%float);
           ("Unrealized P&L", CNum 1000%float);
           ("Unrealized P&L Pct.", CNum 2%float) ];
         [ ("Symbol", CStr "NIFTYBEES");
           ("Quantity Available", CNum 10%float);
           ("Average Price", CNum 220.5%float);
           ("Previous Closing Price", CNum 225%float);
           ("Unrealized P&L", CNum 45%float);
           ("Unrealized P&L Pct.", CNum 2.04%float) ] ] |}.

(** The asset types of the holdings of a parser, in order. *)
Definition asset_types {W : Type} (r : result (list Parsed.holding * W))
  : list string :=
  match r with
  | Ok (hs, _) => map Parsed.asset_type hs
  | Raised _ => []
  end.

(** A holding of account 1 as the table stores it, and the same holding
    parsed again from a file with a newer price. *)
Definition stored_reliance : models.Holding :=
  {| models.platform_account_id := 1;
     models.symbol := "RELIANCE";
     models.exchange := Some "NSE";
     models.asset_type := models.STOCK;
     models.quantity := 10%float;
     models.average_price := 100%float;
     models.current_price := 120%float;
     models.current_value := 1200%float;
     models.pnl := 200%float;
     models.pnl_percentage := 20%float;
     models.scheme_code := None;
     models.isin := None |}.

Definition parsed_reliance : Parsed.holding :=
  {| Parsed.symbol := "RELIANCE"; Parsed.exchange := "NSE";
     Parsed.asset_type := "stock";
     Parsed.quantity := 10%float; Parsed.average_price := 100%float;
     Parsed.current_price := 125%float; Parsed.current_value := 1250%float;
     Parsed.pnl := 250%float; Parsed.pnl_percentage := 25%float;
     Parsed.isin := None; Parsed.scheme_code := None |}.

(** The stored holding with the six fields of the parsed one. *)
Definition repriced_reliance : models.Holding :=
  {| models.platform_account_id := 1;
     models.symbol := "RELIANCE";
     models.exchange := Some "NSE";
     models.asset_type := models.STOCK;
     models.quantity := 10%float;
     models.average_price := 100%float;
     models.current_price := 125%float;
     models.current_value := 1250%float;
     models.pnl := 250%float;
     models.pnl_percentage := 25%float;
     models.scheme_code := None;
     models.isin := None |}.

(** A second parsed holding, new to the table. *)
Definition parsed_tcs : Parsed.holding :=
  {| Parsed.symbol := "TCS"; Parsed.exchange := "NSE";
     Parsed.asset_type := "stock";
     Parsed.quantity := 2%float; Parsed.average_price := 3000%float;
     Parsed.current_price := 3100%float; Parsed.current_value := 6200%float;
     Parsed.pnl := 200%float; Parsed.pnl_percentage := 3%float;
     Parsed.isin := None; Parsed.scheme_code := None |}.

(** The stored holding with another quantity. *)
Definition parsed_reliance_more : Parsed.holding :=
  {| Parsed.symbol := "RELIANCE"; Parsed.exchange := "NSE";
     Parsed.asset_type := "stock";
     Parsed.quantity := 15%float; Parsed.average_price := 110%float;
     Parsed.current_price := 125%float; Parsed.current_value := 1875%float;
     Parsed.pnl := 225%float; Parsed.pnl_percentage := 13%float;
     Parsed.isin := None; Parsed.scheme_code := None |}.

(** Market-data services that answer nothing. *)
Definition no_stock_info (symbol exchange : string) : result (option float) :=
  Ok None.
Definition no_fund_info (scheme_code : string) : result (option float) :=
  Ok None.
Definition no_fund_search (query : string) : result (list string) := Ok [].

(** A REIT parsed from a generic CSV without prices, and the record the
    generic handler inserts for it. *)
Definition parsed_mindspace : Parsed.holding :=
  {| Parsed.symbol := "MINDSPACE-RR"; Parsed.exchange := "NSE";
     Parsed.asset_type := "reit";
     Parsed.quantity := 10%float; Parsed.average_price := 300%float;
     Parsed.current_price := 0%float; Parsed.current_value := 3000%float;
     Parsed.pnl := 0%float; Parsed.pnl_percentage := 0%float;
     Parsed.isin := None; Parsed.scheme_code := None |}.

Definition stored_mindspace : models.Holding :=
  {| models.platform_account_id := 1;
     models.symbol := "MINDSPACE-RR";
     models.exchange := Some "NSE";
     models.asset_type := models.REIT;
     models.quantity := 10%float;
     models.average_price := 300%float;
     models.current_price := 0%float;
     models.current_value := 3000%float;
     models.pnl := 0%float;
     models.pnl_percentage := 0%float;
     models.scheme_code := None;
     models.isin := None |}.

(** A mutual fund parsed from a sheet without NAV and scheme code, and the
    record the Excel handler inserts for it. *)
Definition parsed_fund : Parsed.holding :=
  {| Parsed.symbol := "Parag Parikh Flexi Cap Fund"; Parsed.exchange := "MF";
     Parsed.asset_type := "mutual_fund";
     Parsed.quantity := 5%float; Parsed.average_price := 60%float;
     Parsed.current_price := 0%float; Parsed.current_value := 0%float;
     Parsed.pnl := 0%float; Parsed.pnl_percentage := 0%float;
     Parsed.isin := None; Parsed.scheme_code := None |}.

Definition stored_fund : models.Holding :=
  {| models.platform_account_id := 1;
     models.symbol := "Parag Parikh Flexi Cap Fund";
     models.exchange := Some "MF";
     models.asset_type := models.MUTUAL_FUND;
     models.quantity := 5%float;
     models.average_price := 60%float;
     models.current_price := 0%float;
     models.current_value := 0%float;
     models.pnl := 0%float;
     models.pnl_percentage := 0%float;
     models.scheme_code := None;
     models.isin := None |}.

(** Stocks stored without a price. *)
Definition stored_infy : models.Holding :=
  {| models.platform_account_id := 1;
     models.symbol := "INFY";
     models.exchange := Some "NSE";
     models.asset_type := models.STOCK;
     models.quantity := 5%float;
     models.average_price := 100%float;
     models.current_price := 0%float;
     models.current_value := 500%float;
     models.pnl := 0%float;
     models.pnl_percentage := 0%float;
     models.scheme_code := None;
     models.isin := None |}.

Definition stored_tcs : models.Holding :=
  {| models.platform_account_id := 1;
     models.symbol := "TCS";
     models.exchange := Some "BSE";
     models.asset_type := models.STOCK;
     models.quantity := 2%float;
     models.average_price := 3000%float;
     models.current_price := 0%float;
     models.current_value := 6000%float;
     models.pnl := 0%float;
     models.pnl_percentage := 0%float;
     models.scheme_code := None;
     models.isin := None |}.

(** Market-data services that answer every request, and a stock service
    that raises for INFY. *)
Definition quoting_stock_info (symbol exchange : string)
  : result (option float) := Ok (Some 3300%float).
Definition quoting_fund_info (scheme_code : string) : result (option float) :=
  Ok (Some 75%float).
Definition finding_fund_search (query : string) : result (list string) :=
  Ok ["122639"].
Definition failing_stock_info (symbol exchange : string)
  : result (option float) :=
  if String.eqb symbol "INFY" then Raised "connection timed out"
  else Ok (Some 3300%float).

(** A share as the demat reader of the PDF parser emits it, without an
    average price; the record the PDF handler inserts for it, and this
    record after the first three assignments of the enrichment at the
    price 3300. *)
Definition parsed_demat : Parsed.holding :=
  {| Parsed.symbol := "RELIANCE INDUSTRIES"; Parsed.exchange := "NSE";
     Parsed.asset_type := "stock";
     Parsed.quantity := 10%float; Parsed.average_price := 0%float;
     Parsed.current_price := 0%float; Parsed.current_value := 0%float;
     Parsed.pnl := 0%float; Parsed.pnl_percentage := 0%float;
     Parsed.isin := Some "INE002A0101"; Parsed.scheme_code := None |}.

Definition stored_demat : models.Holding :=
  {| models.platform_account_id := 1;
     models.symbol := "RELIANCE INDUSTRIES";
     models.exchange := Some "NSE";
     models.asset_type := models.STOCK;
     models.quantity := 10%float;
     models.average_price := 0%float;
     models.current_price := 0%float;
     models.current_value := 0%float;
     models.pnl := 0%float;
     models.pnl_percentage := 0%float;
     models.scheme_code := None;
     models.isin := Some "INE002A0101" |}.

Definition half_priced_demat : models.Holding :=
  {| models.platform_account_id := 1;
     models.symbol := "RELIANCE INDUSTRIES";
     models.exchange := Some "NSE";
     models.asset_type := models.STOCK;
     models.quantity := 10%float;
     models.average_price := 0%float;
     models.current_price := 3300%float;
     models.current_value := 33000%float;
     models.pnl := 33000%float;
     models.pnl_percentage := 0%float;
     models.scheme_code := None;
     models.isin := Some "INE002A0101" |}.

(** A generic CSV whose quantity cell is blank, and the holding parsed
    from it: the quantity is not a number. *)
Definition blank_quantity_frame : DataFrame :=
  {| columns := ["Symbol"; "Quantity"; "Avg Price"];
     rows :=
       [ [ ("Symbol", CStr "WIPRO"); ("Quantity", CNaN);
           ("Avg Price", CNum 400%float) ] ] |}.

Definition parsed_wipro : Parsed.holding :=
  {| Parsed.symbol := "WIPRO"; Parsed.exchange := "NSE";
     Parsed.asset_type := "stock";
     Parsed.quantity := PrimFloat.nan; Parsed.average_price := 400%float;
     Parsed.current_price := 0%float; Parsed.current_value := PrimFloat.nan;
     Parsed.pnl := PrimFloat.nan; Parsed.pnl_percentage := 0%float;
     Parsed.isin := None; Parsed.scheme_code := None |}.

(** The counters of the answer of a request. *)
Definition counters (r : Uploads.run) : option (nat * nat * option nat) :=
  match Uploads.answer r with
  | Ok resp =>
      Some (Uploads.r_imported_count resp, Uploads.r_updated_count resp,
            Uploads.r_skipped_count resp)
  | Raised _ => None
  end.

(** The same batch sent twice to a handler, without market data. *)
Definition sent_twice (autoflush : bool) (hd : Uploads.handler)
  (hs : list Parsed.holding) (t : list models.Holding) : Uploads.run :=
  let send :=
    Uploads.upload autoflush no_stock_info no_fund_info no_fund_search hd
      Uploads.NoFault 1 hs [] in
  send (Uploads.db_after (send (Db.open t))).

(** The Console export of the example: the header
    [Symbol,Quantity Available,Average Price,Previous Closing Price,
    Unrealized P&L,Unrealized P&L Pct.] and the row
    [NIFTYBEES,10,220.5,225.0,45.0,2.04]. *)
Definition niftybees_frame : DataFrame :=
  {| columns := ZerodhaCSVParser.console_columns;
     rows :=
       [ [ ("Symbol", CStr "NIFTYBEES");
           ("Quantity Available", CNum 10%float);
           ("Average Price", CNum 220.5%float);
           ("Previous Closing Price", CNum 225%float);
           ("Unrealized P&L", CNum 45%float);
           ("Unrealized P&L Pct.", CNum 2.04%float) ] ] |}.

(** Two account tables that differ in the client id only. *)
Definition accounts_yg : list Requests.PlatformAccount :=
  [ {| Requests.id := 1; Requests.user_id := 7;
       Requests.client_id := "YG7227" |} ].

Definition accounts_ab : list Requests.PlatformAccount :=
  [ {| Requests.id := 1; Requests.user_id := 7;
       Requests.client_id := "AB1234" |} ].

(** A row of a generic CSV whose symbol is a company name with the suffix
    of an exchange, the mapping of its columns, and the holding parsed
    from it; then a row that has the parsed symbol as its symbol. *)
Definition generic_mapping : list (string * string) :=
  [ ("symbol", "Symbol"); ("quantity", "Quantity");
    ("average_price", "Avg Price") ].

Definition larsen_row : series :=
  [ ("Symbol", CStr "Larsen & Toubro.NS"); ("Quantity", CNum 5%float);
    ("Avg Price", CNum 100%float) ].

Definition larsen_holding : Parsed.holding :=
  {| Parsed.symbol := "LT"; Parsed.exchange := "NSE";
     Parsed.asset_type := "stock";
     Parsed.quantity := 5%float; Parsed.average_price := 100%float;
     Parsed.current_price := 0%float; Parsed.current_value := 500%float;
     Parsed.pnl := 0%float; Parsed.pnl_percentage := 0%float;
     Parsed.isin := None; Parsed.scheme_code := None |}.

Definition lt_row : series :=
  [ ("Symbol", CStr "LT"); ("Quantity", CNum 5%float);
    ("Avg Price", CNum 100%float) ].

(** A row of a legacy export for a share on the BSE. *)
Definition bse_row : series :=
  [ ("Instrument", CStr "TCS BSE"); ("Qty.", CNum 10%float);
    ("Avg. cost", CNum 100%float); ("LTP", CNum 120%float);
    ("Cur. val", CNum 1200%float); ("P&L", CNum 200%float) ].

Definition bse_holding : Parsed.holding :=
  {| Parsed.symbol := "TCS"; Parsed.exchange := "BSE";
     Parsed.asset_type := "stock";
     Parsed.quantity := 10%float; Parsed.average_price := 100%float;
     Parsed.current_price := 120%float; Parsed.current_value := 1200%float;
     Parsed.pnl := 200%float; Parsed.pnl_percentage := 20%float;
     Parsed.isin := None; Parsed.scheme_code := None |}.

(** A sheet of units and prices that names no scheme. *)
Definition units_frame : DataFrame :=
  {| columns := ["Units"; "NAV"];
     rows := [ [ ("Units", CNum 5%float); ("NAV", CNum 100%float) ] ] |}.

(** A page of a fund statement, and [re.findall] on its text: the scheme
    pattern matches from the space before the name to the end of the
    line. *)
Definition folio_page : string := "Folio 12 HDFC Equity Fund Units: 10 NAV: 25".

Definition folio_findall (pattern text : string) : list string :=
  if String.eqb pattern PDFParser.scheme_pattern
  then [" HDFC Equity Fund Units: 10 NAV: 25"] else [].

Definition folio_holding : Parsed.holding :=
  {| Parsed.symbol := "HDFC Equity Fund Units: 10 NAV: 25";
     Parsed.exchange := "MF"; Parsed.asset_type := "mutual_fund";
     Parsed.quantity := 10%float; Parsed.average_price := 25%float;
     Parsed.current_price := 25%float; Parsed.current_value := 250%float;
     Parsed.pnl := 0%float; Parsed.pnl_percentage := 0%float;
     Parsed.isin := None; Parsed.scheme_code := None |}.

Definition no_findall2 (pattern text : string) : list (string * string) := [].
Definition no_findall3 (pattern text : string)
  : list (string * string * string) := [].

(** A sheet of a workbook with quantities and prices and no symbols. *)
Definition quantities_sheet : Workbook.worksheet :=
  {| Workbook.sheet_name := "Sheet1";
     Workbook.df_raw :=
       Ok [ [CStr "Quantity"; CStr "LTP"]; [CNum 5%float; CNum 100%float] ];
     Workbook.read_excel :=
       fun _ =>
         Ok {| columns := ["Quantity"; "LTP"];
               rows :=
                 [ [ ("Quantity", CNum 5%float); ("LTP", CNum 100%float) ] ]
            |} |}.

(** No answer of the gold-bond service. *)
Definition no_sgb_info (symbol : string) : result (option float) := Ok None.

End Samples.

(** * Statements *)

Module Statements.

Import Frame PyFloat.

(** [current_value] is the float [quantity * current_price] when the
    price is positive and the float [quantity * average_price] otherwise. *)
Definition value_identity (h : Parsed.holding) : Prop :=
  (gt (Parsed.current_price h) zero = true ->
   Parsed.current_value h
   = (Parsed.quantity h * Parsed.current_price h)%float)
  /\ (gt (Parsed.current_price h) zero = false ->
      Parsed.current_value h
      = (Parsed.quantity h * Parsed.average_price h)%float).

(** [current_value] is the float [quantity * current_price]. *)
Definition priced_identity (h : Parsed.holding) : Prop :=
  Parsed.current_value h = (Parsed.quantity h * Parsed.current_price h)%float.

Definition priced_identity_when_positive (h : Parsed.holding) : Prop :=
  gt (Parsed.current_price h) zero = true -> priced_identity h.

(** [a] is the float [b], so Python's [a == b] is true when [b] is a
    number; when [b] is not a number, [a == b] is false ([nan == nan] is
    false). *)
Definition equals (a b : float) : Prop :=
  a = b
  /\ (eq b b = true -> eq a b = true)
  /\ (eq b b = false -> eq a b = false).

(** [current_value == quantity * current_price] when the price is
    positive and [current_value == quantity * average_price] otherwise,
    as far as the product is a number. *)
Definition value_invariant (h : Parsed.holding) : Prop :=
  (gt (Parsed.current_price h) zero = true ->
   equals (Parsed.current_value h)
     (Parsed.quantity h * Parsed.current_price h)%float)
  /\ (gt (Parsed.current_price h) zero = false ->
      equals (Parsed.current_value h)
        (Parsed.quantity h * Parsed.average_price h)%float).

(** [current_value == quantity * current_price], as far as the product is
    a number. *)
Definition priced (h : Parsed.holding) : Prop :=
  equals (Parsed.current_value h)
    (Parsed.quantity h * Parsed.current_price h)%float.

(** The same when the price is positive. *)
Definition priced_when_positive (h : Parsed.holding) : Prop :=
  gt (Parsed.current_price h) zero = true -> priced h.

(** The warning of a row names a field. *)
Definition named (field : string) (w : option Parsed.warning) : Prop :=
  exists w', w = Some w' /\ In field (Parsed.missing_fields w').

(** The patterns of the quantity column (line 486). *)
Definition quantity_patterns : list (list string) :=
  match dict_get "quantity" GenericCSVParser.patterns with
  | Some field_patterns => field_patterns
  | None => []
  end.

(** No column of the frame is read as the quantity. *)
Definition no_quantity_column (df : DataFrame) : Prop :=
  find (GenericCSVParser.column_matches quantity_patterns) (columns df) = None.

(** One warning for each holding, in order, and it names the quantity. *)
Definition quantity_defaulted (hs : list Parsed.holding)
  (ws : list Parsed.warning) : Prop :=
  Forall2
    (fun h w =>
       Parsed.quantity h = one /\ In "quantity" (Parsed.missing_fields w))
    hs ws.



(** A holding bought at its current price: no gain is reported. *)
Definition at_cost (h : Parsed.holding) : Prop :=
  Parsed.average_price h = Parsed.current_price h
  /\ Parsed.pnl h = zero
  /\ Parsed.pnl_percentage h = zero.

(** The six fields every handler takes from the parsed holding. *)
Definition carries (x : Parsed.holding) (h : models.Holding) : Prop :=
  models.quantity h = Parsed.quantity x
  /\ models.average_price h = Parsed.average_price x
  /\ models.current_price h = Parsed.current_price x
  /\ models.current_value h = Parsed.current_value x
  /\ models.pnl h = Parsed.pnl x
  /\ models.pnl_percentage h = Parsed.pnl_percentage x.

(** The fields of the reconciliation key, and the exchange, are kept. *)
Definition same_identity (e e' : models.Holding) : Prop :=
  models.platform_account_id e' = models.platform_account_id e
  /\ models.symbol e' = models.symbol e
  /\ models.asset_type e' = models.asset_type e
  /\ models.exchange e' = models.exchange e.

(** The handlers that assign [isin], and the one that assigns
    [scheme_code], when they update. *)
Definition writes_isin (hd : Uploads.handler) : bool :=
  match hd with
  | Uploads.Zerodha | Uploads.Pdf => true
  | _ => false
  end.

Definition writes_scheme_code (hd : Uploads.handler) : bool :=
  match hd with
  | Uploads.Excel => true
  | _ => false
  end.

(** The entry of [duplicate_holdings] for the parsed holding [x] and the
    existing holding [e]: the symbol, and the quantity and the average
    price of both. *)
Definition old_and_new (x : Parsed.holding) (e : models.Holding)
  (d : Uploads.duplicate) : Prop :=
  Uploads.d_symbol d = Parsed.symbol x
  /\ Uploads.old_quantity d = models.quantity e
  /\ Uploads.new_quantity d = Parsed.quantity x
  /\ Uploads.old_avg_price d = models.average_price e
  /\ Uploads.new_avg_price d = Parsed.average_price x.

(** The three outcomes of one parsed holding [x], from the state [st] to
    the state [st'], on the session [db] the query ran on. *)
Definition inserted (hd : Uploads.handler) (platform_account_id : nat)
  (x : Parsed.holding) (db : Db.Session) (st st' : Uploads.state) : Prop :=
  let h := Uploads.new_holding hd platform_account_id x in
  Uploads.session st' = Db.add h db
  /\ Uploads.key_filter hd platform_account_id x h = true
  /\ carries x h
  /\ models.isin h = Parsed.isin x
  /\ Uploads.imported_count st' = Uploads.imported_count st + 1
  /\ Uploads.updated_count st' = Uploads.updated_count st
  /\ Uploads.skipped_count st' = Uploads.skipped_count st
  /\ Uploads.duplicate_holdings st' = Uploads.duplicate_holdings st.

Definition skipped (db : Db.Session) (st st' : Uploads.state) : Prop :=
  Uploads.session st' = db
  /\ Uploads.skipped_count st' = Uploads.skipped_count st + 1
  /\ Uploads.imported_count st' = Uploads.imported_count st
  /\ Uploads.updated_count st' = Uploads.updated_count st
  /\ Uploads.duplicate_holdings st' = Uploads.duplicate_holdings st.

Definition updated (hd : Uploads.handler) (platform_account_id : nat)
  (x : Parsed.holding) (e : models.Holding) (db : Db.Session)
  (st st' : Uploads.state) : Prop :=
  let e' := Uploads.update_existing hd x e in
  (exists before after,
      Db.rows db = (before ++ e :: after)%list
      /\ Forall
           (fun h => Uploads.key_filter hd platform_account_id x h = false)
           before
      /\ Db.rows (Uploads.session st') = (before ++ e' :: after)%list)
  /\ Db.pending (Uploads.session st') = Db.pending db
  /\ Db.table (Uploads.session st') = Db.table db
  /\ carries x e'
  /\ same_identity e e'
  /\ models.isin e'
     = (if writes_isin hd && truthy_opt (Parsed.isin x)
        then Parsed.isin x else models.isin e)
  /\ models.scheme_code e'
     = (if writes_scheme_code hd && truthy_opt (Parsed.scheme_code x)
        then Parsed.scheme_code x else models.scheme_code e)
  /\ Uploads.updated_count st' = Uploads.updated_count st + 1
  /\ Uploads.skipped_count st' = Uploads.skipped_count st
  /\ (hd <> Uploads.Zerodha ->
      Uploads.imported_count st' = Uploads.imported_count st
      /\ Uploads.duplicate_holdings st' = Uploads.duplicate_holdings st)
  /\ (hd = Uploads.Zerodha ->
      Uploads.imported_count st' = Uploads.imported_count st + 1
      /\ exists d,
           Uploads.duplicate_holdings st'
           = (Uploads.duplicate_holdings st ++ [d])%list
           /\ old_and_new x e d).

(** What a request leaves when its batch was rolled back: the table of
    holdings [t] it found, the import record marked as failed with the text
    of the exception, and the error answer. *)
Definition rolled_back (t : list models.Holding) (e : string)
  (r : Uploads.run) : Prop :=
  Uploads.db_after r = Db.open t
  /\ models.import_status (Uploads.import_record r) = "failed"
  /\ models.error_message (Uploads.import_record r) = Some e
  /\ Uploads.answer r = Raised Uploads.failure_detail.

(** The holding [h'] is [h] with the four fields recomputed from the
    price [p]; the other fields are those of [h]. *)
Definition repriced_at (p : float) (h h' : models.Holding) : Prop :=
  models.current_price h' = p
  /\ models.current_value h' = (models.quantity h * p)%float
  /\ models.pnl h'
     = (models.quantity h * p - models.quantity h * models.average_price h)%float
  /\ models.pnl_percentage h'
     = ((models.quantity h * p - models.quantity h * models.average_price h)
        / (models.quantity h * models.average_price h) * hundred)%float
  /\ models.quantity h' = models.quantity h
  /\ models.average_price h' = models.average_price h
  /\ same_identity h h'
  /\ models.isin h' = models.isin h.

(** The division of the percentage does not raise. *)
Definition invested (h : models.Holding) : Prop :=
  PrimFloat.eqb (models.quantity h * models.average_price h)%float zero = false.

(** A lookup that gives the handler no answer: the service answers
    [None], or it raises. *)
Definition no_answer (r : result (option float)) : Prop :=
  r = Ok None \/ exists e, r = Raised e.

(** A search that gives the handler no fund: the service answers the
    empty list, or it raises. *)
Definition nothing_found (r : result (list string)) : Prop :=
  r = Ok [] \/ exists e, r = Raised e.

(** The holding [h'] is [h] after the first three assignments of the
    block at the price [p]: [pnl_percentage] and every other field are
    those of [h]. *)
Definition priced_in_part (p : float) (h h' : models.Holding) : Prop :=
  models.current_price h' = p
  /\ models.current_value h' = (models.quantity h * p)%float
  /\ models.pnl h'
     = (models.quantity h * p - models.quantity h * models.average_price h)%float
  /\ models.pnl_percentage h' = models.pnl_percentage h
  /\ models.quantity h' = models.quantity h
  /\ models.average_price h' = models.average_price h
  /\ same_identity h h'
  /\ models.isin h' = models.isin h
  /\ models.scheme_code h' = models.scheme_code h.

(** The parts of the outcome of one [try] block. *)
Definition holding_of (r : Uploads.enriched) : models.Holding := fst (fst r).
Definition increment_of (r : Uploads.enriched) : nat := snd (fst r).
Definition calls_of (r : Uploads.enriched) : list Uploads.call := snd r.

(** The calls each handler makes for a mutual fund. *)
Definition fund_calls (search_mutual_fund : string -> result (list string))
  (hd : Uploads.handler) (h : models.Holding) : list Uploads.call :=
  match hd with
  | Uploads.Zerodha | Uploads.Excel =>
      match models.scheme_code h with
      | Some code => if PyStr.truthy code then [Uploads.FundInfo code] else []
      | None => []
      end
  | Uploads.Generic => []
  | Uploads.Pdf =>
      Uploads.FundSearch (models.symbol h)
      :: match search_mutual_fund (models.symbol h) with
         | Ok (code :: _) => [Uploads.FundInfo code]
         | _ => []
         end
  end.

(** The reconciliation key of a parsed holding within an account. *)
Definition key_of (hd : Uploads.handler) (x : Parsed.holding)
  : string * models.AssetType :=
  (Parsed.symbol x, Uploads.asset_type_of hd x).

(** No two holdings of the batch have the same key. *)
Definition distinct_keys (hd : Uploads.handler) (hs : list Parsed.holding)
  : Prop :=
  NoDup (map (key_of hd) hs).

(** The quantity and the average price are numbers: each equals itself
    ([nan == nan] is false). *)
Definition comparable (x : Parsed.holding) : Prop :=
  eq (Parsed.quantity x) (Parsed.quantity x) = true
  /\ eq (Parsed.average_price x) (Parsed.average_price x) = true.

(** The counters of an answer. *)
Definition answers (r : Uploads.run) (imported updated : nat)
  (skipped : option nat) : Prop :=
  exists resp,
    Uploads.answer r = Ok resp
    /\ Uploads.r_imported_count resp = imported
    /\ Uploads.r_updated_count resp = updated
    /\ Uploads.r_skipped_count resp = skipped.

(** The ISIN of an ETF series, when the row has a true ISIN. *)
Definition etf_isin (isin : option string) : bool :=
  match isin with
  | Some i => PyStr.truthy i && ZerodhaCSVParser.isin_is_etf i
  | None => false
  end.

(** The holdings of the other accounts, in table order. *)
Definition of_other_accounts (platform_account_id : nat)
  (l : list models.Holding) : list models.Holding :=
  filter
    (fun h => negb (models.platform_account_id h =? platform_account_id)) l.

(** What the reconciliation reads of a record is the same in [h']. *)
Definition same_for_reconciliation (h h' : models.Holding) : Prop :=
  same_identity h h'
  /\ models.quantity h' = models.quantity h
  /\ models.average_price h' = models.average_price h.

(** Letters and digits only. *)
Fixpoint id_run (s : string) : bool :=
  match s with
  | EmptyString => true
  | String c s' => FileAccount.is_id_char c && id_run s'
  end.

(** The leftmost match of [[A-Z0-9]{6}(?:[-_]|\.)], the account pattern
    without its optional group. *)
Fixpoint first_id (s : string) : option string :=
  match FileAccount.id_then_separator s with
  | Some g => Some g
  | None =>
      match s with
      | EmptyString => None
      | String _ s' => first_id s'
      end
  end.

(** Two account tables with the same accounts of the same users; the
    client ids may differ. *)
Definition same_accounts (l l' : list Requests.PlatformAccount) : Prop :=
  Forall2
    (fun a a' =>
       Requests.id a' = Requests.id a
       /\ Requests.user_id a' = Requests.user_id a)
    l l'.

(** The counters of the answer of a handler that skips add up to [n], and
    the import record has the number of new holdings. *)
Definition counts_add_up (r : Uploads.run) (n : nat) : Prop :=
  exists resp skipped,
    Uploads.answer r = Ok resp
    /\ Uploads.r_skipped_count resp = Some skipped
    /\ Uploads.r_imported_count resp + Uploads.r_updated_count resp + skipped
       = n
    /\ Uploads.import_record r
       = {| models.import_status := "success";
            models.records_imported := Uploads.r_imported_count resp;
            models.error_message := None |}.

(** The answer of the Zerodha handler to a batch of [n] holdings: it
    counts every holding as imported, and one advisory for each update. *)
Definition counts_every_holding (r : Uploads.run) (n : nat) : Prop :=
  exists resp,
    Uploads.answer r = Ok resp
    /\ Uploads.r_imported_count resp = n
    /\ Uploads.r_updated_count resp
       = List.length (Uploads.r_duplicate_holdings resp)
    /\ Uploads.r_updated_count resp <= n
    /\ Uploads.import_record r
       = {| models.import_status := "success"; models.records_imported := n;
            models.error_message := None |}.

(** [c in s] for a character. *)
Fixpoint has_char (c : ascii) (s : string) : bool :=
  match s with
  | EmptyString => false
  | String a r => Ascii.eqb a c || has_char c r
  end.

(** No space, no ampersand and no dot. *)
Definition clean (s : string) : bool :=
  negb (has_char " " s) && negb (has_char "&" s) && negb (has_char "." s).

(** The symbol the generic parser stores for the text of a symbol cell
    (lines 351-379 and 421-422). *)
Definition generic_symbol (text : string) : string :=
  let symbol := GenericCSVParser.clean_symbol (strip text) in
  let symbol :=
    match dict_get symbol GenericCSVParser.symbol_mappings with
    | Some s => s
    | None => symbol
    end in
  ZerodhaCSVParser.apply_etf_mapping symbol.

(** The asset types the generic parser gives. *)
Definition generic_asset_types : list string := ["etf"; "sgb"; "reit"; "stock"].

(** What every holding of the generic parser has. *)
Definition normalised (h : Parsed.holding) : Prop :=
  clean (Parsed.symbol h) = true
  /\ Parsed.exchange h = "NSE"
  /\ Parsed.asset_type h = GenericCSVParser.detect_asset_type (Parsed.symbol h)
  /\ In (Parsed.asset_type h) generic_asset_types
  /\ Parsed.isin h = None
  /\ Parsed.scheme_code h = None.

(** No white space. *)
Fixpoint no_space (s : string) : bool :=
  match s with
  | EmptyString => true
  | String c r => negb (is_space c) && no_space r
  end.

(** A row the Console loop skips (line 101). *)
Definition console_blank (py_str : float -> string) (row : series) : bool :=
  match dict_get "Symbol" row with
  | Some CNaN => true
  | Some c => String.eqb (strip (str_of_cell py_str c)) ""
  | None => false
  end.

(** The patterns of the scheme-name column (line 777). *)
Definition scheme_name_patterns : list (list string) :=
  match dict_get "scheme_name" ExcelParser.mf_patterns with
  | Some field_patterns => field_patterns
  | None => []
  end.

(** No column of the frame is read as the name of the scheme. *)
Definition no_scheme_column (df : DataFrame) : Prop :=
  find (GenericCSVParser.column_matches scheme_name_patterns) (columns df)
  = None.

(** What every holding read from a PDF has: a positive quantity and no
    gain; a fund is on the exchange [MF], a share on [NSE] without a
    current price. *)
Definition pdf_holding (h : Parsed.holding) : Prop :=
  gt (Parsed.quantity h) zero = true
  /\ Parsed.pnl h = zero
  /\ Parsed.pnl_percentage h = zero
  /\ ((Parsed.asset_type h = "mutual_fund" /\ Parsed.exchange h = "MF"
       /\ String.length (Parsed.symbol h) <= 50)
      \/ (Parsed.asset_type h = "stock" /\ Parsed.exchange h = "NSE"
          /\ Parsed.current_price h = zero
          /\ Parsed.current_value h = zero)).

(** The advisory of a holding of a demat statement. *)
Definition price_advisory (w : Parsed.warning) : bool :=
  match Parsed.message w with
  | Some m => String.eqb m "Prices will be fetched from market data"
  | None => false
  end.

(** An ISIN as it is written: [IN] and ten capital letters or digits. *)
Definition standard_isin (isin : string) : bool :=
  startswith "IN" isin && (String.length isin =? 12)
  && id_run (Re.drop 2 isin).

(** The patterns of the symbol column (line 485). *)
Definition symbol_patterns : list (list string) :=
  match dict_get "symbol" GenericCSVParser.patterns with
  | Some field_patterns => field_patterns
  | None => []
  end.

(** A sheet with a header row and rows under it that is read as a sheet
    of stocks, and has no column for the symbol. *)
Definition stock_sheet_without_symbols (py_str : float -> string)
  (sh : Workbook.worksheet) : Prop :=
  exists raw header_row df,
    Workbook.df_raw sh = Ok raw
    /\ Workbook.find_header_row py_str 0 (firstn 50 raw) = Some header_row
    /\ Workbook.read_excel sh header_row = Ok df
    /\ empty df = false
    /\ ExcelParser._detect_sheet_type py_str df (Workbook.sheet_name sh)
       = Some "stocks"
    /\ find (GenericCSVParser.column_matches symbol_patterns) (columns df)
       = None.

(** A sheet in whose first 50 rows no header word is found. *)
Definition sheet_without_header (py_str : float -> string)
  (sh : Workbook.worksheet) : Prop :=
  exists raw,
    Workbook.df_raw sh = Ok raw
    /\ Workbook.find_header_row py_str 0 (firstn 50 raw) = None.

(** The exchange of the holding is NSE or BSE, or it has none. *)
Definition on_nse_or_bse (h : models.Holding) : bool :=
  match models.exchange h with
  | Some e =>
      negb (PyStr.truthy e) || String.eqb (upper e) "NSE"
      || String.eqb (upper e) "BSE"
  | None => true
  end.

(** The outcome of a [try] block of the upload handlers, as one of
    [update_holdings_prices]. *)
Definition as_refresh (r : Uploads.enriched)
  : models.Holding * nat * list Market.call :=
  (fst (fst r), snd (fst r), map Market.Asked (snd r)).

(** A symbol the tables of the generic parser leave as it is: it is
    clean, no key of [symbol_mappings] and kept by
    [ETF_SYMBOL_MAPPINGS]. *)
Definition settled_symbol (v : string) : Prop :=
  clean v = true
  /\ dict_get v GenericCSVParser.symbol_mappings = None
  /\ ZerodhaCSVParser.apply_etf_mapping v = v.

(** A word: not empty, and without white space. *)
Definition word (w : string) : Prop :=
  PyStr.truthy w = true /\ no_space w = true.

End Statements.

(** * Statements about sessions *)

Module Sessions.

Import models Db Uploads.
Local Open Scope list_scope.

(** The session the body of a loop leaves, from the session it found; the
    counters play no part in it. *)
Definition session_after autoflush pa hd (db : Session) (x : Parsed.holding)
  : Session :=
  session (body autoflush pa hd (start db) x).

(** The table a commit would write. *)
Definition view (db : Session) : list Holding := rows db ++ pending db.

(** The table [l] holds the parsed holding [x] as it is: the query of its
    key finds a record with its quantity and average price. *)
Definition settled pa hd (l : list Holding) (x : Parsed.holding) : Prop :=
  exists e, find (key_filter hd pa x) l = Some e /\ unchanged e x = true.

(** After the holdings [done] of a batch: each is settled in the table a
    commit would write, and each new object is the record of one of them. *)
Definition imported pa hd (done : list Parsed.holding) (db : Session) : Prop :=
  (forall x, In x done -> settled pa hd (view db) x)
  /\ (forall n, In n (pending db) ->
                exists x, In x done /\ key_filter hd pa x n = true).

(** The table after the enrichment loop of a handler. *)
Definition enriched_table gsi gmf smf hd pa (l : list Holding) : list Holding :=
  fst (fst (enrich_rows gsi gmf smf hd pa l)).

(** The table has a record of the key of [x]. *)
Definition present pa (l : list Holding) (x : Parsed.holding) : Prop :=
  exists e, find (key_filter Zerodha pa x) l = Some e.

(** A record has the key of a holding of the batch. *)
Definition of_the_file (hd : handler) (platform_account_id : nat)
  (hs : list Parsed.holding) (n : Holding) : Prop :=
  exists x, In x hs /\ key_filter hd platform_account_id x n = true.

(** The table [l] is the table [t], record by record with the account,
    the symbol, the asset type and the exchange each had, followed by
    records of the batch. *)
Definition appended (hd : handler) (platform_account_id : nat)
  (hs : list Parsed.holding) (t l : list Holding) : Prop :=
  exists kept new,
    l = kept ++ new
    /\ Forall2 Statements.same_identity t kept
    /\ Forall (of_the_file hd platform_account_id hs) new.

(** The number of records a request added to the table [t], from its
    answer: [imported_count], less [updated_count] for the Zerodha
    handler, which counts an update as imported too. *)
Definition added (t : list Holding) (r : run) : Prop :=
  exists resp,
    answer r = Ok resp
    /\ List.length (rows (db_after r))
       + match r_skipped_count resp with
         | None => r_updated_count resp
         | Some _ => 0
         end
       = List.length t + r_imported_count resp.

(** No holding of the batch has the key of the record. *)
Definition absent (hd : handler) (platform_account_id : nat)
  (hs : list Parsed.holding) (h : Holding) : bool :=
  forallb (fun x => negb (key_filter hd platform_account_id x h)) hs.

(** The record [h'] is [h] for the reconciliation, and it is [h] itself
    when [h] has a price. *)
Definition kept_as_it_was (h h' : Holding) : Prop :=
  Statements.same_for_reconciliation h h'
  /\ (PyFloat.eq (current_price h) PyFloat.zero = false -> h' = h).

(** The key of a record in the table. *)
Definition row_key (h : Holding) : nat * string * AssetType :=
  (platform_account_id h, symbol h, asset_type h).

(** No two records of the table have the same key. *)
Definition unique_keys (l : list Holding) : Prop := NoDup (map row_key l).

End Sessions.

(** * Properties *)

(** ** Loops that accumulate *)

Section LoopInvariants.

Context {A S : Type}.

(** An invariant of the body of a raising loop holds when the loop ends. *)
Lemma for_each_invariant (I : S -> Prop) (body : S -> A -> result S) :
  (forall s x s', I s -> body s x = Ok s' -> I s') ->
  forall l s s', I s -> for_each body l s = Ok s' -> I s'.
Proof.
  intros Hbody l.
  induction l as [|x l IH]; intros s s' Hs Hrun; simpl in Hrun.
  - inversion Hrun; subst; exact Hs.
  - destruct (body s x) as [s1|e] eqn:Hx; simpl in Hrun.
    + eapply IH; [eapply Hbody; eassumption | exact Hrun].
    + discriminate.
Qed.

(** The same for a loop that does not raise. *)
Lemma fold_left_invariant (I : S -> Prop) (body : S -> A -> S) :
  (forall s x, I s -> I (body s x)) ->
  forall l s, I s -> I (fold_left body l s).
Proof.
  intros Hbody l.
  induction l as [|x l IH]; intros s Hs; simpl; auto.
Qed.

End LoopInvariants.

Lemma Forall_snoc {A : Type} (P : A -> Prop) (l : list A) (x : A) :
  Forall P l -> P x -> Forall P (l ++ [x]).
Proof.
  intros Hl Hx. apply Forall_app. split; [exact Hl | constructor; auto].
Qed.

(** ** The value of a parsed holding *)

Module ValueInvariant.

Import Frame PyFloat Statements.

Lemma custom_row py_float py_str mapping idx row h w :
  GenericCSVParser.parse_custom_row py_float py_str mapping idx row
  = Ok (Some (h, w)) ->
  value_identity h.
Proof.
  unfold GenericCSVParser.parse_custom_row.
  destruct (dict_get "symbol" mapping) as [col|]; [|discriminate].
  destruct (dict_get col row) as [[| f | s]|]; try discriminate.
  all: destruct (GenericCSVParser.read_quantity _ _ _) as [q mq].
  all: destruct (GenericCSVParser.read_average_price _ _ _) as [a ma].
  all: match goal with
       | |- context [bind ?m _] => destruct m as [pct|e]; [|discriminate]
       end.
  all: simpl; intros E; inversion E; subst; clear E.
  all: unfold value_identity; simpl.
  all: destruct (gt _ zero); split; intros; congruence.
Qed.

Lemma stock_row py_float py_str mapping sheet idx row h w :
  ExcelParser.parse_stock_row py_float py_str mapping sheet idx row
  = Some (h, w) ->
  value_identity h.
Proof.
  unfold ExcelParser.parse_stock_row.
  destruct (GenericCSVParser.mapped_cell mapping "symbol" row)
    as [[| f | s]|]; try discriminate.
  all: destruct (ExcelParser.read_quantity _ _ _) as [q mq].
  all: destruct (GenericCSVParser.read_average_price _ _ _) as [a ma].
  all: intros E; inversion E; subst; clear E.
  all: unfold value_identity; simpl.
  all: destruct (gt (GenericCSVParser.read_current_price _ _ _) zero);
    split; intros; congruence.
Qed.

Lemma console_row py_float py_str row h :
  ZerodhaCSVParser.parse_console_row py_float py_str row = Ok (Some h) ->
  priced_identity h.
Proof.
  unfold ZerodhaCSVParser.parse_console_row.
  destruct (getitem row "Symbol") as [[| f | s]|]; simpl; try discriminate.
  all: match goal with
       | |- context [if ?b then _ else _] => destruct b; [discriminate|]
       end.
  all: repeat match goal with
         | |- context [bind ?m _] =>
             destruct m; simpl; [|discriminate]
         end.
  all: intros E; inversion E; reflexivity.
Qed.

Lemma custom_rows py_float py_str mapping df hs ws :
  GenericCSVParser.parse_custom_rows py_float py_str mapping df = Ok (hs, ws) ->
  Forall value_identity hs.
Proof.
  unfold GenericCSVParser.parse_custom_rows. intros Hrun.
  apply (for_each_invariant
           (fun acc : list Parsed.holding * list Parsed.warning =>
              Forall value_identity (fst acc)) _) in Hrun; auto.
  intros [hs0 ws0] [idx row] acc' Hacc Hbody. simpl in *.
  destruct (GenericCSVParser.parse_custom_row _ _ _ _ _) as [r|e] eqn:Hrow;
    simpl in Hbody; [|discriminate].
  inversion Hbody; subst; clear Hbody.
  destruct r as [[h [w|]]|]; simpl; auto.
  all: apply Forall_snoc; auto; eapply custom_row; eassumption.
Qed.

Lemma custom_holdings py_float py_str read_csv contents mapping hs ws :
  GenericCSVParser.parse_custom_holdings py_float py_str read_csv contents
    mapping = Ok (hs, ws) ->
  Forall value_identity hs.
Proof.
  unfold GenericCSVParser.parse_custom_holdings.
  destruct (negb (PyStr.truthy contents)); [discriminate|].
  destruct read_csv as [df|e]; [|discriminate].
  destruct (empty df); [discriminate|].
  match goal with
  | |- context [bind ?c _] => destruct c as [m|e]; simpl; [|discriminate]
  end.
  destruct (GenericCSVParser.parse_custom_rows _ _ _ _) as [[hs0 ws0]|e]
    eqn:Hrows; [|discriminate].
  destruct hs0; [discriminate|].
  intros E; inversion E; subst. eapply custom_rows; eassumption.
Qed.

Lemma stock_sheet py_float py_str df sheet hs ws :
  ExcelParser._parse_stock_sheet py_float py_str df sheet = Ok (hs, ws) ->
  Forall value_identity hs.
Proof.
  unfold ExcelParser._parse_stock_sheet.
  destruct (GenericCSVParser._auto_detect_columns df) as [mapping|e];
    simpl; [|discriminate].
  intros E; inversion E as [Hc]; clear E.
  change hs with (fst (hs, ws)). rewrite <- Hc.
  unfold ExcelParser.collect.
  apply (fold_left_invariant
           (fun acc : list Parsed.holding * list Parsed.warning =>
              Forall value_identity (fst acc))); simpl; auto.
  intros [hs0 ws0] [idx row] Hacc. simpl in *.
  destruct (ExcelParser.parse_stock_row _ _ _ _ _ _) as [[h [w|]]|] eqn:Hrow;
    simpl; auto.
  all: apply Forall_snoc; auto; eapply stock_row; eassumption.
Qed.

Lemma console_rows py_float py_str df hs :
  mem "Symbol" (columns df) = true ->
  ZerodhaCSVParser.parse_rows py_float py_str df = Ok hs ->
  Forall priced_identity hs.
Proof.
  unfold ZerodhaCSVParser.parse_rows. intros -> Hrun.
  apply (for_each_invariant (Forall priced_identity) _) in Hrun; auto.
  intros hs0 row hs1 Hacc Hbody.
  destruct (ZerodhaCSVParser.parse_console_row _ _ _) as [r|e] eqn:Hrow;
    simpl in Hbody; [|discriminate].
  inversion Hbody; subst; clear Hbody.
  destruct r as [h|]; auto.
  apply Forall_snoc; auto; eapply console_row; eassumption.
Qed.

Lemma pdf_scheme py_float re_search text scheme h ws :
  PDFParser.parse_scheme py_float re_search text scheme = (Some h, ws) ->
  priced_identity_when_positive h.
Proof.
  unfold PDFParser.parse_scheme.
  destruct (PDFParser.find_index scheme text) as [pos|]; [|discriminate].
  destruct (re_search PDFParser.units_pattern _) as [g|];
    [destruct (PDFParser.float_no_commas py_float g) as [q|]|].
  all: destruct (re_search PDFParser.nav_pattern _) as [g'|];
    [destruct (PDFParser.float_no_commas py_float g')|].
  all: cbv beta iota zeta.
  all: try (change (gt zero zero) with false; cbv iota; discriminate).
  all: destruct (gt q zero) eqn:Hq; [|discriminate].
  all: intros E; inversion E; subst; clear E.
  all: unfold priced_identity_when_positive, priced_identity; simpl.
  all: try (intros ->; reflexivity).
  all: change (gt zero zero) with false; discriminate.
Qed.

Lemma pdf_table py_float re_findall lines :
  Forall priced_identity (PDFParser.table_holdings py_float re_findall lines).
Proof.
  induction lines as [|line rest IH]; simpl; [constructor|].
  apply Forall_app; split; [|exact IH].
  destruct (PDFParser.has_fund_word line); [|constructor].
  destruct (re_findall _ _) as [|n0 [|n1 ns]]; try constructor.
  destruct (PDFParser.float_no_commas py_float n0); [|constructor].
  destruct (PDFParser.float_no_commas py_float n1); [|constructor].
  destruct (_ && _); constructor; [reflexivity | constructor].
Qed.

Lemma pdf_statement py_float re_findall re_search text :
  Forall priced_identity_when_positive
    (fst (PDFParser._parse_mutual_fund_statement py_float re_findall
            re_search text)).
Proof.
  unfold PDFParser._parse_mutual_fund_statement.
  assert (Forall priced_identity_when_positive
            (fst (PDFParser.parse_schemes py_float re_search text
                    (re_findall PDFParser.scheme_pattern text)))) as H.
  { unfold PDFParser.parse_schemes.
    apply (fold_left_invariant
             (fun acc : list Parsed.holding * list Parsed.warning =>
                Forall priced_identity_when_positive (fst acc))); simpl; auto.
    intros [hs0 ws0] scheme Hacc. simpl in *.
    destruct (PDFParser.parse_scheme _ _ _ _) as [[h|] ws] eqn:Hs; simpl.
    - apply Forall_snoc; auto. eapply pdf_scheme; eassumption.
    - rewrite app_nil_r; auto. }
  destruct (PDFParser.parse_schemes _ _ _ _) as [[|h hs] ws]; simpl in *.
  - eapply Forall_impl; [|apply pdf_table]. intros a Ha _; exact Ha.
  - exact H.
Qed.

(** The float itself gives Python's [==], but for [nan]. *)
Lemma equals_identity a b : a = b -> equals a b.
Proof.
  intros ->. repeat split; intros H; exact H.
Qed.

Lemma value_identity_invariant h : value_identity h -> value_invariant h.
Proof.
  intros [Hp Ha]. split; intros H; apply equals_identity; auto.
Qed.

Lemma priced_identity_priced h : priced_identity h -> priced h.
Proof. apply equals_identity. Qed.

Lemma priced_identity_when_positive_priced h :
  priced_identity_when_positive h -> priced_when_positive h.
Proof.
  intros Hp H. apply priced_identity_priced. exact (Hp H).
Qed.

(** C3, as amended.  Every holding of the generic CSV parser and of the
    Excel stock-sheet parser has, for [current_value], the float
    [quantity * current_price] when [current_price > 0] and the float
    [quantity * average_price] otherwise; every holding of the Console
    format of the Zerodha parser has the float [quantity * current_price]
    whatever the price; every holding of the PDF mutual-fund parser has it
    when [current_price > 0].  Python's [==] between the value and the
    product is then true, exactly and not approximately, whenever the
    product is a number; when it is not (a blank quantity is read as
    [nan]), the value is [nan] as well and [==] is false. *)
Theorem current_value_of_parsed_holdings :
  forall (py_float : string -> option float) (py_str : float -> string),
    (forall read_csv contents mapping hs ws,
        GenericCSVParser.parse_custom_holdings py_float py_str read_csv
          contents mapping = Ok (hs, ws) ->
        Forall value_invariant hs)
    /\ (forall df sheet_name hs ws,
           ExcelParser._parse_stock_sheet py_float py_str df sheet_name
           = Ok (hs, ws) ->
           Forall value_invariant hs)
    /\ (forall df hs,
           mem "Symbol" (columns df) = true ->
           ZerodhaCSVParser.parse_rows py_float py_str df = Ok hs ->
           Forall priced hs)
    /\ (forall re_findall re_search text,
           Forall priced_when_positive
             (fst (PDFParser._parse_mutual_fund_statement py_float re_findall
                     re_search text))).
Proof.
  intros py_float py_str. refine (conj _ (conj _ (conj _ _))).
  - intros. eapply Forall_impl; [apply value_identity_invariant|].
    eapply custom_holdings; eassumption.
  - intros. eapply Forall_impl; [apply value_identity_invariant|].
    eapply stock_sheet; eassumption.
  - intros. eapply Forall_impl; [apply priced_identity_priced|].
    eapply console_rows; eassumption.
  - intros. eapply Forall_impl; [apply priced_identity_when_positive_priced|].
    apply pdf_statement.
Qed.

(** The theorem at the sample frames: the generic CSV and the stock sheet
    with one row, and the Console export with one row. *)
Lemma current_value_of_parsed_holdings_witness :
  Forall value_invariant [Samples.generic_holding]
  /\ Forall priced [Samples.console_holding].
Proof.
  destruct (current_value_of_parsed_holdings Samples.no_text_float
              Samples.no_float_text) as (Hcsv & _ & Hconsole & _).
  split.
  - apply (Hcsv (Ok Samples.generic_frame) "Symbol,Quantity,Avg Price" None
             [Samples.generic_holding] []).
    vm_compute. reflexivity.
  - apply (Hconsole Samples.console_frame [Samples.console_holding]).
    + vm_compute. reflexivity.
    + vm_compute. reflexivity.
Defined.

(** C3 as stated fails: the Console format multiplies by a price that is
    not positive, the legacy format and the mutual-fund sheet take the
    value from the file; and in the generic parser a blank quantity is
    read as [nan], so that the value and the product are both [nan] and
    [==] between them is false. *)
Lemma current_value_counterexample :
  (ZerodhaCSVParser.parse_rows Samples.no_text_float Samples.no_float_text
     Samples.console_frame = Ok [Samples.console_holding]
   /\ gt (Parsed.current_price Samples.console_holding) zero = false
   /\ Parsed.current_value Samples.console_holding = 0%float
   /\ (Parsed.quantity Samples.console_holding
       * Parsed.average_price Samples.console_holding)%float = 2205%float)
  /\ (ZerodhaCSVParser.parse_rows Samples.no_text_float Samples.no_float_text
        Samples.legacy_frame = Ok [Samples.legacy_holding]
      /\ gt (Parsed.current_price Samples.legacy_holding) zero = true
      /\ Parsed.current_value Samples.legacy_holding = 1250%float
      /\ (Parsed.quantity Samples.legacy_holding
          * Parsed.current_price Samples.legacy_holding)%float = 1200%float)
  /\ (ExcelParser._parse_mutual_fund_sheet Samples.no_text_float
        Samples.no_float_text Samples.plain_name Samples.fund_frame "Funds"
      = ([Samples.fund_holding], [])
      /\ gt (Parsed.current_price Samples.fund_holding) zero = true
      /\ Parsed.current_value Samples.fund_holding = 60%float
      /\ (Parsed.quantity Samples.fund_holding
          * Parsed.current_price Samples.fund_holding)%float = 50%float)
  /\ (GenericCSVParser.parse_custom_holdings Samples.no_text_float
        Samples.no_float_text (Ok Samples.blank_quantity_frame)
        "Symbol,Quantity,Avg Price" None
      = Ok ([Samples.parsed_wipro], [])
      /\ gt (Parsed.current_price Samples.parsed_wipro) zero = false
      /\ eq (Parsed.current_value Samples.parsed_wipro)
           (Parsed.quantity Samples.parsed_wipro
            * Parsed.average_price Samples.parsed_wipro)%float = false).
Proof.
  repeat split; vm_compute; reflexivity.
Qed.

End ValueInvariant.

(** ** Defaults of the generic CSV parser *)

Module Defaults.

Import Frame PyFloat Statements.

(** What a row of the generic parser emits, in terms of the three readers. *)
Lemma custom_row_fields py_float py_str mapping idx row h w :
  GenericCSVParser.parse_custom_row py_float py_str mapping idx row
  = Ok (Some (h, w)) ->
  Parsed.quantity h = fst (GenericCSVParser.read_quantity py_float mapping row)
  /\ Parsed.average_price h
     = fst (GenericCSVParser.read_average_price py_float mapping row)
  /\ Parsed.current_price h
     = GenericCSVParser.read_current_price py_float mapping row
  /\ (forall field,
         In field
           (snd (GenericCSVParser.read_quantity py_float mapping row)
            ++ snd (GenericCSVParser.read_average_price py_float mapping row))%list
         <-> named field w)
  /\ (forall w', w = Some w' -> Parsed.row_number w' = Some (idx + 2)).
Proof.
  unfold GenericCSVParser.parse_custom_row.
  destruct (dict_get "symbol" mapping) as [col|]; [|discriminate].
  destruct (dict_get col row) as [[| f | s]|]; try discriminate.
  all: destruct (GenericCSVParser.read_quantity _ _ _) as [q mq].
  all: destruct (GenericCSVParser.read_average_price _ _ _) as [a ma].
  all: match goal with
       | |- context [bind ?m _] => destruct m as [pct|e]; [|discriminate]
       end.
  all: simpl; intros E; inversion E; subst; clear E; simpl.
  all: unfold named; destruct (mq ++ ma)%list as [|m ms].
  all: repeat split; auto.
  all: try (intros []; fail).
  all: try (intros (w' & Hw & _); discriminate).
  all: try (intros w' Hw; inversion Hw; reflexivity).
  all: try (intros Hin; eexists; split; [reflexivity | exact Hin]).
  all: intros (w' & Hw & Hin); inversion Hw; subst; exact Hin.
Qed.

Lemma detect_without_quantity cols :
  find (GenericCSVParser.column_matches quantity_patterns) cols = None ->
  dict_get "quantity" (GenericCSVParser.detect GenericCSVParser.patterns cols)
  = None.
Proof.
  intros Hq. unfold GenericCSVParser.detect, GenericCSVParser.patterns.
  cbn [flat_map].
  change [["quantity"]; ["qty"]; ["shares"]; ["units"]; ["holdings"]]
    with quantity_patterns.
  rewrite Hq.
  repeat match goal with
         | |- context [find ?p cols] => destruct (find p cols)
         end; reflexivity.
Qed.

Lemma unmapped_quantity py_float mapping row :
  dict_get "quantity" mapping = None ->
  GenericCSVParser.read_quantity py_float mapping row = (one, ["quantity"]).
Proof.
  intros H. unfold GenericCSVParser.read_quantity, GenericCSVParser.mapped_cell.
  rewrite H. reflexivity.
Qed.

Lemma custom_rows_without_quantity py_float py_str mapping df hs ws :
  dict_get "quantity" mapping = None ->
  GenericCSVParser.parse_custom_rows py_float py_str mapping df = Ok (hs, ws) ->
  quantity_defaulted hs ws.
Proof.
  intros Hq. unfold GenericCSVParser.parse_custom_rows. intros Hrun.
  apply (for_each_invariant
           (fun acc : list Parsed.holding * list Parsed.warning =>
              quantity_defaulted (fst acc) (snd acc)) _) in Hrun;
    [exact Hrun | | constructor].
  intros [hs0 ws0] [idx row] acc' Hacc Hbody. simpl in *.
  destruct (GenericCSVParser.parse_custom_row _ _ _ _ _) as [r|e] eqn:Hrow;
    simpl in Hbody; [|discriminate].
  inversion Hbody; subst; clear Hbody.
  destruct r as [[h w]|]; [|exact Hacc].
  apply custom_row_fields in Hrow.
  destruct Hrow as (Hqty & _ & _ & Hnamed & _).
  rewrite (unmapped_quantity py_float mapping row Hq) in Hqty, Hnamed.
  simpl in Hqty.
  destruct (proj1 (Hnamed "quantity") (or_introl eq_refl)) as (w' & -> & Hin).
  simpl. apply Forall2_app; [exact Hacc|]. repeat constructor; assumption.
Qed.

Lemma custom_holdings_without_quantity py_float py_str read_csv contents df
  hs ws :
  read_csv = Ok df ->
  no_quantity_column df ->
  GenericCSVParser.parse_custom_holdings py_float py_str read_csv contents None
  = Ok (hs, ws) ->
  quantity_defaulted hs ws.
Proof.
  intros -> Hno. unfold GenericCSVParser.parse_custom_holdings.
  destruct (negb (PyStr.truthy contents)); [discriminate|].
  destruct (empty df); [discriminate|].
  unfold GenericCSVParser._auto_detect_columns.
  destruct (dict_get "symbol" _); simpl; [|discriminate].
  destruct (GenericCSVParser.parse_custom_rows _ _ _ _) as [[hs0 ws0]|e]
    eqn:Hrun; [|discriminate].
  destruct hs0; [discriminate|].
  intros E; inversion E; subst.
  eapply custom_rows_without_quantity; [|exact Hrun].
  apply detect_without_quantity. exact Hno.
Qed.

(** C7, as amended.  In the generic CSV path a quantity whose column is
    not mapped, or whose cell [float] rejects, is 1.0, and a price likewise
    is 0.  The warning of the row names ['quantity'] when no quantity
    column is mapped, and then only; it names ['average_price'] when the
    average price is not mapped and ['average_price (invalid value)'] when
    [float] rejects it; it names no other field, so none is given for the
    current price.  A cell that [float] accepts is taken as it is, without
    a warning: a blank cell of a mapped column, which pandas reads as
    [nan], leaves the quantity or the price [nan], not defaulted.  In
    particular a CSV with no quantity column yields quantity 1.0 on every
    holding and one warning for each holding, in order, that names
    ['quantity']. *)
Theorem generic_csv_defaults :
  forall (py_float : string -> option float) (py_str : float -> string),
    (forall mapping idx row h w,
        GenericCSVParser.parse_custom_row py_float py_str mapping idx row
        = Ok (Some (h, w)) ->
        (GenericCSVParser.mapped_cell mapping "quantity" row = None ->
         Parsed.quantity h = one /\ named "quantity" w)
        /\ (forall c e,
               GenericCSVParser.mapped_cell mapping "quantity" row = Some c ->
               float_of_cell py_float c = Raised e ->
               Parsed.quantity h = one /\ ~ named "quantity" w)
        /\ (forall c f,
               GenericCSVParser.mapped_cell mapping "quantity" row = Some c ->
               float_of_cell py_float c = Ok f ->
               Parsed.quantity h = f /\ ~ named "quantity" w)
        /\ (GenericCSVParser.mapped_cell mapping "quantity" row = Some CNaN ->
            eq (Parsed.quantity h) (Parsed.quantity h) = false
            /\ ~ named "quantity" w)
        /\ (forall c f,
               GenericCSVParser.mapped_cell mapping "average_price" row = Some c ->
               float_of_cell_no_commas py_float c = Ok f ->
               Parsed.average_price h = f
               /\ ~ named "average_price" w
               /\ ~ named "average_price (invalid value)" w)
        /\ (GenericCSVParser.mapped_cell mapping "average_price" row
            = Some CNaN ->
            eq (Parsed.average_price h) (Parsed.average_price h) = false
            /\ ~ named "average_price" w
            /\ ~ named "average_price (invalid value)" w)
        /\ (forall c f,
               GenericCSVParser.mapped_cell mapping "current_price" row = Some c ->
               float_of_cell_no_commas py_float c = Ok f ->
               Parsed.current_price h = f)
        /\ (GenericCSVParser.mapped_cell mapping "average_price" row = None ->
            Parsed.average_price h = zero /\ named "average_price" w)
        /\ (forall c e,
               GenericCSVParser.mapped_cell mapping "average_price" row = Some c ->
               float_of_cell_no_commas py_float c = Raised e ->
               Parsed.average_price h = zero
               /\ named "average_price (invalid value)" w)
        /\ (GenericCSVParser.mapped_cell mapping "current_price" row = None ->
            Parsed.current_price h = zero)
        /\ (forall c e,
               GenericCSVParser.mapped_cell mapping "current_price" row = Some c ->
               float_of_cell_no_commas py_float c = Raised e ->
               Parsed.current_price h = zero)
        /\ (forall field,
               named field w ->
               In field
                 ["quantity"; "average_price"; "average_price (invalid value)"]))
    /\ (forall read_csv contents df hs ws,
           read_csv = Ok df ->
           no_quantity_column df ->
           GenericCSVParser.parse_custom_holdings py_float py_str read_csv
             contents None = Ok (hs, ws) ->
           quantity_defaulted hs ws).
Proof.
  intros py_float py_str. split.
  - intros mapping idx row h w Hrow.
    apply custom_row_fields in Hrow.
    destruct Hrow as (Hq & Ha & Hc & Hnamed & _).
    unfold GenericCSVParser.read_quantity, GenericCSVParser.read_average_price,
      GenericCSVParser.read_current_price in *.
    assert (forall c,
               GenericCSVParser.mapped_cell mapping "quantity" row = Some c ->
               ~ named "quantity" w) as Hnq.
    { intros c E Hn. apply Hnamed in Hn. rewrite E in Hn. simpl in Hn.
      destruct (GenericCSVParser.mapped_cell mapping "average_price" row)
        as [ca|]; [destruct (float_of_cell_no_commas py_float ca)|];
        simpl in Hn; intuition discriminate. }
    assert (forall c f,
               GenericCSVParser.mapped_cell mapping "average_price" row
               = Some c ->
               float_of_cell_no_commas py_float c = Ok f ->
               Parsed.average_price h = f
               /\ ~ named "average_price" w
               /\ ~ named "average_price (invalid value)" w) as Hna.
    { intros c f E F. rewrite E, F in Ha, Hnamed.
      split; [exact Ha|].
      split; intros Hn; apply Hnamed in Hn;
        destruct (GenericCSVParser.mapped_cell mapping "quantity" row);
        simpl in Hn; intuition discriminate. }
    refine (conj _ (conj _ (conj _ (conj _ (conj _ (conj _ (conj _ (conj _
              (conj _ (conj _ (conj _ _))))))))))).
    + intros E. rewrite E in Hq, Hnamed. split; [exact Hq|].
      apply Hnamed. left. reflexivity.
    + intros c e E F. split; [|exact (Hnq c E)].
      rewrite E, F in Hq. exact Hq.
    + intros c f E F. split; [|exact (Hnq c E)].
      rewrite E, F in Hq. exact Hq.
    + intros E. split; [|exact (Hnq CNaN E)].
      rewrite E in Hq. rewrite Hq. reflexivity.
    + exact Hna.
    + intros E. destruct (Hna CNaN PrimFloat.nan E eq_refl) as (Hf & Hn).
      split; [|exact Hn]. rewrite Hf. reflexivity.
    + intros c f E F. rewrite E, F in Hc. exact Hc.
    + intros E. rewrite E in Ha, Hnamed. split; [exact Ha|].
      apply Hnamed. apply in_or_app. right. left. reflexivity.
    + intros c e E F. rewrite E, F in Ha, Hnamed. split; [exact Ha|].
      apply Hnamed. apply in_or_app. right. left. reflexivity.
    + intros E. rewrite E in Hc. exact Hc.
    + intros c e E F. rewrite E, F in Hc. exact Hc.
    + intros field Hf. apply Hnamed in Hf.
      destruct (GenericCSVParser.mapped_cell mapping "quantity" row);
        destruct (GenericCSVParser.mapped_cell mapping "average_price" row)
        as [ca|]; [destruct (float_of_cell_no_commas py_float ca)| |
                   destruct (float_of_cell_no_commas py_float ca)|];
        simpl in Hf; intuition; subst; simpl; auto.
  - intros. eapply custom_holdings_without_quantity; eassumption.
Qed.

(** The theorem at a CSV with the columns [Symbol] and [Avg Price]: both
    rows are emitted with quantity 1.0 and a warning each; and at a row
    whose quantity is blank: the quantity is not a number and no warning
    names it. *)
Lemma generic_csv_defaults_witness :
  (exists hs ws,
      GenericCSVParser.parse_custom_holdings Samples.no_text_float
        Samples.no_float_text (Ok Samples.no_quantity_frame)
        "Symbol,Avg Price" None = Ok (hs, ws)
      /\ List.length hs = 2
      /\ quantity_defaulted hs ws)
  /\ (eq (Parsed.quantity Samples.parsed_wipro)
         (Parsed.quantity Samples.parsed_wipro) = false
      /\ ~ named "quantity" None).
Proof.
  split.
  - eexists. eexists. split; [vm_compute; reflexivity|].
    split; [reflexivity|].
    eapply (proj2 (generic_csv_defaults Samples.no_text_float
                     Samples.no_float_text)
              (Ok Samples.no_quantity_frame) "Symbol,Avg Price"
              Samples.no_quantity_frame).
    + reflexivity.
    + vm_compute. reflexivity.
    + vm_compute. reflexivity.
  - destruct (proj1 (generic_csv_defaults Samples.no_text_float
                       Samples.no_float_text)
                [ ("symbol", "Symbol"); ("quantity", "Quantity");
                  ("average_price", "Avg Price") ]
                0
                [ ("Symbol", CStr "WIPRO"); ("Quantity", CNaN);
                  ("Avg Price", CNum 400%float) ]
                Samples.parsed_wipro None)
      as (_ & _ & _ & Hblank & _).
    + vm_compute. reflexivity.
    + apply Hblank. reflexivity.
Defined.

(** C7 as stated fails for the current price: a CSV without a column of
    current prices has the price defaulted to 0 and no warning at all.  It
    fails for a blank quantity as well: the quantity is not defaulted, it
    is [nan], and there is no warning. *)
Lemma generic_csv_defaults_counterexample :
  (GenericCSVParser.mapped_cell
     (GenericCSVParser.detect GenericCSVParser.patterns
        (columns Samples.generic_frame))
     "current_price"
     [ ("Symbol", CStr "INFY"); ("Quantity", CNum 5%float);
       ("Avg Price", CNum 100%float) ] = None
   /\ GenericCSVParser.parse_custom_holdings Samples.no_text_float
        Samples.no_float_text (Ok Samples.generic_frame)
        "Symbol,Quantity,Avg Price" None
      = Ok ([Samples.generic_holding], [])
   /\ Parsed.current_price Samples.generic_holding = zero)
  /\ (GenericCSVParser.parse_custom_holdings Samples.no_text_float
        Samples.no_float_text (Ok Samples.blank_quantity_frame)
        "Symbol,Quantity,Avg Price" None
      = Ok ([Samples.parsed_wipro], [])
      /\ eq (Parsed.quantity Samples.parsed_wipro) one = false
      /\ eq (Parsed.quantity Samples.parsed_wipro)
           (Parsed.quantity Samples.parsed_wipro) = false).
Proof.
  repeat split; vm_compute; reflexivity.
Qed.

End Defaults.

(** ** The invested-value column of a mutual-fund sheet *)

Module InvestedValue.

Import Frame PyFloat Statements.





End InvestedValue.

(** ** The PDF mutual-fund statement *)

Module PdfFunds.

Import PyFloat Statements.

Lemma scheme_at_cost py_float re_search text scheme h ws :
  PDFParser.parse_scheme py_float re_search text scheme = (Some h, ws) ->
  at_cost h.
Proof.
  unfold PDFParser.parse_scheme.
  destruct (PDFParser.find_index scheme text) as [pos|]; [|discriminate].
  destruct (re_search PDFParser.units_pattern _) as [g|];
    [destruct (PDFParser.float_no_commas py_float g) as [q|]|].
  all: destruct (re_search PDFParser.nav_pattern _) as [g'|];
    [destruct (PDFParser.float_no_commas py_float g')|].
  all: cbv beta iota zeta.
  all: match goal with
       | |- (if ?b then _ else _, _) = _ -> _ => destruct b; [|discriminate]
       end.
  all: intros E; inversion E; subst; clear E.
  all: unfold at_cost; simpl; auto.
Qed.

Lemma scheme_at_nav py_float re_search text scheme h ws pos g nav :
  PDFParser.find_index scheme text = Some pos ->
  re_search PDFParser.nav_pattern (slice pos (pos + 500) text) = Some g ->
  PDFParser.float_no_commas py_float g = Some nav ->
  PDFParser.parse_scheme py_float re_search text scheme = (Some h, ws) ->
  Parsed.average_price h = nav /\ Parsed.current_price h = nav.
Proof.
  unfold PDFParser.parse_scheme. intros -> -> ->.
  destruct (re_search PDFParser.units_pattern _) as [gq|];
    [destruct (PDFParser.float_no_commas py_float gq) as [q|]|].
  all: cbv beta iota zeta.
  all: match goal with
       | |- (if ?b then _ else _, _) = _ -> _ => destruct b; [|discriminate]
       end.
  all: intros E; inversion E; subst; clear E; simpl; auto.
Qed.

Lemma table_at_cost py_float re_findall lines :
  Forall at_cost (PDFParser.table_holdings py_float re_findall lines).
Proof.
  induction lines as [|line rest IH]; simpl; [constructor|].
  apply Forall_app; split; [|exact IH].
  destruct (PDFParser.has_fund_word line); [|constructor].
  destruct (re_findall _ _) as [|n0 [|n1 ns]]; try constructor.
  destruct (PDFParser.float_no_commas py_float n0); [|constructor].
  destruct (PDFParser.float_no_commas py_float n1); [|constructor].
  destruct (_ && _); constructor; [|constructor].
  unfold at_cost; simpl; auto.
Qed.

Lemma schemes_at_cost py_float re_search text schemes :
  Forall at_cost
    (fst (PDFParser.parse_schemes py_float re_search text schemes)).
Proof.
  unfold PDFParser.parse_schemes.
  apply (fold_left_invariant
           (fun acc : list Parsed.holding * list Parsed.warning =>
              Forall at_cost (fst acc))); simpl; auto.
  intros [hs0 ws0] scheme Hacc. simpl in *.
  destruct (PDFParser.parse_scheme _ _ _ _) as [[h|] ws] eqn:Hs; simpl.
  - apply Forall_snoc; auto. eapply scheme_at_cost; eassumption.
  - rewrite app_nil_r; auto.
Qed.

(** C10.  Every holding of the PDF mutual-fund parser, from the windowed
    search or from the table scan it falls back to, has
    [average_price = current_price], [pnl = 0] and [pnl_percentage = 0];
    and when a NAV was extracted for a scheme of the windowed search, both
    prices of its holding are that NAV. *)
Theorem pdf_fund_average_price_is_nav :
  forall py_float re_findall re_search text,
    Forall at_cost
      (fst (PDFParser._parse_mutual_fund_statement py_float re_findall
              re_search text))
    /\ Forall at_cost
         (fst (PDFParser.parse_schemes py_float re_search text
                 (re_findall PDFParser.scheme_pattern text)))
    /\ (forall scheme h ws pos g nav,
           PDFParser.find_index scheme text = Some pos ->
           re_search PDFParser.nav_pattern (slice pos (pos + 500) text)
           = Some g ->
           PDFParser.float_no_commas py_float g = Some nav ->
           PDFParser.parse_scheme py_float re_search text scheme
           = (Some h, ws) ->
           Parsed.average_price h = nav /\ Parsed.current_price h = nav).
Proof.
  intros py_float re_findall re_search text.
  assert (Forall at_cost
            (fst (PDFParser.parse_schemes py_float re_search text
                    (re_findall PDFParser.scheme_pattern text)))) as Hwin
      by apply schemes_at_cost.
  split; [|split; [exact Hwin|]].
  - unfold PDFParser._parse_mutual_fund_statement.
    destruct (PDFParser.parse_schemes _ _ _ _) as [[|h hs] ws]; simpl in *.
    + apply table_at_cost.
    + exact Hwin.
  - intros. eapply scheme_at_nav; eassumption.
Qed.

(** The theorem at the sample statement: one holding of 10 units, both of
    its prices the NAV 25. *)
Lemma pdf_fund_average_price_is_nav_witness :
  exists h ws,
    PDFParser.parse_scheme Samples.statement_float Samples.statement_search
      Samples.statement_text Samples.statement_text = (Some h, ws)
    /\ Parsed.quantity h = 10%float
    /\ Parsed.average_price h = 25%float
    /\ Parsed.current_price h = 25%float.
Proof.
  eexists. eexists. split; [vm_compute; reflexivity|].
  split; [reflexivity|].
  eapply (proj2 (proj2 (pdf_fund_average_price_is_nav Samples.statement_float
                          Samples.statement_findall Samples.statement_search
                          Samples.statement_text))
            Samples.statement_text _ _ 0 "25" 25%float).
  - vm_compute. reflexivity.
  - vm_compute. reflexivity.
  - vm_compute. reflexivity.
  - vm_compute. reflexivity.
Defined.

End PdfFunds.

(** ** Classification of symbols *)

Module Classification.

Import Statements.

(** C4 at its failing inputs.  The generic CSV parser tests for ETFs first
    and asks the symbol of a gold bond to contain [GOLD]: [SGBMAR29] is a
    stock for it and a symbol with [REIT] and [ETF] is an ETF, while the
    Zerodha parser classifies both as the claim says.  The Zerodha parser
    in turn has no rule for the suffix [NAV]. *)
Theorem classification_diverges_between_parsers :
  GenericCSVParser.detect_asset_type "SGBMAR29" = "stock"
  /\ ZerodhaCSVParser.console_asset_type "SGBMAR29" None = "sgb"
  /\ ZerodhaCSVParser.legacy_asset_type "SGBMAR29" = "sgb"
  /\ GenericCSVParser.detect_asset_type "REITETF" = "etf"
  /\ ZerodhaCSVParser.console_asset_type "REITETF" None = "reit"
  /\ ZerodhaCSVParser.console_asset_type "HDFCSENSEXINAV" None = "stock"
  /\ GenericCSVParser.detect_asset_type "HDFCSENSEXINAV" = "etf"
  /\ Samples.asset_types
       (GenericCSVParser.parse_custom_holdings Samples.no_text_float
          Samples.no_float_text (Ok Samples.bond_frame)
          "Symbol,Quantity,Avg Price" None)
     = ["stock"; "etf"]
  /\ ZerodhaCSVParser.parse_rows Samples.no_text_float Samples.no_float_text
       Samples.bond_console_frame
     = Ok [ {| Parsed.symbol := "SGBMAR29"; Parsed.exchange := "NSE";
               Parsed.asset_type := "sgb";
               Parsed.quantity := 10%float;
               Parsed.average_price := 5000%float;
               Parsed.current_price := 5100%float;
               Parsed.current_value := 51000%float;
               Parsed.pnl := 1000%float; Parsed.pnl_percentage := 2%float;
               Parsed.isin := None; Parsed.scheme_code := None |};
            {| Parsed.symbol := "NIFTYBEES"; Parsed.exchange := "NSE";
               Parsed.asset_type := "etf";
               Parsed.quantity := 10%float;
               Parsed.average_price := 220.5%float;
               Parsed.current_price := 225%float;
               Parsed.current_value := 2250%float;
               Parsed.pnl := 45%float; Parsed.pnl_percentage := 2.04%float;
               Parsed.isin := None; Parsed.scheme_code := None |} ].
Proof.
  repeat split; vm_compute; reflexivity.
Qed.

(** C8 at its failing input.  A sheet with the columns [Symbol],
    [Quantity] and [Avg Price] is a stock sheet; its parser gives
    [NIFTYBEES] the asset type ['stock'], and the generic CSV parser gives
    the same rows the types ['stock'] and ['etf']. *)
Theorem stock_sheet_does_not_classify :
  ExcelParser._detect_sheet_type Samples.no_float_text Samples.bond_frame
    "Holdings" = Some "stocks"
  /\ Samples.asset_types
       (ExcelParser._parse_stock_sheet Samples.no_text_float
          Samples.no_float_text Samples.bond_frame "Holdings")
     = ["stock"; "stock"]
  /\ Samples.asset_types
       (GenericCSVParser.parse_custom_holdings Samples.no_text_float
          Samples.no_float_text (Ok Samples.bond_frame)
          "Symbol,Quantity,Avg Price" None)
     = ["stock"; "etf"]
  /\ GenericCSVParser.detect_asset_type
       (GenericCSVParser.clean_symbol "NIFTYBEES") = "etf".
Proof.
  repeat split; vm_compute; reflexivity.
Qed.

End Classification.

(** ** The reconciliation of one holding *)

Module Reconciliation.

Import models Db Uploads Statements.
Local Open Scope list_scope.

(** The first result of a query splits the table, and an assignment to it
    changes that row only. *)
Lemma assign_first_split (q : Holding -> bool) (f : Holding -> Holding) l e :
  find q l = Some e ->
  exists before after,
    l = before ++ e :: after
    /\ Forall (fun h => q h = false) before
    /\ assign_first q f l = before ++ f e :: after.
Proof.
  induction l as [|h l IH]; simpl; [discriminate|].
  destruct (q h) eqn:Hq.
  - intros E; inversion E; subst. exists [], l. repeat split; constructor.
  - intros E. destruct (IH E) as (before & after & -> & Hb & Ha).
    exists (h :: before), after. simpl. rewrite Ha.
    repeat split; constructor; assumption.
Qed.

Lemma overwrite_carries x e : carries x (overwrite x e).
Proof. repeat split. Qed.

Lemma update_existing_carries hd x e : carries x (update_existing hd x e).
Proof.
  destruct hd; simpl; unfold set_isin, set_scheme_code;
    try destruct (truthy_opt _); repeat split.
Qed.

Lemma update_existing_identity hd x e :
  same_identity e (update_existing hd x e).
Proof.
  destruct hd; simpl; unfold set_isin, set_scheme_code;
    try destruct (truthy_opt _); repeat split.
Qed.

Lemma update_existing_isin hd x e :
  isin (update_existing hd x e)
  = (if writes_isin hd && truthy_opt (Parsed.isin x)
     then Parsed.isin x else isin e).
Proof.
  destruct hd; simpl; unfold set_isin, set_scheme_code;
    try destruct (truthy_opt _); reflexivity.
Qed.

Lemma update_existing_scheme_code hd x e :
  scheme_code (update_existing hd x e)
  = (if writes_scheme_code hd && truthy_opt (Parsed.scheme_code x)
     then Parsed.scheme_code x else scheme_code e).
Proof.
  destruct hd; simpl; unfold set_isin, set_scheme_code;
    try destruct (truthy_opt _); reflexivity.
Qed.

Lemma new_holding_has_key hd pa x :
  key_filter hd pa x (new_holding hd pa x) = true.
Proof.
  unfold key_filter, same_key; simpl.
  rewrite Nat.eqb_refl, String.eqb_refl.
  destruct (asset_type_of hd x); reflexivity.
Qed.

Lemma updated_by hd pa x e db st st' :
  find (key_filter hd pa x) (rows db) = Some e ->
  session st' = assign (key_filter hd pa x) (update_existing hd x) db ->
  updated_count st' = updated_count st + 1 ->
  skipped_count st' = skipped_count st ->
  (hd <> Zerodha ->
   imported_count st' = imported_count st
   /\ duplicate_holdings st' = duplicate_holdings st) ->
  (hd = Zerodha ->
   imported_count st' = imported_count st + 1
   /\ exists d,
        duplicate_holdings st' = duplicate_holdings st ++ [d]
        /\ old_and_new x e d) ->
  updated hd pa x e db st st'.
Proof.
  intros Hfind Hs Hu Hk Hi Hz. unfold updated. rewrite Hs. simpl.
  destruct (assign_first_split _ (update_existing hd x) _ _ Hfind)
    as (before & after & Hl & Hb & Ha).
  split; [exists before, after; auto|].
  refine (conj eq_refl (conj eq_refl (conj _ (conj _ (conj _ (conj _
            (conj Hu (conj Hk (conj Hi Hz))))))))).
  - apply update_existing_carries.
  - apply update_existing_identity.
  - apply update_existing_isin.
  - apply update_existing_scheme_code.
Qed.

(** C1, as amended.  For every handler and every parsed holding: with no
    existing holding of the key, a record is inserted and [imported_count]
    incremented.  With an existing holding whose quantity and average price
    equal the parsed ones, the generic, Excel and PDF handlers skip: the
    session is left as it is and [skipped_count] is incremented.  Otherwise,
    and in the Zerodha handler for every existing holding, the six fields of
    the first matching record are overwritten, [isin] (Zerodha and PDF
    handlers) and [scheme_code] (Excel handler) only by a non-empty new
    value, no other record changes, and [updated_count] is incremented.
    The Zerodha handler then increments [imported_count] as well and
    appends the symbol and the old and new quantity and average price to
    [duplicate_holdings]; no other outcome of any handler changes this
    list. *)
Theorem reconciliation_decision :
  forall autoflush platform_account_id hd st x,
    let db := before_query autoflush (session st) in
    let st' := body autoflush platform_account_id hd st x in
    (find (key_filter hd platform_account_id x) (rows db) = None ->
     inserted hd platform_account_id x db st st')
    /\ (forall e,
           find (key_filter hd platform_account_id x) (rows db) = Some e ->
           hd <> Zerodha ->
           unchanged e x = true ->
           skipped db st st')
    /\ (forall e,
           find (key_filter hd platform_account_id x) (rows db) = Some e ->
           hd = Zerodha \/ unchanged e x = false ->
           updated hd platform_account_id x e db st st').
Proof.
  intros af pa hd st x db st'. subst db st'.
  refine (conj _ (conj _ _)).
  - intros Hfind. unfold inserted.
    destruct hd; simpl; unfold zerodha_body, three_way_body; rewrite Hfind;
      simpl; repeat split; auto; apply new_holding_has_key.
  - intros e Hfind Hhd Hsame. unfold skipped.
    destruct hd; [contradiction| | |]; simpl; unfold three_way_body;
      rewrite Hfind, Hsame; simpl; auto.
  - intros e Hfind Hcase.
    eapply updated_by; [exact Hfind| | | | |].
    all: destruct hd; simpl; unfold zerodha_body, three_way_body;
      rewrite Hfind; simpl.
    all: try (destruct Hcase as [Hz|Hne]; [discriminate|]; rewrite Hne; simpl).
    all: try reflexivity.
    all: try (intros _; split; reflexivity).
    all: try (intros Hz; discriminate).
    all: try (intros Hz; contradiction).
    intros _. split; [reflexivity|].
    eexists. split; [reflexivity|]. repeat split.
Qed.

(** The theorem at the stored holding.  In the generic handler the same
    holding parsed again is skipped, at an empty table it is inserted, and
    parsed with another quantity it is updated; in the Zerodha handler the
    same holding parsed again is updated. *)
Lemma reconciliation_decision_witness :
  skipped (open [Samples.stored_reliance])
    (start (open [Samples.stored_reliance]))
    (body false 1 Generic (start (open [Samples.stored_reliance]))
       Samples.parsed_reliance)
  /\ inserted Generic 1 Samples.parsed_reliance (open [])
       (start (open []))
       (body false 1 Generic (start (open [])) Samples.parsed_reliance)
  /\ updated Generic 1 Samples.parsed_reliance_more Samples.stored_reliance
       (open [Samples.stored_reliance])
       (start (open [Samples.stored_reliance]))
       (body false 1 Generic (start (open [Samples.stored_reliance]))
          Samples.parsed_reliance_more)
  /\ updated Zerodha 1 Samples.parsed_reliance Samples.stored_reliance
       (open [Samples.stored_reliance])
       (start (open [Samples.stored_reliance]))
       (body false 1 Zerodha (start (open [Samples.stored_reliance]))
          Samples.parsed_reliance).
Proof.
  refine (conj _ (conj _ (conj _ _))).
  - apply (proj1 (proj2 (reconciliation_decision false 1 Generic
                           (start (open [Samples.stored_reliance]))
                           Samples.parsed_reliance))
             Samples.stored_reliance).
    + vm_compute. reflexivity.
    + discriminate.
    + vm_compute. reflexivity.
  - apply (proj1 (reconciliation_decision false 1 Generic (start (open []))
                    Samples.parsed_reliance)).
    reflexivity.
  - apply (proj2 (proj2 (reconciliation_decision false 1 Generic
                           (start (open [Samples.stored_reliance]))
                           Samples.parsed_reliance_more))
             Samples.stored_reliance).
    + vm_compute. reflexivity.
    + right. vm_compute. reflexivity.
  - apply (proj2 (proj2 (reconciliation_decision false 1 Zerodha
                           (start (open [Samples.stored_reliance]))
                           Samples.parsed_reliance))
             Samples.stored_reliance).
    + vm_compute. reflexivity.
    + left. reflexivity.
Defined.

(** C1 as stated fails in the Zerodha handler: the stored holding has the
    quantity and the average price of the parsed one, and it is updated,
    its current price overwritten, not skipped. *)
Lemma reconciliation_decision_counterexample :
  unchanged Samples.stored_reliance Samples.parsed_reliance = true
  /\ body false 1 Zerodha (start (open [Samples.stored_reliance]))
       Samples.parsed_reliance
     = {| session :=
            {| table := [Samples.stored_reliance];
               rows := [Samples.repriced_reliance];
               pending := [] |};
          imported_count := 1;
          updated_count := 1;
          skipped_count := 0;
          duplicate_holdings :=
            [ {| d_symbol := "RELIANCE";
                 old_quantity := 10%float; new_quantity := 10%float;
                 old_avg_price := 100%float; new_avg_price := 100%float |} ] |}.
Proof.
  split; vm_compute; reflexivity.
Qed.

End Reconciliation.

(** ** Rollback of a failed persistence phase *)

Module Rollback.

Import models Db Uploads Statements.
Local Open Scope list_scope.

(** The body of a loop writes to the session, never to the committed table. *)
Lemma body_table autoflush pa hd st x :
  table (session (body autoflush pa hd st x)) = table (session st).
Proof.
  destruct hd; simpl; unfold zerodha_body, three_way_body.
  all: destruct (find _ _); try destruct (unchanged _ _); simpl.
  all: destruct autoflush; reflexivity.
Qed.

(** A loop with an exception planned at [k]: it fails with that exception
    when [k] falls in the loop, and the committed table is as before. *)
Lemma process_from_fault autoflush pa hd k e hs :
  forall i st,
    i <= k ->
    match process_from autoflush pa (RaiseAt k e) i hd hs st with
    | Failed db' e' =>
        e' = e /\ table db' = table (session st) /\ k < i + List.length hs
    | Done st' =>
        table (session st') = table (session st) /\ i + List.length hs <= k
    end.
Proof.
  induction hs as [|x hs IH]; intros i st Hik; simpl.
  - split; [reflexivity | lia].
  - destruct (k =? i) eqn:Hk.
    + apply Nat.eqb_eq in Hk. repeat split; [apply body_table | lia].
    + apply Nat.eqb_neq in Hk.
      specialize (IH (S i) (body autoflush pa hd st x)).
      destruct (process_from _ _ _ _ _ _ _) as [st'|db' e'].
      * destruct IH as (Ht & Hl); [lia|].
        rewrite Ht, body_table. split; [reflexivity | lia].
      * destruct IH as (He & Ht & Hl); [lia|].
        rewrite Ht, body_table. repeat split; [assumption | lia].
Qed.

(** The same for the loop over the sheets. *)
Lemma process_sheets_fault autoflush pa k e sheets :
  forall i t0,
    i <= k ->
    match process_sheets autoflush (RaiseAt k e) i pa sheets t0 with
    | Failed db' e' =>
        e' = e /\ table db' = table (x_session t0)
        /\ k < i + List.length (holdings_of sheets)
    | Done t' =>
        table (x_session t') = table (x_session t0)
        /\ i + List.length (holdings_of sheets) <= k
    end.
Proof.
  induction sheets as [|sh sheets IH]; intros i t0 Hik; simpl.
  - split; [reflexivity | lia].
  - rewrite length_app.
    pose proof (process_from_fault autoflush pa Excel k e (data sh) i
                  (start (x_session t0)) Hik) as Hsheet.
    destruct (process_from _ _ _ _ _ _ _) as [st'|db' e'].
    + destruct Hsheet as (Ht & Hl).
      match goal with
      | |- context [process_sheets _ _ ?j _ _ ?t1] =>
          specialize (IH j t1); destruct (process_sheets _ _ j _ _ t1)
      end.
      * destruct IH as (Ht' & Hl'); [lia|]. simpl in Ht'.
        rewrite Ht', Ht. split; [reflexivity | lia].
      * destruct IH as (He & Ht' & Hl'); [lia|]. simpl in Ht'.
        rewrite Ht', Ht. repeat split; [assumption | lia].
    + destruct Hsheet as (He & Ht & Hl). repeat split; [assumption.. | lia].
Qed.

Lemma commit_open t : commit (open t) = open t.
Proof. unfold commit, open; simpl. rewrite app_nil_r. reflexivity. Qed.

(** The clause that handles the exception, on a session whose committed
    table is [t]. *)
Lemma on_exception_restores db e t :
  table db = t ->
  on_exception db e
  = {| db_after := open t;
       import_record :=
         {| import_status := "failed"; records_imported := 0;
            error_message := Some e |};
       answer := Raised failure_detail;
       calls := [] |}.
Proof.
  intros <-. unfold on_exception, rollback. rewrite commit_open. reflexivity.
Qed.

Lemma upload_rolled_back autoflush gsi gmf smf hd pa hs ws t k e :
  k <= List.length hs ->
  rolled_back t e
    (upload autoflush gsi gmf smf hd (RaiseAt k e) pa hs ws (open t)).
Proof.
  intros Hk. unfold upload, persist. rewrite commit_open.
  pose proof (process_from_fault autoflush pa hd k e hs 0 (start (open t))
                (Nat.le_0_l k)) as Hloop.
  destruct (process_from _ _ _ _ _ _ _) as [st|db' e'].
  - destruct Hloop as (Ht & Hl). simpl in Hl.
    assert (k = List.length hs) as -> by lia.
    simpl. rewrite Nat.eqb_refl.
    rewrite (on_exception_restores (session st) e t Ht).
    repeat split.
  - destruct Hloop as (-> & Ht & _).
    rewrite (on_exception_restores db' e t Ht). repeat split.
Qed.

Lemma upload_excel_rolled_back autoflush gsi gmf smf pa sheets t k e :
  k <= List.length (holdings_of sheets) ->
  rolled_back t e
    (upload_excel autoflush gsi gmf smf (RaiseAt k e) pa sheets (open t)).
Proof.
  intros Hk. unfold upload_excel. rewrite commit_open.
  match goal with
  | |- context [process_sheets _ _ 0 _ _ ?t0] =>
      pose proof (process_sheets_fault autoflush pa k e sheets 0 t0
                    (Nat.le_0_l k)) as Hloop;
      destruct (process_sheets _ _ 0 _ _ t0) as [t'|db' e']
  end.
  - destruct Hloop as (Ht & Hl). simpl in Hl, Ht.
    assert (k = List.length (holdings_of sheets)) as -> by lia.
    simpl. rewrite Nat.eqb_refl.
    rewrite (on_exception_restores (x_session t') e t Ht).
    repeat split.
  - destruct Hloop as (-> & Ht & _). simpl in Ht.
    rewrite (on_exception_restores db' e t Ht). repeat split.
Qed.

(** C5.  An exception raised in the persistence phase of a handler, while
    a holding of the batch is processed or by the commit that ends the
    phase, leaves the table of holdings as the request found it: the writes
    of the batch are rolled back, none of them is visible or pending.  The
    import record is marked ["failed"] and holds the text of the
    exception. *)
Theorem failed_persistence_is_rolled_back :
  forall autoflush get_stock_info get_mutual_fund_info search_mutual_fund
         platform_account_id t k e,
    (forall hd holdings_data parse_warnings,
        k <= List.length holdings_data ->
        rolled_back t e
          (upload autoflush get_stock_info get_mutual_fund_info
             search_mutual_fund hd (RaiseAt k e) platform_account_id
             holdings_data parse_warnings (open t)))
    /\ (forall sheets,
           k <= List.length (holdings_of sheets) ->
           rolled_back t e
             (upload_excel autoflush get_stock_info get_mutual_fund_info
                search_mutual_fund (RaiseAt k e) platform_account_id sheets
                (open t))).
Proof.
  intros. split; intros.
  - apply upload_rolled_back; assumption.
  - apply upload_excel_rolled_back; assumption.
Qed.

(** The theorem at a batch of two holdings, an update and an insertion,
    with the database failing on the second one. *)
Lemma failed_persistence_is_rolled_back_witness :
  1 <= List.length [Samples.parsed_reliance_more; Samples.parsed_tcs]
  /\ rolled_back [Samples.stored_reliance] "database is locked"
       (upload true Samples.no_stock_info Samples.no_fund_info
          Samples.no_fund_search Generic (RaiseAt 1 "database is locked") 1
          [Samples.parsed_reliance_more; Samples.parsed_tcs] []
          (open [Samples.stored_reliance])).
Proof.
  split; [simpl; lia|].
  apply (proj1 (failed_persistence_is_rolled_back true Samples.no_stock_info
                  Samples.no_fund_info Samples.no_fund_search 1
                  [Samples.stored_reliance] 1 "database is locked")).
  simpl. lia.
Defined.

End Rollback.

(** ** The enrichment pass *)

Module Enrichment.

Import models Db Uploads Statements PyFloat.
Local Open Scope list_scope.

Section Services.

Variable get_stock_info : string -> string -> result (option float).
Variable get_mutual_fund_info : string -> result (option float).
Variable search_mutual_fund : string -> result (list string).

Abbreviation enrich_one :=
  (Uploads.enrich_one get_stock_info get_mutual_fund_info search_mutual_fund).
Abbreviation enrich_rows :=
  (Uploads.enrich_rows get_stock_info get_mutual_fund_info search_mutual_fund).

(** The loop treats each holding by itself: what it does to one holding
    does not depend on what happened to the others. *)
Lemma enrich_rows_pointwise hd pa l :
  enrich_rows hd pa l
  = (map (fun h => if needs_price pa h then holding_of (enrich_one hd h) else h)
       l,
     list_sum
       (map (fun h =>
               if needs_price pa h then increment_of (enrich_one hd h) else 0)
          l),
     flat_map
       (fun h => if needs_price pa h then calls_of (enrich_one hd h) else [])
       l).
Proof.
  induction l as [|h l IH]; simpl; [reflexivity|].
  rewrite IH. unfold holding_of, increment_of, calls_of.
  destruct (needs_price pa h); [|reflexivity].
  destruct (enrich_one hd h) as [[h' n] cs]. reflexivity.
Qed.

Lemma reprice_invested p h :
  invested h ->
  exists h', reprice p h = (h', true) /\ repriced_at p h h'.
Proof.
  unfold invested, reprice, py_div. intros ->.
  eexists. split; [reflexivity|]. repeat split.
Qed.

Lemma reprice_not_invested p h :
  ~ invested h ->
  exists h', reprice p h = (h', false) /\ priced_in_part p h h'.
Proof.
  unfold invested, reprice, py_div. intros Hinv.
  destruct (PrimFloat.eqb (quantity h * average_price h) zero);
    [|contradiction Hinv; reflexivity].
  eexists. split; [reflexivity|]. repeat split.
Qed.

Lemma with_scheme_code_repriced p code h h' :
  repriced_at p h h' -> repriced_at p h (with_scheme_code code h').
Proof.
  unfold repriced_at, same_identity. simpl. tauto.
Qed.

(** C6, as amended.  The pass visits every holding of the account whose
    current price is 0, each by itself.  For a stock or an ETF it calls the
    stock service with the symbol and the suffix of the exchange; for a
    mutual fund the Zerodha and Excel handlers call the fund service with
    the stored scheme code (no call without one), the PDF handler searches
    the fund by name first, the generic handler makes no call; a gold bond
    or a REIT is left as it is.  When the service answers a price and
    [quantity * average_price] is not zero, the four fields are recomputed
    and the count incremented; when it is zero, the division of the
    percentage raises after three assignments: the price, the value and
    the gain are those of the answer, the percentage and the count are
    left.  When a lookup fails (the service raises, or answers [None], an
    empty list of funds or a stock price of 0), that holding is left as it
    is; an exception is caught, and the other holdings are treated all
    the same. *)
Theorem enrichment_pass :
  forall hd platform_account_id,
    (forall l,
        enrich_rows hd platform_account_id l
        = (map (fun h =>
                  if needs_price platform_account_id h
                  then holding_of (enrich_one hd h) else h) l,
           list_sum
             (map (fun h =>
                     if needs_price platform_account_id h
                     then increment_of (enrich_one hd h) else 0) l),
           flat_map
             (fun h =>
                if needs_price platform_account_id h
                then calls_of (enrich_one hd h) else []) l))
    /\ (forall h,
           asset_type h = STOCK \/ asset_type h = ETF ->
           calls_of (enrich_one hd h)
           = [StockInfo (symbol h) (exchange_suffix h)])
    /\ (forall h,
           asset_type h = MUTUAL_FUND ->
           calls_of (enrich_one hd h) = fund_calls search_mutual_fund hd h)
    /\ (forall h,
           asset_type h = SGB \/ asset_type h = REIT ->
           enrich_one hd h = (h, 0, []))
    /\ (forall h p,
           asset_type h = STOCK \/ asset_type h = ETF ->
           get_stock_info (symbol h) (exchange_suffix h) = Ok (Some p) ->
           nonzero p = true ->
           invested h ->
           repriced_at p h (holding_of (enrich_one hd h))
           /\ increment_of (enrich_one hd h) = 1)
    /\ (forall h code nav,
           asset_type h = MUTUAL_FUND ->
           hd = Zerodha \/ hd = Excel ->
           scheme_code h = Some code ->
           PyStr.truthy code = true ->
           get_mutual_fund_info code = Ok (Some nav) ->
           invested h ->
           repriced_at nav h (holding_of (enrich_one hd h))
           /\ increment_of (enrich_one hd h) = 1)
    /\ (forall h code rest nav,
           asset_type h = MUTUAL_FUND ->
           hd = Pdf ->
           search_mutual_fund (symbol h) = Ok (code :: rest) ->
           get_mutual_fund_info code = Ok (Some nav) ->
           invested h ->
           repriced_at nav h (holding_of (enrich_one hd h))
           /\ increment_of (enrich_one hd h) = 1)
    /\ (forall h,
           asset_type h = STOCK \/ asset_type h = ETF ->
           no_answer (get_stock_info (symbol h) (exchange_suffix h))
           \/ (exists p,
                 get_stock_info (symbol h) (exchange_suffix h) = Ok (Some p)
                 /\ nonzero p = false) ->
           holding_of (enrich_one hd h) = h
           /\ increment_of (enrich_one hd h) = 0)
    /\ (forall h code,
           asset_type h = MUTUAL_FUND ->
           scheme_code h = Some code ->
           no_answer (get_mutual_fund_info code) ->
           hd = Zerodha \/ hd = Excel ->
           holding_of (enrich_one hd h) = h
           /\ increment_of (enrich_one hd h) = 0)
    /\ (forall h,
           asset_type h = MUTUAL_FUND ->
           hd = Pdf ->
           nothing_found (search_mutual_fund (symbol h)) ->
           holding_of (enrich_one hd h) = h
           /\ increment_of (enrich_one hd h) = 0)
    /\ (forall h code rest,
           asset_type h = MUTUAL_FUND ->
           hd = Pdf ->
           search_mutual_fund (symbol h) = Ok (code :: rest) ->
           no_answer (get_mutual_fund_info code) ->
           holding_of (enrich_one hd h) = h
           /\ increment_of (enrich_one hd h) = 0)
    /\ (forall h p,
           asset_type h = STOCK \/ asset_type h = ETF ->
           get_stock_info (symbol h) (exchange_suffix h) = Ok (Some p) ->
           nonzero p = true ->
           ~ invested h ->
           priced_in_part p h (holding_of (enrich_one hd h))
           /\ increment_of (enrich_one hd h) = 0)
    /\ (forall h code nav,
           asset_type h = MUTUAL_FUND ->
           hd = Zerodha \/ hd = Excel ->
           scheme_code h = Some code ->
           PyStr.truthy code = true ->
           get_mutual_fund_info code = Ok (Some nav) ->
           ~ invested h ->
           priced_in_part nav h (holding_of (enrich_one hd h))
           /\ increment_of (enrich_one hd h) = 0)
    /\ (forall h code rest nav,
           asset_type h = MUTUAL_FUND ->
           hd = Pdf ->
           search_mutual_fund (symbol h) = Ok (code :: rest) ->
           get_mutual_fund_info code = Ok (Some nav) ->
           ~ invested h ->
           priced_in_part nav h (holding_of (enrich_one hd h))
           /\ increment_of (enrich_one hd h) = 0).
Proof.
  intros hd pa.
  refine (conj _ (conj _ (conj _ (conj _ (conj _ (conj _ (conj _ (conj _
            (conj _ (conj _ (conj _ (conj _ (conj _ _))))))))))))).
  - apply enrich_rows_pointwise.
  - intros h [Ha|Ha]; unfold Uploads.enrich_one, enrich_stock, calls_of;
      rewrite Ha.
    all: destruct (get_stock_info _ _) as [[p|]|]; try reflexivity.
    all: destruct (nonzero p); try reflexivity.
    all: destruct (reprice p h); reflexivity.
  - intros h Ha. unfold Uploads.enrich_one, calls_of, fund_calls. rewrite Ha.
    destruct hd; simpl; try reflexivity.
    + unfold enrich_fund_by_code.
      destruct (scheme_code h) as [code|]; [|reflexivity].
      destruct (PyStr.truthy code); [|reflexivity].
      destruct (get_mutual_fund_info code) as [[nav|]|]; try reflexivity.
      destruct (reprice nav h); reflexivity.
    + unfold enrich_fund_by_code.
      destruct (scheme_code h) as [code|]; [|reflexivity].
      destruct (PyStr.truthy code); [|reflexivity].
      destruct (get_mutual_fund_info code) as [[nav|]|]; try reflexivity.
      destruct (reprice nav h); reflexivity.
    + unfold enrich_fund_by_search.
      destruct (search_mutual_fund (symbol h)) as [[|code rest]|];
        try reflexivity.
      destruct (get_mutual_fund_info code) as [[nav|]|]; try reflexivity.
      destruct (reprice nav h); reflexivity.
  - intros h [Ha|Ha]; unfold Uploads.enrich_one; rewrite Ha; reflexivity.
  - intros h p Ha Hinfo Hp Hinv.
    destruct (reprice_invested p h Hinv) as (h' & Hr & Hrep).
    assert (enrich_one hd h
            = (h', 1, [StockInfo (symbol h) (exchange_suffix h)])) as ->.
    { unfold Uploads.enrich_one, enrich_stock.
      destruct Ha as [-> | ->]; rewrite Hinfo, Hp, Hr; reflexivity. }
    split; [exact Hrep | reflexivity].
  - intros h code nav Ha Hhd Hcode Htruthy Hinfo Hinv.
    destruct (reprice_invested nav h Hinv) as (h' & Hr & Hrep).
    assert (enrich_one hd h = (h', 1, [FundInfo code])) as ->.
    { unfold Uploads.enrich_one, enrich_fund_by_code. rewrite Ha.
      destruct Hhd as [-> | ->]; rewrite Hcode, Htruthy, Hinfo, Hr;
        reflexivity. }
    split; [exact Hrep | reflexivity].
  - intros h code rest nav Ha -> Hsearch Hinfo Hinv.
    destruct (reprice_invested nav h Hinv) as (h' & Hr & Hrep).
    assert (enrich_one Pdf h
            = (with_scheme_code code h', 1,
               [FundSearch (symbol h); FundInfo code])) as ->.
    { unfold Uploads.enrich_one, enrich_fund_by_search.
      rewrite Ha, Hsearch, Hinfo, Hr. reflexivity. }
    split; [apply with_scheme_code_repriced; exact Hrep | reflexivity].
  - intros h Ha Hinfo. unfold Uploads.enrich_one, enrich_stock.
    destruct Hinfo as [[Hinfo|[e Hinfo]]|(p & Hinfo & Hp)];
      destruct Ha as [-> | ->]; rewrite Hinfo; try rewrite Hp;
      split; reflexivity.
  - intros h code Ha Hcode Hinfo Hhd.
    unfold Uploads.enrich_one, enrich_fund_by_code. rewrite Ha.
    destruct Hinfo as [Hinfo|[e Hinfo]];
      destruct Hhd as [-> | ->]; rewrite Hcode, Hinfo;
      destruct (PyStr.truthy code); split; reflexivity.
  - intros h Ha -> Hsearch.
    unfold Uploads.enrich_one, enrich_fund_by_search.
    destruct Hsearch as [Hsearch|[e Hsearch]];
      rewrite Ha, Hsearch; split; reflexivity.
  - intros h code rest Ha -> Hsearch Hinfo.
    unfold Uploads.enrich_one, enrich_fund_by_search.
    destruct Hinfo as [Hinfo|[e Hinfo]];
      rewrite Ha, Hsearch, Hinfo; split; reflexivity.
  - intros h p Ha Hinfo Hp Hinv.
    destruct (reprice_not_invested p h Hinv) as (h' & Hr & Hrep).
    assert (enrich_one hd h
            = (h', 0, [StockInfo (symbol h) (exchange_suffix h)])) as ->.
    { unfold Uploads.enrich_one, enrich_stock.
      destruct Ha as [-> | ->]; rewrite Hinfo, Hp, Hr; reflexivity. }
    split; [exact Hrep | reflexivity].
  - intros h code nav Ha Hhd Hcode Htruthy Hinfo Hinv.
    destruct (reprice_not_invested nav h Hinv) as (h' & Hr & Hrep).
    assert (enrich_one hd h = (h', 0, [FundInfo code])) as ->.
    { unfold Uploads.enrich_one, enrich_fund_by_code. rewrite Ha.
      destruct Hhd as [-> | ->]; rewrite Hcode, Htruthy, Hinfo, Hr;
        reflexivity. }
    split; [exact Hrep | reflexivity].
  - intros h code rest nav Ha -> Hsearch Hinfo Hinv.
    destruct (reprice_not_invested nav h Hinv) as (h' & Hr & Hrep).
    assert (enrich_one Pdf h
            = (h', 0, [FundSearch (symbol h); FundInfo code])) as ->.
    { unfold Uploads.enrich_one, enrich_fund_by_search.
      rewrite Ha, Hsearch, Hinfo, Hr. reflexivity. }
    split; [exact Hrep | reflexivity].
Qed.

End Services.

(** The theorem at two stocks without a price and a stock service that
    raises for the first: the first is left as it is, the second is priced
    at the answer, and both calls are made.  Then at a stock service that
    answers [None], at a fund service that answers [None] after the
    search of the PDF handler found the fund, and at a share without an
    average price. *)
Lemma enrichment_pass_witness :
  (holding_of
     (Uploads.enrich_one Samples.failing_stock_info Samples.quoting_fund_info
        Samples.finding_fund_search Generic Samples.stored_infy)
   = Samples.stored_infy)
  /\ repriced_at 3300%float Samples.stored_tcs
       (holding_of
          (Uploads.enrich_one Samples.failing_stock_info
             Samples.quoting_fund_info Samples.finding_fund_search Generic
             Samples.stored_tcs))
  /\ snd (Uploads.enrich_rows Samples.failing_stock_info
            Samples.quoting_fund_info Samples.finding_fund_search Generic 1
            [Samples.stored_infy; Samples.stored_tcs])
     = [StockInfo "INFY" "NS"; StockInfo "TCS" "BO"]
  /\ (holding_of
        (Uploads.enrich_one Samples.no_stock_info Samples.no_fund_info
           Samples.finding_fund_search Generic Samples.stored_infy)
      = Samples.stored_infy
      /\ increment_of
           (Uploads.enrich_one Samples.no_stock_info Samples.no_fund_info
              Samples.finding_fund_search Generic Samples.stored_infy)
         = 0)
  /\ (holding_of
        (Uploads.enrich_one Samples.no_stock_info Samples.no_fund_info
           Samples.finding_fund_search Pdf Samples.stored_fund)
      = Samples.stored_fund
      /\ increment_of
           (Uploads.enrich_one Samples.no_stock_info Samples.no_fund_info
              Samples.finding_fund_search Pdf Samples.stored_fund)
         = 0)
  /\ (priced_in_part 3300%float Samples.stored_demat
        (holding_of
           (Uploads.enrich_one Samples.failing_stock_info
              Samples.quoting_fund_info Samples.finding_fund_search Pdf
              Samples.stored_demat))
      /\ increment_of
           (Uploads.enrich_one Samples.failing_stock_info
              Samples.quoting_fund_info Samples.finding_fund_search Pdf
              Samples.stored_demat)
         = 0).
Proof.
  destruct (enrichment_pass Samples.failing_stock_info
              Samples.quoting_fund_info Samples.finding_fund_search Generic 1)
    as (Hrows & _ & _ & _ & Hpriced & _ & _ & Hfailed & _).
  refine (conj _ (conj _ (conj _ (conj _ (conj _ _))))).
  - apply (Hfailed Samples.stored_infy).
    + left. reflexivity.
    + left. right. exists "connection timed out". reflexivity.
  - apply (Hpriced Samples.stored_tcs 3300%float).
    + left. reflexivity.
    + reflexivity.
    + vm_compute. reflexivity.
    + vm_compute. reflexivity.
  - rewrite Hrows. vm_compute. reflexivity.
  - destruct (enrichment_pass Samples.no_stock_info Samples.no_fund_info
                Samples.finding_fund_search Generic 1)
      as (_ & _ & _ & _ & _ & _ & _ & Hnone & _).
    apply (Hnone Samples.stored_infy).
    + left. reflexivity.
    + left. left. reflexivity.
  - destruct (enrichment_pass Samples.no_stock_info Samples.no_fund_info
                Samples.finding_fund_search Pdf 1)
      as (_ & _ & _ & _ & _ & _ & _ & _ & _ & _ & Hfound & _).
    apply (Hfound Samples.stored_fund "122639" []).
    + reflexivity.
    + reflexivity.
    + reflexivity.
    + left. reflexivity.
  - destruct (enrichment_pass Samples.failing_stock_info
                Samples.quoting_fund_info Samples.finding_fund_search Pdf 1)
      as (_ & _ & _ & _ & _ & _ & _ & _ & _ & _ & _ & Hzero & _).
    apply (Hzero Samples.stored_demat 3300%float).
    + left. reflexivity.
    + reflexivity.
    + vm_compute. reflexivity.
    + vm_compute. discriminate.
Defined.

(** C6 as stated fails: no lookup is attempted for a REIT without a price
    in the generic handler, nor for a mutual fund without a scheme code in
    the Excel handler, although the services would answer.  And a lookup
    that succeeds does not recompute the four fields of a share without an
    average price: the PDF handler writes the price, the value and the
    gain, leaves the percentage and counts no price as updated. *)
Lemma enrichment_pass_counterexample :
  (let r :=
     upload false Samples.quoting_stock_info Samples.quoting_fund_info
       Samples.finding_fund_search Generic NoFault 1
       [Samples.parsed_mindspace] [] (open []) in
   needs_price 1 Samples.stored_mindspace = true
   /\ db_after r = open [Samples.stored_mindspace]
   /\ calls r = [])
  /\ (let r :=
        upload_excel false Samples.quoting_stock_info
          Samples.quoting_fund_info Samples.finding_fund_search NoFault 1
          [ {| sheet_key := "Funds_mutual_funds";
               sheet_type := "mutual_funds";
               data := [Samples.parsed_fund];
               warnings := [] |} ]
          (open []) in
      needs_price 1 Samples.stored_fund = true
      /\ db_after r = open [Samples.stored_fund]
      /\ calls r = [])
  /\ (let r :=
        upload false Samples.quoting_stock_info Samples.quoting_fund_info
          Samples.finding_fund_search Pdf NoFault 1
          [Samples.parsed_demat] [] (open []) in
      new_holding Pdf 1 Samples.parsed_demat = Samples.stored_demat
      /\ needs_price 1 Samples.stored_demat = true
      /\ calls r = [StockInfo "RELIANCE INDUSTRIES" "NS"]
      /\ db_after r = open [Samples.half_priced_demat]
      /\ models.pnl Samples.half_priced_demat = 33000%float
      /\ models.pnl_percentage Samples.half_priced_demat = 0%float
      /\ option_map r_prices_updated
           (match answer r with Ok resp => Some resp | Raised _ => None end)
         = Some 0).
Proof.
  repeat split; vm_compute; reflexivity.
Qed.

End Enrichment.

(** ** Importing the same file twice *)

Module Idempotence.

Import models Db Uploads Statements Sessions.
Local Open Scope list_scope.

(** *** Queries on a table *)

Lemma find_app {A : Type} (q : A -> bool) l1 l2 :
  find q (l1 ++ l2)
  = match find q l1 with
    | Some e => Some e
    | None => find q l2
    end.
Proof.
  induction l1 as [|h l1 IH]; simpl; [reflexivity|].
  destruct (q h); [reflexivity | exact IH].
Qed.

Lemma find_none_forall {A : Type} (q : A -> bool) l :
  (forall h, In h l -> q h = false) -> find q l = None.
Proof.
  induction l as [|h l IH]; simpl; intros H; [reflexivity|].
  rewrite (H h (or_introl eq_refl)). apply IH. intros; apply H; right; assumption.
Qed.

(** An assignment to the first result of [q] is not seen by a query [q']
    that selects other rows. *)
Lemma find_assign_other (q q' : Holding -> bool) f l :
  (forall h, q h = true -> q' h = false) ->
  (forall h, q' (f h) = q' h) ->
  find q' (assign_first q f l) = find q' l.
Proof.
  intros Hdisj Hf. induction l as [|h l IH]; simpl; [reflexivity|].
  destruct (q h) eqn:Hq; simpl.
  - rewrite Hf, (Hdisj h Hq). reflexivity.
  - destruct (q' h); [reflexivity | exact IH].
Qed.

(** The query that selected the row finds the assigned row. *)
Lemma find_assign_same (q : Holding -> bool) f l e :
  (forall h, q (f h) = q h) ->
  find q l = Some e ->
  find q (assign_first q f l) = Some (f e).
Proof.
  intros Hf. induction l as [|h l IH]; simpl; [discriminate|].
  destruct (q h) eqn:Hq; simpl.
  - intros E; inversion E; subst. rewrite Hf, Hq. reflexivity.
  - rewrite Hq. exact IH.
Qed.

Lemma find_map (q : Holding -> bool) g l :
  (forall h, q (g h) = q h) ->
  find q (map g l) = option_map g (find q l).
Proof.
  intros Hg. induction l as [|h l IH]; simpl; [reflexivity|].
  rewrite Hg. destruct (q h); [reflexivity | exact IH].
Qed.

(** *** Keys *)

Lemma AssetType_eqb_eq a b : AssetType_eqb a b = true -> a = b.
Proof. destruct a, b; simpl; congruence. Qed.

Lemma same_key_fields pa sym a h :
  same_key pa sym a h = true -> symbol h = sym /\ asset_type h = a.
Proof.
  unfold same_key. intros H.
  apply andb_prop in H. destruct H as (H & Ha).
  apply andb_prop in H. destruct H as (_ & Hs).
  split; [apply String.eqb_eq; exact Hs | apply AssetType_eqb_eq; exact Ha].
Qed.

(** Holdings of different keys select different rows. *)
Lemma key_filter_disjoint hd pa x y h :
  key_of hd x <> key_of hd y ->
  key_filter hd pa y h = true ->
  key_filter hd pa x h = false.
Proof.
  intros Hne Hy. destruct (key_filter hd pa x h) eqn:Hx; [|reflexivity].
  exfalso. apply Hne. unfold key_filter in *.
  apply same_key_fields in Hx, Hy. unfold key_of.
  destruct Hx as (<- & <-), Hy as (-> & ->). reflexivity.
Qed.

(** A filter on the key does not see the fields an update assigns. *)
Lemma same_key_identity pa sym a e e' :
  same_identity e e' -> same_key pa sym a e' = same_key pa sym a e.
Proof.
  intros (Hp & Hs & Ha & _). unfold same_key. rewrite Hp, Hs, Ha. reflexivity.
Qed.

Lemma key_filter_update hd hd' pa x y e :
  key_filter hd pa x (update_existing hd' y e) = key_filter hd pa x e.
Proof.
  apply same_key_identity. apply Reconciliation.update_existing_identity.
Qed.

(** *** The session of a loop *)

Lemma body_session autoflush pa hd st x :
  session (body autoflush pa hd st x)
  = session_after autoflush pa hd (session st) x.
Proof.
  unfold session_after.
  destruct hd; simpl; unfold zerodha_body, three_way_body; simpl.
  all: destruct (find _ _); try destruct (unchanged _ _); reflexivity.
Qed.

(** Without an exception the loop ends, on the session of the bodies. *)
Lemma process_from_session autoflush pa hd hs :
  forall i st,
  exists st',
    process_from autoflush pa NoFault i hd hs st = Done st'
    /\ session st' = fold_left (session_after autoflush pa hd) hs (session st).
Proof.
  induction hs as [|x hs IH]; intros i st; simpl.
  - exists st. split; reflexivity.
  - destruct (IH (S i) (body autoflush pa hd st x)) as (st' & Hrun & Hs).
    exists st'. split; [exact Hrun|]. rewrite Hs, body_session. reflexivity.
Qed.

Lemma process_sheets_session autoflush pa sheets :
  forall i t0,
  exists t',
    process_sheets autoflush NoFault i pa sheets t0 = Done t'
    /\ x_session t'
       = fold_left (session_after autoflush pa Excel) (holdings_of sheets)
           (x_session t0).
Proof.
  induction sheets as [|sh sheets IH]; intros i t0; simpl.
  - exists t0. split; reflexivity.
  - destruct (process_from_session autoflush pa Excel (data sh) i
                (start (x_session t0))) as (st & -> & Hs).
    match goal with
    | |- context [process_sheets _ _ ?j _ _ ?t1] =>
        destruct (IH j t1) as (t' & Hrun & Hx)
    end.
    exists t'. split; [exact Hrun|].
    rewrite Hx. simpl. rewrite Hs. unfold holdings_of. simpl.
    rewrite fold_left_app. reflexivity.
Qed.

Lemma view_before_query autoflush db :
  view (before_query autoflush db) = view db.
Proof.
  destruct autoflush; simpl; [|reflexivity].
  unfold view, flush; simpl. rewrite app_nil_r. reflexivity.
Qed.

(** *** The invariant of the first import *)

Lemma imported_before_query autoflush pa hd done db :
  imported pa hd done db -> imported pa hd done (before_query autoflush db).
Proof.
  intros (Hs & Hp). split.
  - rewrite view_before_query. exact Hs.
  - destruct autoflush; simpl; [intros n []|exact Hp].
Qed.

(** No new object has the key of a holding that is still to come. *)
Lemma pending_other_keys pa hd done db y n :
  imported pa hd done db ->
  (forall x, In x done -> key_of hd x <> key_of hd y) ->
  In n (pending db) ->
  key_filter hd pa y n = false.
Proof.
  intros (_ & Hp) Hkeys Hn. destruct (Hp n Hn) as (x & Hx & Hq).
  eapply key_filter_disjoint; [|exact Hq].
  intros E. apply (Hkeys x Hx). symmetry. exact E.
Qed.

Lemma find_view pa hd done db y :
  imported pa hd done db ->
  (forall x, In x done -> key_of hd x <> key_of hd y) ->
  find (key_filter hd pa y) (view db) = find (key_filter hd pa y) (rows db).
Proof.
  intros Hinv Hkeys. unfold view. rewrite find_app.
  destruct (find _ (rows db)); [reflexivity|].
  apply find_none_forall. intros n Hn.
  eapply pending_other_keys; eassumption.
Qed.

Lemma unchanged_carries e x :
  comparable x -> carries x e -> unchanged e x = true.
Proof.
  intros (Hq & Ha) (Eq & Ea & _). unfold unchanged. rewrite Eq, Ea, Hq, Ha.
  reflexivity.
Qed.

Lemma new_holding_carries hd pa x : carries x (new_holding hd pa x).
Proof. repeat split. Qed.

Lemma imported_insert pa hd done db y :
  imported pa hd done db ->
  (forall x, In x done -> key_of hd x <> key_of hd y) ->
  comparable y ->
  find (key_filter hd pa y) (rows db) = None ->
  imported pa hd (y :: done) (add (new_holding hd pa y) db).
Proof.
  intros Hinv Hkeys Hy Hfind.
  pose proof (find_view pa hd done db y Hinv Hkeys) as Hview.
  rewrite Hfind in Hview. destruct Hinv as (Hs & Hp).
  assert (view (add (new_holding hd pa y) db)
          = view db ++ [new_holding hd pa y]) as Hv
      by (unfold view; simpl; apply app_assoc).
  split.
  - intros x [<- | Hx]; unfold settled; rewrite Hv, find_app.
    + rewrite Hview. simpl. rewrite Reconciliation.new_holding_has_key.
      eexists. split; [reflexivity|].
      apply unchanged_carries; [exact Hy | apply new_holding_carries].
    + destruct (Hs x Hx) as (e & -> & He). exists e. split; auto.
  - simpl. intros n Hn. apply in_app_or in Hn. destruct Hn as [Hn | [<- | []]].
    + destruct (Hp n Hn) as (x & Hx & Hq). exists x. split; [right|]; auto.
    + exists y. split; [left; reflexivity|].
      apply Reconciliation.new_holding_has_key.
Qed.

Lemma imported_skip pa hd done db y e :
  imported pa hd done db ->
  (forall x, In x done -> key_of hd x <> key_of hd y) ->
  find (key_filter hd pa y) (rows db) = Some e ->
  unchanged e y = true ->
  imported pa hd (y :: done) db.
Proof.
  intros Hinv Hkeys Hfind He.
  pose proof (find_view pa hd done db y Hinv Hkeys) as Hview.
  rewrite Hfind in Hview. destruct Hinv as (Hs & Hp). split.
  - intros x [<- | Hx]; [exists e; split; assumption | apply Hs; exact Hx].
  - intros n Hn. destruct (Hp n Hn) as (x & Hx & Hq).
    exists x. split; [right|]; auto.
Qed.

Lemma imported_update pa hd done db y e :
  imported pa hd done db ->
  (forall x, In x done -> key_of hd x <> key_of hd y) ->
  comparable y ->
  find (key_filter hd pa y) (rows db) = Some e ->
  imported pa hd (y :: done)
    (assign (key_filter hd pa y) (update_existing hd y) db).
Proof.
  intros Hinv Hkeys Hy Hfind. destruct Hinv as (Hs & Hp).
  assert (view (assign (key_filter hd pa y) (update_existing hd y) db)
          = assign_first (key_filter hd pa y) (update_existing hd y) (rows db)
            ++ pending db) as Hv by reflexivity.
  split.
  - intros x [<- | Hx]; unfold settled; rewrite Hv, find_app.
    + rewrite (find_assign_same _ _ _ e); [| |exact Hfind].
      * eexists. split; [reflexivity|].
        apply unchanged_carries;
          [exact Hy | apply Reconciliation.update_existing_carries].
      * intros h. apply key_filter_update.
    + rewrite find_assign_other.
      * destruct (Hs x Hx) as (e' & He' & Hu). unfold view in He'.
        rewrite find_app in He'. exists e'. split; assumption.
      * intros h Hq. eapply key_filter_disjoint; [|exact Hq].
        apply Hkeys. exact Hx.
      * intros h. apply key_filter_update.
  - simpl. intros n Hn. destruct (Hp n Hn) as (x & Hx & Hq).
    exists x. split; [right|]; auto.
Qed.

Lemma imported_step autoflush pa hd done db y :
  imported pa hd done db ->
  (forall x, In x done -> key_of hd x <> key_of hd y) ->
  comparable y ->
  imported pa hd (y :: done) (session_after autoflush pa hd db y).
Proof.
  intros Hinv Hkeys Hy.
  apply (imported_before_query autoflush) in Hinv.
  unfold session_after.
  destruct hd; simpl; unfold zerodha_body, three_way_body; simpl.
  all: destruct (find _ (rows (before_query autoflush db))) as [e|] eqn:Hfind.
  all: try (destruct (unchanged e y) eqn:He); simpl.
  all: first [ eapply imported_skip; eassumption
             | apply imported_insert; assumption
             | eapply imported_update; eassumption ].
Qed.

Lemma imported_loop autoflush pa hd hs :
  forall done db,
    imported pa hd done db ->
    NoDup (map (key_of hd) hs) ->
    (forall x y, In x done -> In y hs -> key_of hd x <> key_of hd y) ->
    Forall comparable hs ->
    imported pa hd (rev hs ++ done)
      (fold_left (session_after autoflush pa hd) hs db).
Proof.
  induction hs as [|y hs IH]; intros done db Hinv Hnd Hkeys Hcmp; simpl.
  - exact Hinv.
  - inversion Hnd as [|k ks Hnotin Hnd']; subst.
    inversion Hcmp as [|y' hs' Hy Hcmp']; subst.
    rewrite <- app_assoc. simpl. apply IH; auto.
    + apply imported_step; auto.
      intros x Hx. apply Hkeys; [exact Hx | left; reflexivity].
    + intros x z [<- | Hx] Hz.
      * intros E. apply Hnotin. rewrite E. apply in_map. exact Hz.
      * apply Hkeys; [exact Hx | right; exact Hz].
Qed.

(** After the loop of a first import and its commit, every holding of the
    batch is settled in the table. *)
Lemma first_import_settles autoflush pa hd hs t :
  distinct_keys hd hs ->
  Forall comparable hs ->
  forall x,
    In x hs ->
    settled pa hd
      (view (fold_left (session_after autoflush pa hd) hs (open t))) x.
Proof.
  intros Hnd Hcmp x Hx.
  assert (imported pa hd [] (open t)) as H0
      by (split; [intros ? [] | intros ? []]).
  pose proof (imported_loop autoflush pa hd hs [] (open t) H0 Hnd) as Hl.
  destruct Hl as (Hs & _); [intros ? ? [] | exact Hcmp |].
  apply Hs. apply in_or_app. left. apply in_rev in Hx. exact Hx.
Qed.

(** *** Enrichment keeps what the comparison reads *)

Lemma reprice_keeps p h :
  let h' := fst (reprice p h) in
  same_identity h h' /\ quantity h' = quantity h
  /\ average_price h' = average_price h.
Proof.
  unfold reprice. destruct (py_div _ _); simpl; repeat split.
Qed.

Lemma enrich_one_keeps gsi gmf smf hd h :
  let h' := holding_of (enrich_one gsi gmf smf hd h) in
  same_identity h h' /\ quantity h' = quantity h
  /\ average_price h' = average_price h.
Proof.
  assert (same_identity h h /\ quantity h = quantity h
          /\ average_price h = average_price h) as Hrefl by (repeat split).
  unfold enrich_one, enrich_stock, enrich_fund_by_code, enrich_fund_by_search,
    holding_of.
  destruct (asset_type h), hd; simpl; try exact Hrefl.
  all: repeat match goal with
         | |- context [match ?c with _ => _ end] =>
             lazymatch c with
             | reprice _ _ => fail
             | _ =>
                 lazymatch type of c with
                 | Holding => fail
                 | _ => destruct c; simpl; try exact Hrefl
                 end
             end
         end.
  all: match goal with
       | |- context [reprice ?p ?h0] =>
           pose proof (reprice_keeps p h0) as Hk; cbv zeta in Hk;
           destruct (reprice p h0) as [h' done]; simpl in *
       end.
  all: try exact Hk.
  all: destruct done; simpl; try exact Hk.
  all: unfold same_identity in *; simpl; tauto.
Qed.

Lemma enrichment_keeps_settled gsi gmf smf hd hd' pa pa' l x :
  settled pa hd l x ->
  settled pa hd (enriched_table gsi gmf smf hd' pa' l) x.
Proof.
  intros (e & Hfind & He). unfold enriched_table, settled.
  rewrite Enrichment.enrich_rows_pointwise. simpl.
  set (g := fun h : Holding =>
              if needs_price pa' h
              then holding_of (enrich_one gsi gmf smf hd' h) else h).
  assert (forall h, same_identity h (g h) /\ quantity (g h) = quantity h
                    /\ average_price (g h) = average_price h) as Hg.
  { intros h. unfold g. destruct (needs_price pa' h).
    - apply enrich_one_keeps.
    - repeat split. }
  rewrite find_map.
  - rewrite Hfind. simpl. exists (g e). split; [reflexivity|].
    destruct (Hg e) as (_ & Hq & Ha). unfold unchanged. rewrite Hq, Ha.
    exact He.
  - intros h. apply same_key_identity. apply Hg.
Qed.

(** *** The second import *)

Lemma before_query_open autoflush l : before_query autoflush (open l) = open l.
Proof.
  destruct autoflush; simpl; [|reflexivity].
  unfold flush, open; simpl. rewrite app_nil_r. reflexivity.
Qed.

(** A loop over holdings that are settled in the table skips every one. *)
Lemma settled_loop_skips autoflush pa hd hs l :
  hd <> Zerodha ->
  (forall x, In x hs -> settled pa hd l x) ->
  forall i imp upd skp dup,
    process_from autoflush pa NoFault i hd hs
      {| session := open l; imported_count := imp; updated_count := upd;
         skipped_count := skp; duplicate_holdings := dup |}
    = Done {| session := open l; imported_count := imp; updated_count := upd;
              skipped_count := skp + List.length hs;
              duplicate_holdings := dup |}.
Proof.
  intros Hhd. induction hs as [|x hs IH]; intros Hall i imp upd skp dup; simpl.
  - rewrite Nat.add_0_r. reflexivity.
  - destruct (Hall x (or_introl eq_refl)) as (e & Hfind & He).
    assert (body autoflush pa hd
              {| session := open l; imported_count := imp;
                 updated_count := upd; skipped_count := skp;
                 duplicate_holdings := dup |} x
            = {| session := open l; imported_count := imp;
                 updated_count := upd; skipped_count := skp + 1;
                 duplicate_holdings := dup |}) as ->.
    { destruct hd; [contradiction| | |]; simpl; unfold three_way_body; simpl.
      all: rewrite before_query_open; simpl; rewrite Hfind, He; reflexivity. }
    rewrite IH; [|intros y Hy; apply Hall; right; exact Hy].
    f_equal. f_equal. lia.
Qed.

(** *** The handlers *)

Section Twice.

Variable autoflush : bool.
Variable get_stock_info : string -> string -> result (option float).
Variable get_mutual_fund_info : string -> result (option float).
Variable search_mutual_fund : string -> result (list string).

Abbreviation upload :=
  (Uploads.upload autoflush get_stock_info get_mutual_fund_info
     search_mutual_fund).
Abbreviation upload_excel :=
  (Uploads.upload_excel autoflush get_stock_info get_mutual_fund_info
     search_mutual_fund).
Abbreviation enriched_table :=
  (Sessions.enriched_table get_stock_info get_mutual_fund_info
     search_mutual_fund).

Lemma enrich_open hd pa l :
  fst (fst (enrich get_stock_info get_mutual_fund_info search_mutual_fund hd pa
              (open l)))
  = open (enriched_table hd pa l).
Proof.
  unfold enrich, Sessions.enriched_table. simpl.
  destruct (enrich_rows _ _ _ _ _ _) as [[rows' n] cs]. simpl.
  unfold commit. simpl. rewrite app_nil_r. reflexivity.
Qed.

(** The table a request without an exception leaves. *)
Lemma upload_table hd pa hs ws t :
  db_after (upload hd NoFault pa hs ws (open t))
  = open (enriched_table hd pa
            (view (fold_left (session_after autoflush pa hd) hs (open t)))).
Proof.
  unfold Uploads.upload, persist. rewrite Rollback.commit_open.
  destruct (process_from_session autoflush pa hd hs 0 (start (open t)))
    as (st & -> & Hs).
  simpl in *. rewrite <- Hs. rewrite <- enrich_open.
  unfold commit. fold (view (session st)). fold (open (view (session st))).
  destruct (enrich _ _ _ _ _ _) as [[db' n] cs]. reflexivity.
Qed.

Lemma upload_excel_table pa sheets t :
  db_after (upload_excel NoFault pa sheets (open t))
  = open (enriched_table Excel pa
            (view (fold_left (session_after autoflush pa Excel)
                     (holdings_of sheets) (open t)))).
Proof.
  unfold Uploads.upload_excel. rewrite Rollback.commit_open.
  match goal with
  | |- context [process_sheets _ _ 0 _ _ ?t0] =>
      destruct (process_sheets_session autoflush pa sheets 0 t0)
        as (t' & -> & Hs)
  end.
  simpl in *. rewrite <- Hs. rewrite <- enrich_open.
  unfold commit. fold (view (x_session t')). fold (open (view (x_session t'))).
  destruct (enrich _ _ _ _ _ _) as [[db' n] cs]. reflexivity.
Qed.

(** A request on a table in which the batch is settled skips the batch. *)
Lemma upload_settled hd pa hs ws l :
  hd <> Zerodha ->
  (forall x, In x hs -> settled pa hd l x) ->
  answers (upload hd NoFault pa hs ws (open l)) 0 0 (Some (List.length hs)).
Proof.
  intros Hhd Hall. unfold Uploads.upload, persist.
  rewrite Rollback.commit_open. unfold start.
  rewrite (settled_loop_skips autoflush pa hd hs l Hhd Hall). simpl.
  destruct (enrich _ _ _ _ _ _) as [[db' n] cs].
  eexists. split; [reflexivity|]. simpl.
  destruct hd; [contradiction| | |]; repeat split.
Qed.

Lemma sheets_settled pa sheets l :
  (forall x, In x (holdings_of sheets) -> settled pa Excel l x) ->
  forall i imp upd skp ws sums,
  exists ws' sums',
    process_sheets autoflush NoFault i pa sheets
      {| x_session := open l; total_imported := imp; total_updated := upd;
         total_skipped := skp; all_warnings := ws; sheet_summaries := sums |}
    = Done {| x_session := open l; total_imported := imp;
              total_updated := upd;
              total_skipped := skp + List.length (holdings_of sheets);
              all_warnings := ws'; sheet_summaries := sums' |}.
Proof.
  induction sheets as [|sh sheets IH]; intros Hall i imp upd skp ws sums; simpl.
  - rewrite Nat.add_0_r. eexists. eexists. reflexivity.
  - unfold start.
    rewrite (settled_loop_skips autoflush pa Excel (data sh) l);
      [|discriminate|].
    + simpl.
      match goal with
      | |- context [process_sheets _ _ ?j _ _
                      {| x_session := _; total_imported := ?a;
                         total_updated := ?b; total_skipped := ?c;
                         all_warnings := ?d; sheet_summaries := ?f |}] =>
          destruct (IH (fun x Hx => Hall x (in_or_app _ _ _ (or_intror Hx)))
                      j a b c d f) as (ws' & sums' & ->)
      end.
      exists ws', sums'. rewrite length_app, !Nat.add_0_r.
      f_equal. f_equal. lia.
    + intros x Hx. apply Hall. apply in_or_app. left. exact Hx.
Qed.

Lemma upload_excel_settled pa sheets l :
  (forall x, In x (holdings_of sheets) -> settled pa Excel l x) ->
  answers (upload_excel NoFault pa sheets (open l)) 0 0
    (Some (List.length (holdings_of sheets))).
Proof.
  intros Hall. unfold Uploads.upload_excel. rewrite Rollback.commit_open.
  destruct (sheets_settled pa sheets l Hall 0 0 0 0 [] [])
    as (ws' & sums' & ->).
  simpl. destruct (enrich _ _ _ _ _ _) as [[db' n] cs].
  eexists. split; [reflexivity|]. repeat split.
Qed.

End Twice.

(** *** The Zerodha handler, which never skips *)

Lemma find_assign_some (q q' : Holding -> bool) f l e :
  (forall h, q' (f h) = q' h) ->
  find q' l = Some e ->
  exists e', find q' (assign_first q f l) = Some e'.
Proof.
  intros Hf. revert e. induction l as [|h l IH]; simpl; [discriminate|].
  intros e. destruct (q h) eqn:Hq; simpl.
  - rewrite Hf. destruct (q' h); eauto.
  - destruct (q' h); eauto.
Qed.

Lemma present_step autoflush pa done db y :
  (forall x, In x done -> present pa (view db) x) ->
  forall x,
    In x (y :: done) ->
    present pa (view (session_after autoflush pa Zerodha db y)) x.
Proof.
  intros Hall x Hx. unfold session_after. simpl. unfold zerodha_body. simpl.
  assert (forall z, In z done ->
                    present pa (view (before_query autoflush db)) z) as Hall'
      by (intros z Hz; rewrite view_before_query; apply Hall; exact Hz).
  clear Hall.
  destruct (find _ (rows (before_query autoflush db))) as [e|] eqn:Hfind;
    simpl; unfold present, view; simpl.
  - rewrite find_app. destruct Hx as [<- | Hx].
    + rewrite (find_assign_same _ _ _ e); [eauto| |exact Hfind].
      intros h. apply key_filter_update.
    + destruct (Hall' x Hx) as (e' & He'). unfold view in He'.
      rewrite find_app in He'.
      destruct (find (key_filter Zerodha pa x)
                  (rows (before_query autoflush db))) as [e0|] eqn:Hx0.
      * destruct (find_assign_some (key_filter Zerodha pa y)
                    (key_filter Zerodha pa x) (update_existing Zerodha y)
                    _ e0 (fun h => key_filter_update _ _ _ _ _ h) Hx0)
          as (e1 & ->).
        eauto.
      * destruct (find (key_filter Zerodha pa x)
                    (assign_first (key_filter Zerodha pa y)
                       (update_existing Zerodha y)
                       (rows (before_query autoflush db)))); eauto.
  - rewrite app_assoc, find_app. fold (view (before_query autoflush db)).
    destruct Hx as [<- | Hx].
    + destruct (find _ (view (before_query autoflush db))); [eauto|].
      simpl. rewrite Reconciliation.new_holding_has_key. eauto.
    + destruct (Hall' x Hx) as (e' & ->). eauto.
Qed.

Lemma present_loop autoflush pa hs :
  forall done db,
    (forall x, In x done -> present pa (view db) x) ->
    forall x,
      In x (rev hs ++ done) ->
      present pa
        (view (fold_left (session_after autoflush pa Zerodha) hs db)) x.
Proof.
  induction hs as [|y hs IH]; intros done db Hall x Hx; simpl in *.
  - apply Hall. exact Hx.
  - rewrite <- app_assoc in Hx. simpl in Hx.
    apply (IH (y :: done)); [|exact Hx].
    apply present_step. exact Hall.
Qed.

Lemma enrichment_keeps_present gsi gmf smf hd' pa pa' l x :
  present pa l x ->
  present pa (enriched_table gsi gmf smf hd' pa' l) x.
Proof.
  intros (e & Hfind). unfold enriched_table, present.
  rewrite Enrichment.enrich_rows_pointwise. simpl.
  rewrite find_map.
  - rewrite Hfind. simpl. eauto.
  - intros h. apply same_key_identity.
    destruct (needs_price pa' h); [apply enrich_one_keeps | repeat split].
Qed.

Lemma rows_before_query_flushed autoflush db :
  pending db = [] ->
  rows (before_query autoflush db) = rows db
  /\ pending (before_query autoflush db) = [].
Proof.
  intros Hp. destruct autoflush; simpl; rewrite Hp; [|split; reflexivity].
  rewrite app_nil_r. split; reflexivity.
Qed.

(** A loop of the Zerodha handler over holdings the table has a record of
    updates every one. *)
Lemma present_loop_updates autoflush pa hs :
  forall i st,
    pending (session st) = [] ->
    (forall x, In x hs -> present pa (rows (session st)) x) ->
    exists st',
      process_from autoflush pa NoFault i Zerodha hs st = Done st'
      /\ updated_count st' = updated_count st + List.length hs
      /\ skipped_count st' = skipped_count st.
Proof.
  induction hs as [|y hs IH]; intros i st Hp Hall; simpl.
  - exists st. repeat split. lia.
  - destruct (rows_before_query_flushed autoflush (session st) Hp)
      as (Hrows & Hpend).
    destruct (Hall y (or_introl eq_refl)) as (e & Hfind).
    destruct (IH (S i) (zerodha_body autoflush pa st y)) as (st' & Hrun & Hu & Hk).
    + unfold zerodha_body. rewrite Hrows, Hfind. simpl. exact Hpend.
    + intros x Hx. unfold zerodha_body. rewrite Hrows, Hfind. simpl.
      rewrite Hrows.
      destruct (Hall x (or_intror Hx)) as (ex & Hex).
      eapply find_assign_some; [|exact Hex].
      intros h. apply key_filter_update.
    + exists st'. split; [exact Hrun|].
      unfold zerodha_body in Hu, Hk. rewrite Hrows, Hfind in Hu, Hk.
      simpl in Hu, Hk. split; [lia | exact Hk].
Qed.

Section ZerodhaTwice.

Variable autoflush : bool.
Variable get_stock_info : string -> string -> result (option float).
Variable get_mutual_fund_info : string -> result (option float).
Variable search_mutual_fund : string -> result (list string).

Lemma upload_present pa hs ws l :
  (forall x, In x hs -> present pa l x) ->
  exists resp,
    answer (Uploads.upload autoflush get_stock_info get_mutual_fund_info
              search_mutual_fund Zerodha NoFault pa hs ws (open l))
    = Ok resp
    /\ r_updated_count resp = List.length hs
    /\ r_skipped_count resp = None.
Proof.
  intros Hall. unfold Uploads.upload, persist. rewrite Rollback.commit_open.
  destruct (present_loop_updates autoflush pa hs 0 (start (open l)))
    as (st' & -> & Hu & Hk); [reflexivity | exact Hall |].
  simpl. destruct (enrich _ _ _ _ _ _) as [[db' n] cs].
  eexists. split; [reflexivity|]. simpl. split; [exact Hu | reflexivity].
Qed.

End ZerodhaTwice.

(** C2, as amended.  A batch whose holdings have distinct keys and whose
    quantities and average prices are numbers, imported twice in a row into
    the same account through the generic CSV, PDF or Excel handler, is
    skipped whole the second time: [skipped_count] is the number of holdings
    of the batch, [imported_count] and [updated_count] are 0.  The Zerodha
    handler has no skip: the second time it updates every holding, so its
    [updated_count] is the number of holdings. *)
Theorem reimport_is_skipped :
  forall autoflush get_stock_info get_mutual_fund_info search_mutual_fund
         platform_account_id t,
    (forall hd hs ws,
        hd = Generic \/ hd = Pdf ->
        distinct_keys hd hs ->
        Forall comparable hs ->
        answers
          (Uploads.upload autoflush get_stock_info get_mutual_fund_info
             search_mutual_fund hd NoFault platform_account_id hs ws
             (db_after
                (Uploads.upload autoflush get_stock_info get_mutual_fund_info
                   search_mutual_fund hd NoFault platform_account_id hs ws
                   (open t))))
          0 0 (Some (List.length hs)))
    /\ (forall sheets,
           distinct_keys Excel (holdings_of sheets) ->
           Forall comparable (holdings_of sheets) ->
           answers
             (Uploads.upload_excel autoflush get_stock_info
                get_mutual_fund_info search_mutual_fund NoFault
                platform_account_id sheets
                (db_after
                   (Uploads.upload_excel autoflush get_stock_info
                      get_mutual_fund_info search_mutual_fund NoFault
                      platform_account_id sheets (open t))))
             0 0 (Some (List.length (holdings_of sheets))))
    /\ (forall hs ws,
           exists resp,
             answer
               (Uploads.upload autoflush get_stock_info get_mutual_fund_info
                  search_mutual_fund Zerodha NoFault platform_account_id hs ws
                  (db_after
                     (Uploads.upload autoflush get_stock_info
                        get_mutual_fund_info search_mutual_fund Zerodha
                        NoFault platform_account_id hs ws (open t))))
             = Ok resp
             /\ r_updated_count resp = List.length hs
             /\ r_skipped_count resp = None).
Proof.
  intros af gsi gmf smf pa t. refine (conj _ (conj _ _)).
  - intros hd hs ws Hhd Hnd Hcmp. rewrite upload_table.
    apply upload_settled; [destruct Hhd; subst; discriminate|].
    intros x Hx. apply enrichment_keeps_settled.
    apply first_import_settles; assumption.
  - intros sheets Hnd Hcmp. rewrite upload_excel_table.
    apply upload_excel_settled.
    intros x Hx. apply enrichment_keeps_settled.
    apply first_import_settles; assumption.
  - intros hs ws. rewrite upload_table.
    apply upload_present.
    intros x Hx. apply enrichment_keeps_present.
    apply (present_loop af pa hs [] (open t)); [intros ? []|].
    apply in_or_app. left. apply in_rev in Hx. exact Hx.
Qed.

(** The theorem at a batch of two holdings, one stored with other values
    and one new, sent twice to the generic handler. *)
Lemma reimport_is_skipped_witness :
  answers
    (Samples.sent_twice true Generic
       [Samples.parsed_reliance_more; Samples.parsed_tcs]
       [Samples.stored_reliance])
    0 0 (Some 2).
Proof.
  apply (proj1 (reimport_is_skipped true Samples.no_stock_info
                  Samples.no_fund_info Samples.no_fund_search 1
                  [Samples.stored_reliance])
           Generic [Samples.parsed_reliance_more; Samples.parsed_tcs] []).
  - left. reflexivity.
  - unfold distinct_keys. simpl.
    repeat constructor; simpl; intuition discriminate.
  - repeat constructor; vm_compute; reflexivity.
Defined.

(** C2 as stated fails: the Zerodha handler updates a holding it has just
    imported; the generic handler updates when two holdings of the batch
    have the same key, and when a quantity is not a number, as the parser
    reads a blank quantity. *)
Lemma reimport_is_skipped_counterexample :
  Samples.counters
    (Samples.sent_twice false Zerodha [Samples.parsed_reliance] [])
  = Some (1, 1, None)
  /\ Samples.counters
       (Samples.sent_twice false Generic
          [Samples.parsed_reliance; Samples.parsed_reliance_more] [])
     = Some (0, 1, Some 1)
  /\ GenericCSVParser.parse_custom_holdings Samples.no_text_float
       Samples.no_float_text (Ok Samples.blank_quantity_frame)
       "Symbol,Quantity,Avg Price" None
     = Ok ([Samples.parsed_wipro], [])
  /\ Samples.counters
       (Samples.sent_twice false Generic [Samples.parsed_wipro] [])
     = Some (0, 1, Some 0).
Proof.
  repeat split; vm_compute; reflexivity.
Qed.

End Idempotence.

(** ** The classifier of the Zerodha parser *)

Module ZerodhaClassifier.

Import ZerodhaCSVParser Statements.

Lemma contains_or_startswith p s :
  contains p s || startswith p s = contains p s.
Proof.
  destruct s; simpl; destruct (startswith p _); simpl;
    try reflexivity; apply orb_false_r.
Qed.

(** The keyword test of the ETF rule adds nothing to the test for [ETF],
    which is the first keyword. *)
Lemma keyword_test symbol :
  existsb (fun keyword => contains keyword (upper symbol)) etf_keywords
  && contains "ETF" (upper symbol)
  = contains "ETF" (upper symbol).
Proof.
  unfold etf_keywords. cbn [existsb].
  destruct (contains "ETF" (upper symbol)); simpl;
    [reflexivity | apply andb_false_r].
Qed.

(** The assignments of the Zerodha parser, read as one decision: REIT
    before SGB before ETF, and a stock otherwise.  A REIT contains [REIT]
    or ends in [-RR] or [-RT]; a gold bond contains [SGB]; an ETF contains
    [ETF], ends in [BEES], is on the list of known ETFs or, in the Console
    format, has the ISIN of an ETF series. *)
Theorem zerodha_classification_priority :
  forall symbol isin,
    let u := upper symbol in
    let reit := contains "REIT" u || endswith "-RR" u || endswith "-RT" u in
    let sgb := contains "SGB" u in
    let etf := contains "ETF" u || mem u known_etfs || endswith "BEES" u in
    console_asset_type symbol isin
    = (if reit then "reit"
       else if sgb then "sgb"
       else if etf || etf_isin isin then "etf"
       else "stock")
    /\ legacy_asset_type symbol
       = (if reit then "reit"
          else if sgb then "sgb"
          else if etf then "etf"
          else "stock").
Proof.
  intros symbol isin. cbv zeta.
  unfold console_asset_type, legacy_asset_type, symbol_is_reit, symbol_is_sgb,
    symbol_is_etf, etf_isin.
  rewrite keyword_test, contains_or_startswith.
  destruct (contains "REIT" (upper symbol) || endswith "-RR" (upper symbol)
            || endswith "-RT" (upper symbol));
    [split; reflexivity|].
  destruct (contains "SGB" (upper symbol)); [split; reflexivity|].
  destruct (contains "ETF" (upper symbol) || mem (upper symbol) known_etfs
            || endswith "BEES" (upper symbol)); [split; reflexivity|].
  split; [|reflexivity].
  destruct isin as [i|]; [|reflexivity].
  destruct (PyStr.truthy i); [|reflexivity].
  destruct (isin_is_etf i); reflexivity.
Qed.

End ZerodhaClassifier.

(** ** The holdings of the other accounts *)

Module AccountFrame.

Import models Db Uploads Statements Sessions.
Local Open Scope list_scope.

Lemma key_filter_account hd pa x h :
  key_filter hd pa x h = true -> platform_account_id h = pa.
Proof.
  unfold key_filter, same_key. intros H.
  apply andb_prop in H. destruct H as (H & _).
  apply andb_prop in H. destruct H as (H & _).
  apply Nat.eqb_eq. exact H.
Qed.

(** An assignment to a row of the account is not seen from outside it. *)
Lemma assign_first_frame pa (q : Holding -> bool) f l :
  (forall h, q h = true -> platform_account_id h = pa) ->
  (forall h, platform_account_id (f h) = platform_account_id h) ->
  of_other_accounts pa (assign_first q f l) = of_other_accounts pa l.
Proof.
  intros Hq Hf. unfold of_other_accounts.
  induction l as [|h l IH]; simpl; [reflexivity|].
  destruct (q h) eqn:E; simpl.
  - rewrite Hf, (Hq h E), Nat.eqb_refl. reflexivity.
  - rewrite IH. reflexivity.
Qed.

Lemma map_frame pa (g : Holding -> Holding) l :
  (forall h, platform_account_id (g h) = platform_account_id h) ->
  (forall h, platform_account_id h <> pa -> g h = h) ->
  of_other_accounts pa (map g l) = of_other_accounts pa l.
Proof.
  intros Hpa Hg. unfold of_other_accounts.
  induction l as [|h l IH]; simpl; [reflexivity|].
  rewrite Hpa, IH.
  destruct (platform_account_id h =? pa) eqn:E; simpl; [reflexivity|].
  apply Nat.eqb_neq in E. rewrite (Hg h E). reflexivity.
Qed.

Lemma session_after_frame autoflush pa hd db x :
  of_other_accounts pa (view (session_after autoflush pa hd db x))
  = of_other_accounts pa (view db).
Proof.
  rewrite <- (Idempotence.view_before_query autoflush db).
  unfold session_after.
  destruct hd; simpl; unfold zerodha_body, three_way_body; simpl.
  all: destruct (find _ _) as [e|]; try destruct (unchanged e x); simpl.
  all: unfold view, of_other_accounts; simpl; rewrite ?filter_app; simpl.
  all: rewrite ?Nat.eqb_refl; simpl; rewrite ?app_nil_r; try reflexivity.
  all: f_equal; apply assign_first_frame.
  all: try (intros h; apply key_filter_account).
  all: intros h; apply Reconciliation.update_existing_identity.
Qed.

Lemma loop_frame autoflush pa hd hs :
  forall db,
    of_other_accounts pa
      (view (fold_left (session_after autoflush pa hd) hs db))
    = of_other_accounts pa (view db).
Proof.
  induction hs as [|x hs IH]; intros db; simpl; [reflexivity|].
  rewrite IH. apply session_after_frame.
Qed.

Lemma enrichment_frame gsi gmf smf hd pa l :
  of_other_accounts pa (enriched_table gsi gmf smf hd pa l)
  = of_other_accounts pa l.
Proof.
  unfold enriched_table. rewrite Enrichment.enrich_rows_pointwise. simpl.
  apply map_frame.
  - intros h. destruct (needs_price pa h); [|reflexivity].
    apply Idempotence.enrich_one_keeps.
  - intros h Hne. unfold needs_price.
    apply Nat.eqb_neq in Hne. rewrite Hne. reflexivity.
Qed.

(** A request for one account, without an exception, leaves the holdings
    of every other account as they are, in every handler: the persistence
    loop and the enrichment pass write to holdings of the account only. *)
Theorem other_accounts_are_untouched :
  forall autoflush get_stock_info get_mutual_fund_info search_mutual_fund
         platform_account_id t,
    (forall hd holdings_data parse_warnings,
        of_other_accounts platform_account_id
          (rows
             (db_after
                (Uploads.upload autoflush get_stock_info get_mutual_fund_info
                   search_mutual_fund hd NoFault platform_account_id
                   holdings_data parse_warnings (open t))))
        = of_other_accounts platform_account_id t)
    /\ (forall sheets,
           of_other_accounts platform_account_id
             (rows
                (db_after
                   (Uploads.upload_excel autoflush get_stock_info
                      get_mutual_fund_info search_mutual_fund NoFault
                      platform_account_id sheets (open t))))
           = of_other_accounts platform_account_id t).
Proof.
  intros af gsi gmf smf pa t. split.
  - intros hd hs ws. rewrite Idempotence.upload_table. simpl.
    rewrite enrichment_frame, loop_frame. unfold view. simpl.
    rewrite app_nil_r. reflexivity.
  - intros sheets. rewrite Idempotence.upload_excel_table. simpl.
    rewrite enrichment_frame, loop_frame. unfold view. simpl.
    rewrite app_nil_r. reflexivity.
Qed.

End AccountFrame.

(** ** The type of a sheet *)

Module SheetType.

Import Frame.

(** A sheet with the columns [Scheme Name], [Units] and [NAV] is a sheet
    of mutual funds, whatever its rows and its name: the three columns
    score 3 for mutual funds, and the name of the sheet can score no more
    than 2 for stocks. *)
Theorem fund_columns_make_a_fund_sheet :
  forall py_str sheet_rows sheet_name,
    ExcelParser._detect_sheet_type py_str
      {| columns := ["Scheme Name"; "Units"; "NAV"]; rows := sheet_rows |}
      sheet_name
    = Some "mutual_funds".
Proof.
  intros py_str sheet_rows sheet_name.
  unfold ExcelParser._detect_sheet_type.
  cbn [columns rows map].
  change (ExcelParser.column_of_lower "symbol"
            ["Scheme Name"; "Units"; "NAV"]) with (@None string).
  change (ExcelParser.column_of_lower "instrument type"
            ["Scheme Name"; "Units"; "NAV"]) with (@None string).
  change (ExcelParser.count_indicators
            ["scheme"; "nav"; "folio"; "units"; "fund"; "amc"]
            [lower "Scheme Name"; lower "Units"; lower "NAV"]) with 3.
  change (ExcelParser.count_indicators
            ["symbol"; "quantity"; "average price"; "ltp"; "exchange"]
            [lower "Scheme Name"; lower "Units"; lower "NAV"]) with 0.
  destruct (contains "mutual" (lower sheet_name)
            || contains "fund" (lower sheet_name)
            || contains "mf" (lower sheet_name));
    destruct (contains "stock" (lower sheet_name)
              || contains "equity" (lower sheet_name)
              || contains "share" (lower sheet_name));
    destruct sheet_rows; reflexivity.
Qed.

End SheetType.

(** ** Further properties of the parsers and of the enrichment *)

Module Further.

Import models Db Uploads Statements Sessions.

(** The Console export of the example parses to one ETF of 10 units worth
    2250, with the gain and the percentage of the file. *)
Theorem console_example_parses :
  ZerodhaCSVParser.parse_rows Samples.no_text_float Samples.no_float_text
    Samples.niftybees_frame
  = Ok [ {| Parsed.symbol := "NIFTYBEES"; Parsed.exchange := "NSE";
            Parsed.asset_type := "etf";
            Parsed.quantity := 10%float;
            Parsed.average_price := 220.5%float;
            Parsed.current_price := 225%float;
            Parsed.current_value := 2250%float;
            Parsed.pnl := 45%float; Parsed.pnl_percentage := 2.04%float;
            Parsed.isin := None; Parsed.scheme_code := None |} ].
Proof.
  vm_compute. reflexivity.
Qed.

(** The enrichment pass keeps the table in order and changes no key, no
    exchange, no quantity and no average price: what the reconciliation of
    the next import reads is what the last import wrote. *)
Theorem enrichment_keeps_reconciliation_fields :
  forall get_stock_info get_mutual_fund_info search_mutual_fund hd
         platform_account_id l,
    Forall2 same_for_reconciliation l
      (enriched_table get_stock_info get_mutual_fund_info search_mutual_fund
         hd platform_account_id l).
Proof.
  intros gsi gmf smf hd pa l. unfold enriched_table.
  rewrite Enrichment.enrich_rows_pointwise. simpl.
  induction l as [|h l IH]; simpl; constructor; [|exact IH].
  destruct (needs_price pa h).
  - apply Idempotence.enrich_one_keeps.
  - repeat split.
Qed.

End Further.

(** ** The account a file name is read for *)

Module FileNames.
Import FileAccount Statements.

Lemma upper_ascii_not_h c : Ascii.eqb "h" (upper_ascii c) = false.
Proof. destruct c as [[] [] [] [] [] [] [] []]; reflexivity. Qed.

Lemma id_char_not_h c : is_id_char c = true -> Ascii.eqb "h" c = false.
Proof. destruct c as [[] [] [] [] [] [] [] []]; simpl; intros H; try reflexivity; discriminate H. Qed.

Lemma id_char_not_separator c : is_id_char c = true -> is_separator c = false.
Proof. destruct c as [[] [] [] [] [] [] [] []]; simpl; intros H; try reflexivity; discriminate H. Qed.

Lemma no_prefix_upper s : holdings_prefix (upper s) = None.
Proof.
  unfold holdings_prefix. destruct s as [|c s]; [reflexivity|].
  change (upper (String c s)) with (String (upper_ascii c) (upper s)).
  cbn [startswith]. rewrite upper_ascii_not_h. reflexivity.
Qed.

(** The optional group [(?:holdings[-_])?] of the account pattern never
    takes part in a match: the pattern spells it in lower case and is
    matched against [filename.upper()].  The account id read from a file
    name is the first run of six capital letters or digits that [-], [_]
    or [.] follows. *)
Theorem holdings_prefix_never_matches :
  forall filename, first_match (upper filename) = first_id (upper filename).
Proof.
  intros s. induction s as [|c s IH].
  - reflexivity.
  - change (upper (String c s)) with (String (upper_ascii c) (upper s)).
    change (upper (String c s)) with (String (upper_ascii c) (upper s)) in *.
    cbn [first_match first_id]. unfold match_here.
    rewrite <- IH.
    pose proof (no_prefix_upper (String c s)) as Hp.
    change (upper (String c s)) with (String (upper_ascii c) (upper s)) in Hp.
    rewrite Hp. reflexivity.
Qed.

Lemma id_chars_app n : forall a b,
  String.length a = n -> id_run a = true -> id_chars n (a ++ b) = Some (a, b).
Proof.
  induction n as [|n IH]; intros a b Hl Ha.
  - destruct a; [reflexivity | discriminate].
  - destruct a as [|c a]; [discriminate|].
    simpl in *. apply andb_prop in Ha. destruct Ha as (Hc & Ha).
    rewrite Hc, (IH a b); auto.
Qed.

Lemma id_chars_rest n : forall t u g r,
  id_run t = true -> n < String.length t ->
  id_chars n (t ++ u) = Some (g, r) ->
  exists c r', r = String c r' /\ is_id_char c = true.
Proof.
  induction n as [|n IH]; intros t u g r Ht Hl H.
  - simpl in H. inversion H; subst. destruct t as [|c t]; [simpl in Hl; lia|].
    simpl in Ht. apply andb_prop in Ht. destruct Ht as (Hc & _).
    exists c, (t ++ u). split; [reflexivity | exact Hc].
  - destruct t as [|c t]; [simpl in Hl; lia|].
    simpl in Ht, Hl, H. apply andb_prop in Ht. destruct Ht as (Hc & Ht).
    rewrite Hc in H.
    destruct (id_chars n (t ++ u)) as [[g' r0]|] eqn:E; [|discriminate].
    inversion H; subst. eapply IH; [exact Ht | lia | exact E].
Qed.

Lemma id_run_app a b : id_run (a ++ b) = id_run a && id_run b.
Proof. induction a as [|c a IH]; simpl; [reflexivity|]. rewrite IH. apply andb_assoc. Qed.

Lemma length_append a b : String.length (a ++ b) = String.length a + String.length b.
Proof. induction a; simpl; auto. Qed.

Lemma append_assoc a b c : ((a ++ b) ++ c = a ++ b ++ c)%string.
Proof. induction a as [|x a IH]; simpl; [reflexivity|]. rewrite IH. reflexivity. Qed.

Lemma match_here_id c t :
  is_id_char c = true ->
  match_here (String c t) = id_then_separator (String c t).
Proof.
  intros Hc. unfold match_here, holdings_prefix. cbn [startswith].
  rewrite (id_char_not_h c Hc). reflexivity.
Qed.

Lemma id_then_separator_run t u :
  id_run t = true -> 6 < String.length t -> id_then_separator (t ++ u) = None.
Proof.
  intros Ht Hl. unfold id_then_separator.
  destruct (id_chars 6 (t ++ u)) as [[g r]|] eqn:E; [|reflexivity].
  destruct (id_chars_rest 6 t u g r Ht Hl E) as (c & r' & -> & Hc).
  rewrite (id_char_not_separator c Hc). reflexivity.
Qed.

Lemma first_match_run pre : forall six sep rest,
  id_run (pre ++ six) = true -> String.length six = 6 ->
  is_separator sep = true ->
  first_match (pre ++ six ++ String sep rest) = Some six.
Proof.
  induction pre as [|c pre IH]; intros six sep rest Hrun Hl Hsep.
  - change ("" ++ six ++ String sep rest) with (six ++ String sep rest).
    simpl in Hrun.
    assert (id_then_separator (six ++ String sep rest) = Some six) as Hm.
    { unfold id_then_separator. rewrite id_chars_app; auto.
      rewrite Hsep. reflexivity. }
    destruct six as [|c six]; [discriminate|].
    simpl in Hrun. apply andb_prop in Hrun. destruct Hrun as (Hc & _).
    change (String c six ++ String sep rest)
      with (String c (six ++ String sep rest)) in *.
    cbn [first_match]. rewrite (match_here_id c _ Hc), Hm. reflexivity.
  - change (String c pre ++ six ++ String sep rest)
      with (String c (pre ++ six ++ String sep rest)).
    cbn [first_match].
    pose proof Hrun as Hrun'.
    simpl in Hrun'. apply andb_prop in Hrun'. destruct Hrun' as (Hc & Hrest).
    rewrite (match_here_id c _ Hc).
    replace (String c (pre ++ six ++ String sep rest))
      with (String c (pre ++ six) ++ String sep rest)
      by (simpl; rewrite append_assoc; reflexivity).
    rewrite id_then_separator_run.
    + apply IH; assumption.
    + exact Hrun.
    + simpl. rewrite length_append. lia.
Qed.

(** When the upper-cased file name begins with letters and digits, six or
    more, and [-], [_] or [.] follows them, the account id read from the
    name is the last six of these characters: the file is accepted when
    they are the upper-cased client id of the account, and refused with
    the message that names them otherwise. *)
Theorem leading_run_names_the_account :
  forall filename client_id pre six sep rest,
    upper filename = pre ++ six ++ String sep rest ->
    id_run (pre ++ six) = true ->
    String.length six = 6 ->
    is_separator sep = true ->
    validate_file_account_match filename client_id
    = if String.eqb six (upper client_id) then (true, "")
      else (false,
            "File appears to be for account " ++ six
            ++ ", but you selected account " ++ client_id).
Proof.
  intros filename client_id pre six sep rest Hu Hrun Hl Hsep.
  unfold validate_file_account_match.
  rewrite Hu, (first_match_run pre six sep rest Hrun Hl Hsep).
  destruct (String.eqb six (upper client_id)); reflexivity.
Qed.

(** The theorem at [holdings.csv], which reads as the account [LDINGS]. *)
Lemma leading_run_names_the_account_witness :
  validate_file_account_match "holdings.csv" "YG7227"
  = (false,
     "File appears to be for account LDINGS, but you selected account YG7227").
Proof.
  exact (leading_run_names_the_account "holdings.csv" "YG7227" "HO" "LDINGS"
           "." "CSV" eq_refl eq_refl eq_refl eq_refl).
Defined.

End FileNames.

(** ** The counters of an answer *)

Module Counters.

Import models Db Uploads Statements Sessions.
Local Open Scope list_scope.

Lemma three_way_counts autoflush pa hd hs :
  hd <> Zerodha ->
  forall i st,
  exists st',
    process_from autoflush pa NoFault i hd hs st = Done st'
    /\ imported_count st' + updated_count st' + skipped_count st'
       = imported_count st + updated_count st + skipped_count st
         + List.length hs.
Proof.
  intros Hhd. induction hs as [|x hs IH]; intros i st; simpl.
  - exists st. split; [reflexivity | lia].
  - destruct (IH (S i) (body autoflush pa hd st x)) as (st' & Hrun & Hc).
    exists st'. split; [exact Hrun|]. rewrite Hc.
    destruct hd; [contradiction| | |]; simpl; unfold three_way_body.
    all: destruct (find _ _) as [e|]; try destruct (unchanged e x); simpl; lia.
Qed.

Lemma zerodha_counts autoflush pa hs :
  forall i st,
  exists st',
    process_from autoflush pa NoFault i Zerodha hs st = Done st'
    /\ imported_count st' = imported_count st + List.length hs
    /\ updated_count st' + List.length (duplicate_holdings st)
       = updated_count st + List.length (duplicate_holdings st')
    /\ updated_count st' <= updated_count st + List.length hs.
Proof.
  induction hs as [|x hs IH]; intros i st; simpl.
  - exists st. repeat split; lia.
  - destruct (IH (S i) (zerodha_body autoflush pa st x))
      as (st' & Hrun & Hi & Hu & Hle).
    exists st'. split; [exact Hrun|].
    unfold zerodha_body in Hi, Hu, Hle.
    destruct (find _ _) as [e|]; simpl in *; rewrite ?length_app in *;
      simpl in *; repeat split; lia.
Qed.

Lemma sheets_counts autoflush pa sheets :
  forall i t0,
  exists t',
    process_sheets autoflush NoFault i pa sheets t0 = Done t'
    /\ total_imported t' + total_updated t' + total_skipped t'
       = total_imported t0 + total_updated t0 + total_skipped t0
         + List.length (holdings_of sheets).
Proof.
  induction sheets as [|sh sheets IH]; intros i t0; simpl.
  - exists t0. split; [reflexivity | lia].
  - destruct (three_way_counts autoflush pa Excel (data sh)
                ltac:(discriminate) i (start (x_session t0)))
      as (st & -> & Hc).
    match goal with
    | |- context [process_sheets _ _ ?j _ _ ?t1] =>
        destruct (IH j t1) as (t' & Hrun & Ht)
    end.
    exists t'. split; [exact Hrun|]. rewrite Ht. simpl in *.
    unfold holdings_of. simpl. rewrite length_app.
    fold (holdings_of sheets). lia.
Qed.

(** Without an exception every parsed holding is counted once.  The
    generic, PDF and Excel handlers count it as imported, updated or
    skipped, and the three counters of the answer add up to the number
    of holdings of the file (of all the sheets); the Zerodha handler
    counts every holding as imported, the updated ones a second time
    as updated, with one advisory each.  The import record is marked
    ["success"] with [imported_count]. *)
Theorem every_holding_is_counted_once :
  forall autoflush get_stock_info get_mutual_fund_info search_mutual_fund
         platform_account_id t,
    (forall holdings_data parse_warnings,
        counts_every_holding
          (Uploads.upload autoflush get_stock_info get_mutual_fund_info
             search_mutual_fund Zerodha NoFault platform_account_id
             holdings_data parse_warnings (open t))
          (List.length holdings_data))
    /\ (forall holdings_data parse_warnings,
           counts_add_up
             (Uploads.upload autoflush get_stock_info get_mutual_fund_info
                search_mutual_fund Generic NoFault platform_account_id
                holdings_data parse_warnings (open t))
             (List.length holdings_data)
           /\ counts_add_up
                (Uploads.upload autoflush get_stock_info get_mutual_fund_info
                   search_mutual_fund Pdf NoFault platform_account_id
                   holdings_data parse_warnings (open t))
                (List.length holdings_data))
    /\ (forall sheets,
           counts_add_up
             (Uploads.upload_excel autoflush get_stock_info
                get_mutual_fund_info search_mutual_fund NoFault
                platform_account_id sheets (open t))
             (List.length (holdings_of sheets))).
Proof.
  intros af gsi gmf smf pa t. refine (conj _ (conj _ _)).
  - intros hs ws. unfold Uploads.upload, persist.
    destruct (zerodha_counts af pa hs 0 (start (commit (open t))))
      as (st & -> & Hi & Hu & Hle).
    simpl in *. destruct (enrich _ _ _ _ _ _) as [[db' n] cs].
    eexists. split; [reflexivity|]. simpl. rewrite Hi.
    repeat split; lia.
  - intros hs ws. split.
    all: unfold Uploads.upload, persist.
    all: match goal with
         | |- context [process_from _ _ _ _ ?hd _ ?s] =>
             destruct (three_way_counts af pa hd hs ltac:(discriminate) 0 s)
               as (st & -> & Hc)
         end.
    all: simpl in *; destruct (enrich _ _ _ _ _ _) as [[db' n] cs].
    all: eexists; eexists; split; [reflexivity|]; simpl.
    all: repeat split; lia.
  - intros sheets. unfold Uploads.upload_excel.
    match goal with
    | |- context [process_sheets _ _ _ _ _ ?t0] =>
        destruct (sheets_counts af pa sheets 0 t0) as (t' & -> & Hc)
    end.
    simpl in *. destruct (enrich _ _ _ _ _ _) as [[db' n] cs].
    eexists; eexists; split; [reflexivity|]; simpl.
    repeat split; lia.
Qed.

End Counters.

(** ** The table after an import *)

Module Tables.

Import models Db Uploads Statements Sessions.
Local Open Scope list_scope.

(** *** Assignments keep the shape of the table *)

Lemma same_identity_refl h : same_identity h h.
Proof. repeat split. Qed.

Lemma same_identity_trans a b c :
  same_identity a b -> same_identity b c -> same_identity a c.
Proof.
  intros (H1 & H2 & H3 & H4) (K1 & K2 & K3 & K4).
  unfold same_identity. rewrite K1, K2, K3, K4. auto.
Qed.

Lemma Forall2_same_identity_refl l : Forall2 same_identity l l.
Proof. induction l; constructor; auto using same_identity_refl. Qed.

Lemma Forall2_same_identity_trans l1 : forall l2 l3,
  Forall2 same_identity l1 l2 -> Forall2 same_identity l2 l3 ->
  Forall2 same_identity l1 l3.
Proof.
  induction l1 as [|a l1 IH]; intros l2 l3 H12 H23.
  - inversion H12; subst. inversion H23; subst. constructor.
  - inversion H12; subst. inversion H23; subst. constructor.
    + eapply same_identity_trans; eassumption.
    + eapply IH; eassumption.
Qed.

Lemma assign_first_identity (q : Holding -> bool) f l :
  (forall h, same_identity h (f h)) ->
  Forall2 same_identity l (assign_first q f l).
Proof.
  intros Hf. induction l as [|h l IH]; simpl; [constructor|].
  destruct (q h); constructor; auto using same_identity_refl,
    Forall2_same_identity_refl.
Qed.

Lemma assign_first_length (q : Holding -> bool) f l :
  List.length (assign_first q f l) = List.length l.
Proof.
  induction l as [|h l IH]; simpl; [reflexivity|].
  destruct (q h); simpl; auto.
Qed.

Lemma map_identity (g : Holding -> Holding) l :
  (forall h, same_identity h (g h)) -> Forall2 same_identity l (map g l).
Proof. intros Hg. induction l; simpl; constructor; auto. Qed.

(** The step of a loop, on the table a commit would write: the records
    it had, with the identity each had, then at most one new record. *)
Lemma session_after_view autoflush pa hd db x :
  exists l',
    Forall2 same_identity (view db) l'
    /\ (view (session_after autoflush pa hd db x) = l'
        \/ (view (session_after autoflush pa hd db x)
            = l' ++ [new_holding hd pa x]
            /\ find (key_filter hd pa x) (rows (before_query autoflush db))
               = None)).
Proof.
  rewrite <- (Idempotence.view_before_query autoflush db).
  unfold session_after.
  destruct hd; simpl; unfold zerodha_body, three_way_body; simpl.
  all: destruct (find _ _) as [e|] eqn:Hfind;
    try destruct (unchanged e x); simpl.
  all: unfold view; simpl.
  all: try (eexists; split; [apply Forall2_same_identity_refl|];
            first [ left; reflexivity
                  | right; split; [rewrite app_assoc|]; reflexivity ]).
  all: eexists; split; [|left; reflexivity].
  all: apply Forall2_app; [|apply Forall2_same_identity_refl].
  all: apply assign_first_identity.
  all: intros h; apply Reconciliation.update_existing_identity.
Qed.

(** *** An import appends *)

Lemma of_the_file_identity hd pa hs n n' :
  same_identity n n' -> of_the_file hd pa hs n -> of_the_file hd pa hs n'.
Proof.
  intros Hid (x & Hx & Hq). exists x. split; [exact Hx|].
  unfold key_filter in *.
  rewrite (Idempotence.same_key_identity _ _ _ n n' Hid). exact Hq.
Qed.

Lemma appended_identity hd pa hs t l l' :
  Forall2 same_identity l l' -> appended hd pa hs t l -> appended hd pa hs t l'.
Proof.
  intros Hll (kept & new & -> & Hk & Hn).
  apply Forall2_app_inv_l in Hll.
  destruct Hll as (kept' & new' & Hk' & Hn' & ->).
  exists kept', new'. split; [reflexivity|]. split.
  - eapply Forall2_same_identity_trans; eassumption.
  - clear - Hn Hn'. induction Hn' as [|n n' new new' Hid _ IH]; [constructor|].
    inversion Hn; subst. constructor; auto.
    eapply of_the_file_identity; eassumption.
Qed.

Lemma appended_snoc hd pa hs t l n :
  appended hd pa hs t l -> of_the_file hd pa hs n ->
  appended hd pa hs t (l ++ [n]).
Proof.
  intros (kept & new & -> & Hk & Hn) Hf.
  exists kept, (new ++ [n]). split; [symmetry; apply app_assoc|].
  split; [exact Hk|]. apply Forall_snoc; assumption.
Qed.

Lemma appended_step autoflush hd pa hs t db x :
  In x hs ->
  appended hd pa hs t (view db) ->
  appended hd pa hs t (view (session_after autoflush pa hd db x)).
Proof.
  intros Hx Ha.
  destruct (session_after_view autoflush pa hd db x)
    as (l' & Hid & [-> | (-> & _)]).
  - eapply appended_identity; eassumption.
  - apply appended_snoc; [eapply appended_identity; eassumption|].
    exists x. split; [exact Hx | apply Reconciliation.new_holding_has_key].
Qed.

Lemma appended_loop autoflush hd pa hs t ys :
  (forall y, In y ys -> In y hs) ->
  forall db,
    appended hd pa hs t (view db) ->
    appended hd pa hs t
      (view (fold_left (session_after autoflush pa hd) ys db)).
Proof.
  induction ys as [|y ys IH]; intros Hin db Ha; simpl; [exact Ha|].
  apply IH; [intros z Hz; apply Hin; right; exact Hz|].
  apply appended_step; [apply Hin; left; reflexivity | exact Ha].
Qed.

Lemma enriched_identity gsi gmf smf hd pa l :
  Forall2 same_identity l (enriched_table gsi gmf smf hd pa l).
Proof.
  unfold enriched_table. rewrite Enrichment.enrich_rows_pointwise. simpl.
  apply map_identity. intros h.
  destruct (needs_price pa h);
    [apply Idempotence.enrich_one_keeps | apply same_identity_refl].
Qed.

Lemma appended_start hd pa hs t : appended hd pa hs t (view (open t)).
Proof.
  exists t, []. unfold view. simpl. split; [reflexivity|].
  split; [apply Forall2_same_identity_refl | constructor].
Qed.

(** *** The number of records added *)

Lemma body_grows autoflush pa hd st x :
  let st' := body autoflush pa hd st x in
  List.length (view (session st')) + imported_count st
  + match hd with Zerodha => updated_count st' | _ => 0 end
  = List.length (view (session st)) + imported_count st'
    + match hd with Zerodha => updated_count st | _ => 0 end.
Proof.
  cbv zeta. rewrite <- (Idempotence.view_before_query autoflush (session st)).
  destruct hd; simpl; unfold zerodha_body, three_way_body; simpl.
  all: destruct (find _ _) as [e|]; try destruct (unchanged e x); simpl.
  all: unfold view; simpl; rewrite ?length_app, ?assign_first_length; simpl.
  all: lia.
Qed.

Lemma loop_grows autoflush pa hd hs :
  forall i st st',
    process_from autoflush pa NoFault i hd hs st = Done st' ->
    List.length (view (session st')) + imported_count st
    + match hd with Zerodha => updated_count st' | _ => 0 end
    = List.length (view (session st)) + imported_count st'
      + match hd with Zerodha => updated_count st | _ => 0 end.
Proof.
  induction hs as [|x hs IH]; intros i st st' Hrun; simpl in Hrun.
  - inversion Hrun; subst. reflexivity.
  - apply IH in Hrun. pose proof (body_grows autoflush pa hd st x) as Hb.
    cbv zeta in Hb. destruct hd; lia.
Qed.

Lemma sheets_grow autoflush pa sheets :
  forall i t0 t',
    process_sheets autoflush NoFault i pa sheets t0 = Done t' ->
    List.length (view (x_session t')) + total_imported t0
    = List.length (view (x_session t0)) + total_imported t'.
Proof.
  induction sheets as [|sh sheets IH]; intros i t0 t' Hrun; simpl in Hrun.
  - inversion Hrun; subst. reflexivity.
  - destruct (process_from _ _ _ _ _ _ _) as [st|db e] eqn:Hp; [|discriminate].
    apply IH in Hrun. apply loop_grows in Hp. simpl in *. lia.
Qed.

Lemma enrich_rows_length gsi gmf smf hd pa l :
  List.length (fst (fst (enrich_rows gsi gmf smf hd pa l))) = List.length l.
Proof.
  rewrite Enrichment.enrich_rows_pointwise. simpl. apply length_map.
Qed.

Lemma enrich_length gsi gmf smf hd pa db :
  List.length (rows (fst (fst (enrich gsi gmf smf hd pa db))))
  = List.length (view db).
Proof.
  unfold enrich.
  pose proof (enrich_rows_length gsi gmf smf hd pa (rows db)) as Hl.
  destruct (enrich_rows _ _ _ _ _ _) as [[rows' n] cs]. simpl in *.
  unfold view. rewrite !length_app, Hl. reflexivity.
Qed.

(** An import without an exception deletes no record and moves none: the
    table it leaves is the table it found, each record in its place with
    its account, symbol, asset type and exchange, followed by new records
    that each have the key of a holding of the file.  The number of new
    records is [imported_count] of the answer (less [updated_count] for
    the Zerodha handler). *)
Theorem import_is_append_only :
  forall autoflush get_stock_info get_mutual_fund_info search_mutual_fund
         platform_account_id t,
    (forall hd holdings_data parse_warnings,
        let r :=
          Uploads.upload autoflush get_stock_info get_mutual_fund_info
            search_mutual_fund hd NoFault platform_account_id holdings_data
            parse_warnings (open t) in
        appended hd platform_account_id holdings_data t (rows (db_after r))
        /\ added t r)
    /\ (forall sheets,
           let r :=
             Uploads.upload_excel autoflush get_stock_info
               get_mutual_fund_info search_mutual_fund NoFault
               platform_account_id sheets (open t) in
           appended Excel platform_account_id (holdings_of sheets) t
             (rows (db_after r))
           /\ added t r).
Proof.
  intros af gsi gmf smf pa t. split.
  - intros hd hs ws r. split.
    + subst r. rewrite Idempotence.upload_table. simpl.
      eapply appended_identity; [apply enriched_identity|].
      apply appended_loop; [auto | apply appended_start].
    + subst r. unfold added, Uploads.upload, persist.
      rewrite Rollback.commit_open.
      destruct (process_from af pa NoFault 0 hd hs (start (open t)))
        as [st|db e] eqn:Hrun.
      * apply loop_grows in Hrun. simpl in *.
        pose proof (enrich_length gsi gmf smf hd pa (commit (session st)))
          as Hl.
        destruct (enrich _ _ _ _ _ _) as [[db' n] cs]. simpl in *.
        eexists. split; [reflexivity|]. simpl.
        unfold view in *. simpl in *. rewrite app_nil_r in *.
        rewrite !length_app in *.
        destruct hd; simpl in *; lia.
      * destruct (Idempotence.process_from_session af pa hd hs 0
                    (start (open t))) as (st' & Hdone & _).
        rewrite Hdone in Hrun. discriminate.
  - intros sheets r. split.
    + subst r. rewrite Idempotence.upload_excel_table. simpl.
      eapply appended_identity; [apply enriched_identity|].
      apply appended_loop; [auto | apply appended_start].
    + subst r. unfold added, Uploads.upload_excel.
      rewrite Rollback.commit_open.
      match goal with
      | |- context [process_sheets _ _ 0 _ _ ?t0] =>
          destruct (process_sheets af NoFault 0 pa sheets t0)
            as [t'|db e] eqn:Hrun;
          [|destruct (Idempotence.process_sheets_session af pa sheets 0 t0)
              as (t1 & Hdone & _); rewrite Hdone in Hrun; discriminate]
      end.
      apply sheets_grow in Hrun. simpl in *.
      pose proof (enrich_length gsi gmf smf Excel pa (commit (x_session t')))
        as Hl.
      destruct (enrich _ _ _ _ _ _) as [[db' n] cs]. simpl in *.
      eexists. split; [reflexivity|]. simpl.
      unfold view in *. simpl in *. rewrite app_nil_r in *.
      rewrite !length_app in *. lia.
Qed.


(** *** The holdings the file does not list *)

Lemma absent_identity hd pa hs h h' :
  same_identity h h' -> absent hd pa hs h' = absent hd pa hs h.
Proof.
  intros Hid. unfold absent.
  induction hs as [|x hs IH]; simpl; [reflexivity|].
  unfold key_filter at 1 3.
  rewrite (Idempotence.same_key_identity _ _ _ h h' Hid), IH. reflexivity.
Qed.

Lemma absent_key hd pa hs x h :
  In x hs -> key_filter hd pa x h = true -> absent hd pa hs h = false.
Proof.
  intros Hx Hq. unfold absent.
  destruct (forallb _ hs) eqn:E; [|reflexivity].
  rewrite forallb_forall in E. specialize (E x Hx). rewrite Hq in E.
  discriminate.
Qed.

Lemma filter_assign_first (p q : Holding -> bool) f l :
  (forall h, q h = true -> p h = false) ->
  (forall h, p (f h) = p h) ->
  filter p (assign_first q f l) = filter p l.
Proof.
  intros Hq Hf. induction l as [|h l IH]; simpl; [reflexivity|].
  destruct (q h) eqn:E; simpl.
  - rewrite Hf, (Hq h E). reflexivity.
  - rewrite IH. reflexivity.
Qed.

Lemma absent_step autoflush hd pa hs db x :
  In x hs ->
  filter (absent hd pa hs) (view (session_after autoflush pa hd db x))
  = filter (absent hd pa hs) (view db).
Proof.
  intros Hx. rewrite <- (Idempotence.view_before_query autoflush db).
  unfold session_after.
  destruct hd; simpl; unfold zerodha_body, three_way_body; simpl.
  all: destruct (find _ _) as [e|]; try destruct (unchanged e x); simpl.
  all: unfold view; simpl; rewrite ?filter_app; simpl.
  all: try reflexivity.
  all: try (erewrite (absent_key _ _ _ x);
            [rewrite app_nil_r; reflexivity | exact Hx
            | apply Reconciliation.new_holding_has_key]).
  all: f_equal; apply filter_assign_first.
  all: try (intros h Hq; eapply absent_key; eassumption).
  all: intros h; apply absent_identity;
    apply Reconciliation.update_existing_identity.
Qed.

Lemma absent_loop autoflush hd pa hs ys :
  (forall y, In y ys -> In y hs) ->
  forall db,
    filter (absent hd pa hs)
      (view (fold_left (session_after autoflush pa hd) ys db))
    = filter (absent hd pa hs) (view db).
Proof.
  induction ys as [|y ys IH]; intros Hin db; simpl; [reflexivity|].
  rewrite IH; [|intros z Hz; apply Hin; right; exact Hz].
  apply absent_step. apply Hin. left. reflexivity.
Qed.

Lemma filter_map_invariant (p : Holding -> bool) g l :
  (forall h, p (g h) = p h) -> filter p (map g l) = map g (filter p l).
Proof.
  intros Hg. induction l as [|h l IH]; simpl; [reflexivity|].
  rewrite Hg. destruct (p h); simpl; rewrite IH; reflexivity.
Qed.

Lemma enriched_absent gsi gmf smf hd hd' pa hs l :
  Forall2 kept_as_it_was (filter (absent hd' pa hs) l)
    (filter (absent hd' pa hs) (enriched_table gsi gmf smf hd pa l)).
Proof.
  unfold enriched_table. rewrite Enrichment.enrich_rows_pointwise. simpl.
  set (g := fun h : Holding =>
              if needs_price pa h
              then holding_of (enrich_one gsi gmf smf hd h) else h).
  assert (forall h, same_for_reconciliation h (g h)) as Hg.
  { intros h. unfold g. destruct (needs_price pa h).
    - apply Idempotence.enrich_one_keeps.
    - repeat split. }
  rewrite filter_map_invariant
    by (intros h; apply absent_identity; apply Hg).
  induction (filter (absent hd' pa hs) l) as [|h k IH]; simpl; constructor;
    [|exact IH].
  split; [apply Hg|].
  intros Hp. unfold g, needs_price. rewrite Hp, andb_false_r. reflexivity.
Qed.

(** A record whose key no holding of the file has is kept by an import
    without an exception: these records stay in their order, each with
    its account, symbol, asset type, exchange, quantity and average
    price, and a record with a price other than 0 stays as it is in every
    field.  A holding that was sold, and is no longer in the file, thus
    stays in the table. *)
Theorem holdings_absent_from_the_file_are_kept :
  forall autoflush get_stock_info get_mutual_fund_info search_mutual_fund
         platform_account_id t,
    (forall hd holdings_data parse_warnings,
        Forall2 kept_as_it_was
          (filter (absent hd platform_account_id holdings_data) t)
          (filter (absent hd platform_account_id holdings_data)
             (rows
                (db_after
                   (Uploads.upload autoflush get_stock_info
                      get_mutual_fund_info search_mutual_fund hd NoFault
                      platform_account_id holdings_data parse_warnings
                      (open t))))))
    /\ (forall sheets,
           Forall2 kept_as_it_was
             (filter (absent Excel platform_account_id (holdings_of sheets)) t)
             (filter (absent Excel platform_account_id (holdings_of sheets))
                (rows
                   (db_after
                      (Uploads.upload_excel autoflush get_stock_info
                         get_mutual_fund_info search_mutual_fund NoFault
                         platform_account_id sheets (open t)))))).
Proof.
  intros af gsi gmf smf pa t. split.
  - intros hd hs ws. rewrite Idempotence.upload_table. simpl.
    pose proof (enriched_absent gsi gmf smf hd hd pa hs
                  (view (fold_left (session_after af pa hd) hs (open t))))
      as H.
    rewrite absent_loop in H by auto.
    unfold view in H at 1. simpl in H. rewrite app_nil_r in H. exact H.
  - intros sheets. rewrite Idempotence.upload_excel_table. simpl.
    pose proof (enriched_absent gsi gmf smf Excel Excel pa (holdings_of sheets)
                  (view (fold_left (session_after af pa Excel)
                           (holdings_of sheets) (open t))))
      as H.
    rewrite absent_loop in H by auto.
    unfold view in H at 1. simpl in H. rewrite app_nil_r in H. exact H.
Qed.

(** *** Keys of the table *)

Lemma row_key_identity h h' : same_identity h h' -> row_key h' = row_key h.
Proof.
  intros (Hp & Hs & Ha & _). unfold row_key. rewrite Hp, Hs, Ha. reflexivity.
Qed.

Lemma map_row_key_identity l l' :
  Forall2 same_identity l l' -> map row_key l' = map row_key l.
Proof.
  induction 1 as [|h h' l l' Hid _ IH]; simpl; [reflexivity|].
  rewrite (row_key_identity h h' Hid), IH. reflexivity.
Qed.

Lemma AssetType_eqb_refl a : AssetType_eqb a a = true.
Proof. destruct a; reflexivity. Qed.

Lemma key_filter_row_key hd pa x h :
  row_key h = row_key (new_holding hd pa x) -> key_filter hd pa x h = true.
Proof.
  unfold row_key, key_filter, same_key. simpl. intros E.
  inversion E as [[Hp Hs Ha]]. rewrite Hp, Hs, Ha.
  rewrite Nat.eqb_refl, String.eqb_refl, AssetType_eqb_refl. reflexivity.
Qed.

Lemma NoDup_snoc {A : Type} (l : list A) (a : A) :
  NoDup l -> ~ In a l -> NoDup (l ++ [a]).
Proof.
  induction l as [|b l IH]; simpl; intros Hn Hin.
  - constructor; [intros [] | constructor].
  - inversion Hn; subst. constructor.
    + intros H. apply in_app_or in H. destruct H as [H | [H | []]].
      * contradiction.
      * subst. apply Hin. left. reflexivity.
    + apply IH; [assumption|]. intros H. apply Hin. right. exact H.
Qed.

Lemma unique_keys_step pa hd db x :
  unique_keys (view db) ->
  unique_keys (view (session_after true pa hd db x)).
Proof.
  intros Hu.
  destruct (session_after_view true pa hd db x)
    as (l' & Hid & [-> | (-> & Hfind)]).
  - unfold unique_keys. rewrite (map_row_key_identity _ _ Hid). exact Hu.
  - unfold unique_keys in *. rewrite map_app. simpl.
    rewrite (map_row_key_identity _ _ Hid).
    apply NoDup_snoc; [exact Hu|].
    intros Hin. apply in_map_iff in Hin. destruct Hin as (h & Hk & Hh).
    simpl in Hfind. fold (view db) in Hfind.
    apply (find_none _ _ Hfind) in Hh.
    rewrite (key_filter_row_key hd pa x h Hk) in Hh. discriminate.
Qed.

Lemma unique_keys_loop pa hd hs :
  forall db,
    unique_keys (view db) ->
    unique_keys (view (fold_left (session_after true pa hd) hs db)).
Proof.
  induction hs as [|x hs IH]; intros db Hu; simpl; [exact Hu|].
  apply IH. apply unique_keys_step. exact Hu.
Qed.

(** When the session flushes before a query, an import without an
    exception keeps the keys unique: if no two records of the table had
    the same account, symbol and asset type, none have afterwards, also
    when the file lists a key twice. *)
Theorem autoflush_keeps_keys_unique :
  forall get_stock_info get_mutual_fund_info search_mutual_fund
         platform_account_id t,
    unique_keys t ->
    (forall hd holdings_data parse_warnings,
        unique_keys
          (rows
             (db_after
                (Uploads.upload true get_stock_info get_mutual_fund_info
                   search_mutual_fund hd NoFault platform_account_id
                   holdings_data parse_warnings (open t)))))
    /\ (forall sheets,
           unique_keys
             (rows
                (db_after
                   (Uploads.upload_excel true get_stock_info
                      get_mutual_fund_info search_mutual_fund NoFault
                      platform_account_id sheets (open t))))).
Proof.
  intros gsi gmf smf pa t Hu.
  assert (unique_keys (view (open t))) as H0
      by (unfold view; simpl; rewrite app_nil_r; exact Hu).
  split.
  - intros hd hs ws. rewrite Idempotence.upload_table. simpl.
    unfold unique_keys.
    rewrite (map_row_key_identity _ _ (enriched_identity gsi gmf smf hd pa _)).
    apply unique_keys_loop. exact H0.
  - intros sheets. rewrite Idempotence.upload_excel_table. simpl.
    unfold unique_keys.
    rewrite (map_row_key_identity _ _
               (enriched_identity gsi gmf smf Excel pa _)).
    apply unique_keys_loop. exact H0.
Qed.

Lemma without_autoflush_loop pa hd t hs :
  (forall x, In x hs -> find (key_filter hd pa x) t = None) ->
  forall p,
    fold_left (session_after false pa hd) hs
      {| table := t; rows := t; pending := p |}
    = {| table := t; rows := t;
         pending := p ++ map (new_holding hd pa) hs |}.
Proof.
  induction hs as [|x hs IH]; intros Hnew p; simpl.
  - rewrite app_nil_r. reflexivity.
  - assert (session_after false pa hd
              {| table := t; rows := t; pending := p |} x
            = {| table := t; rows := t;
                 pending := p ++ [new_holding hd pa x] |}) as ->.
    { unfold session_after.
      destruct hd; simpl; unfold zerodha_body, three_way_body; simpl.
      all: rewrite (Hnew x (or_introl eq_refl)); reflexivity. }
    rewrite IH by (intros y Hy; apply Hnew; right; exact Hy).
    rewrite <- app_assoc. reflexivity.
Qed.

(** When the session does not flush before a query, a file whose keys are
    all new to the table is inserted line by line: the table it leaves
    is the table it found followed by one new record for each holding of
    the file, in order (then enriched), so two lines with one key leave
    two records with this key. *)
Theorem without_autoflush_every_line_is_inserted :
  forall get_stock_info get_mutual_fund_info search_mutual_fund hd
         platform_account_id holdings_data parse_warnings t,
    (forall x,
        In x holdings_data ->
        find (key_filter hd platform_account_id x) t = None) ->
    rows
      (db_after
         (Uploads.upload false get_stock_info get_mutual_fund_info
            search_mutual_fund hd NoFault platform_account_id holdings_data
            parse_warnings (open t)))
    = enriched_table get_stock_info get_mutual_fund_info search_mutual_fund
        hd platform_account_id
        (t ++ map (new_holding hd platform_account_id) holdings_data).
Proof.
  intros gsi gmf smf hd pa hs ws t Hnew.
  rewrite Idempotence.upload_table. simpl.
  unfold open. rewrite (without_autoflush_loop pa hd t hs Hnew []).
  reflexivity.
Qed.

(** The theorem at a table of one record and a file that lists a new
    symbol twice. *)
Lemma autoflush_keeps_keys_unique_witness :
  unique_keys
    (rows
       (db_after
          (Uploads.upload true Samples.no_stock_info Samples.no_fund_info
             Samples.no_fund_search Generic NoFault 1
             [Samples.parsed_tcs; Samples.parsed_tcs] []
             (open [Samples.stored_reliance])))).
Proof.
  apply (proj1 (autoflush_keeps_keys_unique Samples.no_stock_info
                  Samples.no_fund_info Samples.no_fund_search 1
                  [Samples.stored_reliance]
                  ltac:(repeat constructor; simpl; intuition))).
Defined.

(** The same file without autoflush: both lines are inserted. *)
Lemma without_autoflush_every_line_is_inserted_witness :
  rows
    (db_after
       (Uploads.upload false Samples.no_stock_info Samples.no_fund_info
          Samples.no_fund_search Generic NoFault 1
          [Samples.parsed_tcs; Samples.parsed_tcs] []
          (open [Samples.stored_reliance])))
  = [ Samples.stored_reliance; new_holding Generic 1 Samples.parsed_tcs;
      new_holding Generic 1 Samples.parsed_tcs ].
Proof.
  apply (without_autoflush_every_line_is_inserted Samples.no_stock_info
           Samples.no_fund_info Samples.no_fund_search Generic 1
           [Samples.parsed_tcs; Samples.parsed_tcs] []
           [Samples.stored_reliance]).
  intros x [<- | [<- | []]]; reflexivity.
Defined.

End Tables.

(** ** The account of a PDF upload *)

Module Prologue.

Import Requests Statements.

Lemma account_of_same accounts accounts' platform_account_id current_user :
  same_accounts accounts accounts' ->
  match account_of accounts platform_account_id current_user,
        account_of accounts' platform_account_id current_user with
  | None, None | Some _, Some _ => True
  | _, _ => False
  end.
Proof.
  unfold account_of. induction 1 as [|a a' l l' (Hi & Hu) _ IH]; simpl;
    [exact I|].
  rewrite Hi, Hu.
  destruct ((id a =? platform_account_id) && (user_id a =? current_user));
    [exact I | exact IH].
Qed.

(** The PDF handler does not read the client id of the account: two
    account tables that differ in client ids only get the same reply to
    the same request.  The mismatch of the file name and the account is
    never an error of this handler, and the warning made of it (line 677)
    is not in the answer, whose warnings are those of the parser
    (line 689). *)
Theorem pdf_upload_does_not_read_the_client_id :
  forall autoflush get_stock_info get_mutual_fund_info search_mutual_fund f
         accounts accounts' current_user platform_account_id filename parsed
         db,
    same_accounts accounts accounts' ->
    request autoflush get_stock_info get_mutual_fund_info search_mutual_fund
      Uploads.Pdf f accounts current_user platform_account_id filename parsed
      db
    = request autoflush get_stock_info get_mutual_fund_info
        search_mutual_fund Uploads.Pdf f accounts' current_user
        platform_account_id filename parsed db.
Proof.
  intros af gsi gmf smf f accounts accounts' cu pa filename parsed db Hs.
  pose proof (account_of_same accounts accounts' pa cu Hs) as Ha.
  unfold request.
  destruct (account_of accounts pa cu) as [a|],
    (account_of accounts' pa cu) as [a'|]; try contradiction;
    [|reflexivity].
  destruct (FileAccount.validate_file_account_match filename (client_id a)),
    (FileAccount.validate_file_account_match filename (client_id a')).
  reflexivity.
Qed.

(** The theorem at [holdings.pdf], sent for the account [YG7227] and for
    the account [AB1234]. *)
Lemma pdf_upload_does_not_read_the_client_id_witness :
  request true Samples.no_stock_info Samples.no_fund_info
    Samples.no_fund_search Uploads.Pdf Uploads.NoFault Samples.accounts_yg 7 1
    "holdings.pdf" (Ok ([Samples.parsed_fund], [])) (Db.open [])
  = request true Samples.no_stock_info Samples.no_fund_info
      Samples.no_fund_search Uploads.Pdf Uploads.NoFault Samples.accounts_ab
      7 1 "holdings.pdf" (Ok ([Samples.parsed_fund], [])) (Db.open []).
Proof.
  apply (pdf_upload_does_not_read_the_client_id true Samples.no_stock_info
           Samples.no_fund_info Samples.no_fund_search Uploads.NoFault
           Samples.accounts_yg Samples.accounts_ab 7 1 "holdings.pdf"
           (Ok ([Samples.parsed_fund], [])) (Db.open [])).
  repeat constructor.
Defined.

End Prologue.

(** ** The symbols of the generic parser *)

Module GenericSymbols.

Import Frame PyFloat Statements.
Import GenericCSVParser.

Lemma dict_get_in {A : Type} k (d : list (string * A)) v :
  dict_get k d = Some v -> In (k, v) d.
Proof.
  induction d as [|[k' v'] d IH]; simpl; [discriminate|].
  destruct (String.eqb k k') eqn:E.
  - apply String.eqb_eq in E. subst. intros H; inversion H; subst. left; reflexivity.
  - intros H. right. apply IH. exact H.
Qed.

Lemma remove_char_has c s : has_char c (remove_char c s) = false.
Proof.
  induction s as [|a s IH]; simpl; [reflexivity|].
  destruct (Ascii.eqb a c) eqn:E; simpl; [exact IH|]. rewrite E. exact IH.
Qed.

Lemma remove_char_keeps c d s :
  has_char c s = false -> has_char c (remove_char d s) = false.
Proof.
  induction s as [|a s IH]; simpl; [reflexivity|].
  intros H. apply orb_false_elim in H. destruct H as (Ha & Hs).
  destruct (Ascii.eqb a d); simpl; [auto|]. rewrite Ha. auto.
Qed.

Lemma remove_char_absent c s : has_char c s = false -> remove_char c s = s.
Proof.
  induction s as [|a s IH]; simpl; [reflexivity|].
  intros H. apply orb_false_elim in H. destruct H as (Ha & Hs).
  rewrite Ha, IH; auto.
Qed.

Lemma clean_symbol_clean s : clean (clean_symbol s) = true.
Proof.
  unfold clean, clean_symbol.
  rewrite remove_char_has.
  rewrite (remove_char_keeps "&" "." _ (remove_char_has "&" _)).
  rewrite (remove_char_keeps " " "." _
             (remove_char_keeps " " "&" _ (remove_char_has " " _))).
  reflexivity.
Qed.

Lemma lower_dot c : Ascii.eqb (lower_ascii c) "." = Ascii.eqb c ".".
Proof. destruct c as [[] [] [] [] [] [] [] []]; reflexivity. Qed.

Lemma has_dot_lower s : has_char "." (lower s) = has_char "." s.
Proof.
  induction s as [|a s IH]; simpl; [reflexivity|].
  rewrite lower_dot. unfold lower in IH. rewrite IH. reflexivity.
Qed.

Lemma endswith_has a p t :
  endswith (String a p) t = true -> has_char a t = true.
Proof.
  induction t as [|b t IH]; simpl.
  - discriminate.
  - intros H. apply orb_prop in H. destruct H as [H | H].
    + apply andb_prop in H. destruct H as (H & _).
      rewrite Ascii.eqb_sym, H. reflexivity.
    + rewrite (IH H). apply orb_true_r.
Qed.

Lemma strip_exchange_suffix_absent s :
  has_char "." s = false -> strip_exchange_suffix s = s.
Proof.
  intros H. unfold strip_exchange_suffix.
  assert (forall p, endswith (String "." p) (lower s) = false) as Hn.
  { intros p. destruct (endswith _ _) eqn:E; [|reflexivity].
    apply endswith_has in E. rewrite has_dot_lower, H in E. discriminate. }
  rewrite !Hn. reflexivity.
Qed.

Lemma clean_symbol_fixed s : clean s = true -> clean_symbol s = s.
Proof.
  unfold clean. intros H.
  apply andb_prop in H. destruct H as (H & Hd).
  apply andb_prop in H. destruct H as (Hs & Ha).
  apply negb_true_iff in Hd, Hs, Ha.
  unfold clean_symbol. rewrite strip_exchange_suffix_absent by exact Hd.
  rewrite (remove_char_absent " " s Hs), (remove_char_absent "&" s Ha),
    (remove_char_absent "." s Hd).
  reflexivity.
Qed.

Lemma symbol_mappings_values k v :
  dict_get k symbol_mappings = Some v -> settled_symbol v.
Proof.
  intros H. apply dict_get_in in H. unfold symbol_mappings in H.
  repeat (destruct H as [H | H];
          [inversion H; subst; repeat split; reflexivity|]).
  destruct H.
Qed.

Lemma etf_mappings_values k v :
  dict_get k ZerodhaCSVParser.ETF_SYMBOL_MAPPINGS = Some v -> settled_symbol v.
Proof.
  intros H. apply dict_get_in in H.
  unfold ZerodhaCSVParser.ETF_SYMBOL_MAPPINGS in H.
  repeat (destruct H as [H | H];
          [inversion H; subst; repeat split; reflexivity|]).
  destruct H.
Qed.

Lemma generic_symbol_cases text :
  settled_symbol (generic_symbol text)
  \/ (generic_symbol text = clean_symbol (strip text)
      /\ dict_get (generic_symbol text) symbol_mappings = None
      /\ ZerodhaCSVParser.apply_etf_mapping (generic_symbol text)
         = generic_symbol text).
Proof.
  unfold generic_symbol. cbv zeta.
  destruct (dict_get (clean_symbol (strip text)) symbol_mappings) as [v|] eqn:Em.
  - left. pose proof (symbol_mappings_values _ _ Em) as Hv.
    destruct Hv as (Hc & Hk & He). rewrite He. repeat split; assumption.
  - unfold ZerodhaCSVParser.apply_etf_mapping.
    destruct (dict_get (clean_symbol (strip text))
                ZerodhaCSVParser.ETF_SYMBOL_MAPPINGS) as [e|] eqn:Ee.
    + left. apply (etf_mappings_values _ _ Ee).
    + right. rewrite Ee. repeat split; assumption.
Qed.

Lemma generic_symbol_clean text : clean (generic_symbol text) = true.
Proof.
  destruct (generic_symbol_cases text) as [(H & _) | (-> & _)];
    [exact H | apply clean_symbol_clean].
Qed.

Lemma generic_symbol_fixed text :
  strip (generic_symbol text) = generic_symbol text ->
  generic_symbol (generic_symbol text) = generic_symbol text.
Proof.
  intros Hs. set (g := generic_symbol text) in *.
  assert (clean g = true) as Hc by apply generic_symbol_clean.
  assert (dict_get g symbol_mappings = None
          /\ ZerodhaCSVParser.apply_etf_mapping g = g) as (Hk & He).
  { destruct (generic_symbol_cases text) as [(_ & H1 & H2) | (_ & H1 & H2)];
      split; assumption. }
  unfold generic_symbol at 1. cbv zeta.
  rewrite Hs, (clean_symbol_fixed g Hc), Hk. exact He.
Qed.

Lemma detect_asset_type_in s : In (detect_asset_type s) generic_asset_types.
Proof.
  unfold detect_asset_type, generic_asset_types. cbv zeta.
  repeat match goal with
         | |- context [if ?b then _ else _] => destruct b
         end; simpl; auto.
Qed.

(** What a row of the generic parser emits: the symbol. *)
Lemma custom_row_symbol py_float py_str mapping idx row h w :
  parse_custom_row py_float py_str mapping idx row = Ok (Some (h, w)) ->
  exists c,
    mapped_cell mapping "symbol" row = Some c
    /\ Parsed.symbol h = generic_symbol (str_of_cell py_str c)
    /\ Parsed.exchange h = "NSE"
    /\ Parsed.asset_type h = detect_asset_type (Parsed.symbol h)
    /\ Parsed.isin h = None
    /\ Parsed.scheme_code h = None.
Proof.
  unfold parse_custom_row, mapped_cell.
  destruct (dict_get "symbol" mapping) as [col|]; [|discriminate].
  destruct (dict_get col row) as [[| f | s]|]; try discriminate.
  all: destruct (read_quantity _ _ _) as [q mq].
  all: destruct (read_average_price _ _ _) as [a ma].
  all: match goal with
       | |- context [bind ?m _] => destruct m as [pct|e]; [|discriminate]
       end.
  all: simpl; intros E; inversion E; subst; clear E; simpl.
  all: eexists; split; [reflexivity|]; repeat split.
Qed.

(** Every holding of the generic parser has a symbol without space,
    ampersand and dot, the exchange [NSE], the asset type its symbol is
    given (one of [etf], [sgb], [reit], [stock]), and neither ISIN nor
    scheme code. *)
Theorem generic_holdings_are_normalised :
  forall py_float py_str mapping idx row h w,
    parse_custom_row py_float py_str mapping idx row = Ok (Some (h, w)) ->
    normalised h.
Proof.
  intros py_float py_str mapping idx row h w H.
  apply custom_row_symbol in H.
  destruct H as (c & _ & Hs & Hx & Ha & Hi & Hc).
  unfold normalised. rewrite Ha, Hs.
  repeat split; auto using generic_symbol_clean, detect_asset_type_in.
Qed.

(** The symbol of a holding of the generic parser, when it has no white
    space at its ends, is read back as itself: a row whose symbol cell
    holds it is parsed to the same symbol and the same asset type, so it
    has the same reconciliation key. *)
Theorem stored_symbol_is_read_back :
  forall py_float py_str mapping idx row h w idx' row' h' w',
    parse_custom_row py_float py_str mapping idx row = Ok (Some (h, w)) ->
    strip (Parsed.symbol h) = Parsed.symbol h ->
    mapped_cell mapping "symbol" row' = Some (CStr (Parsed.symbol h)) ->
    parse_custom_row py_float py_str mapping idx' row' = Ok (Some (h', w')) ->
    Parsed.symbol h' = Parsed.symbol h
    /\ Parsed.asset_type h' = Parsed.asset_type h.
Proof.
  intros py_float py_str mapping idx row h w idx' row' h' w' H Hstrip Hcell H'.
  apply custom_row_symbol in H, H'.
  destruct H as (c & _ & Hs & _ & Ha & _).
  destruct H' as (c' & Hc' & Hs' & _ & Ha' & _).
  rewrite Hcell in Hc'. inversion Hc'; subst c'. simpl in Hs'.
  assert (Parsed.symbol h' = Parsed.symbol h) as E.
  { rewrite Hs'. rewrite Hs in *. apply generic_symbol_fixed. exact Hstrip. }
  split; [exact E|]. rewrite Ha', Ha, E. reflexivity.
Qed.

(** The theorem at the row of [Larsen & Toubro.NS], which is stored as
    [LT]. *)
Lemma generic_holdings_are_normalised_witness :
  normalised Samples.larsen_holding.
Proof.
  apply (generic_holdings_are_normalised Samples.no_text_float
           Samples.no_float_text Samples.generic_mapping 0 Samples.larsen_row
           Samples.larsen_holding None).
  vm_compute. reflexivity.
Defined.

(** The theorem at the same row, and at the row of [LT]. *)
Lemma stored_symbol_is_read_back_witness :
  Parsed.symbol Samples.larsen_holding = Parsed.symbol Samples.larsen_holding
  /\ Parsed.asset_type Samples.larsen_holding
     = Parsed.asset_type Samples.larsen_holding.
Proof.
  apply (stored_symbol_is_read_back Samples.no_text_float
           Samples.no_float_text Samples.generic_mapping 0 Samples.larsen_row
           Samples.larsen_holding None 1 Samples.lt_row
           Samples.larsen_holding None).
  - vm_compute. reflexivity.
  - reflexivity.
  - reflexivity.
  - vm_compute. reflexivity.
Defined.

End GenericSymbols.

(** ** The rows of a Zerodha export *)

Module ZerodhaRows.

Import Frame PyFloat Statements.
Import ZerodhaCSVParser.

Lemma not_space_not_newline c : is_space c = false -> Ascii.eqb c Re.newline = false.
Proof. destruct c as [[] [] [] [] [] [] [] []]; simpl; intros H; try reflexivity; discriminate H. Qed.

Lemma spaces_then_exchange_char c s :
  is_space c = false -> spaces_then_exchange (String c s) = None.
Proof. intros H. unfold spaces_then_exchange. rewrite H. reflexivity. Qed.

Lemma lazy_prefix_word sym e :
  no_space sym = true -> e = "NSE" \/ e = "BSE" ->
  lazy_prefix (sym ++ " " ++ e) = Some (sym, e).
Proof.
  intros Hs He. induction sym as [|c sym IH].
  - destruct He as [-> | ->]; reflexivity.
  - simpl in Hs. apply andb_prop in Hs. destruct Hs as (Hc & Hs).
    apply negb_true_iff in Hc.
    change (String c sym ++ " " ++ e) with (String c (sym ++ " " ++ e)).
    cbn [lazy_prefix]. rewrite (spaces_then_exchange_char c _ Hc).
    rewrite (not_space_not_newline c Hc), (IH Hs). reflexivity.
Qed.

Lemma lazy_prefix_none s : no_space s = true -> lazy_prefix s = None.
Proof.
  induction s as [|c s IH]; intros Hs; [reflexivity|].
  simpl in Hs. apply andb_prop in Hs. destruct Hs as (Hc & Hs).
  apply negb_true_iff in Hc.
  cbn [lazy_prefix]. rewrite (spaces_then_exchange_char c _ Hc).
  rewrite (IH Hs). destruct (Ascii.eqb c Re.newline); reflexivity.
Qed.

Lemma match_instrument_word sym e :
  sym <> "" -> no_space sym = true -> e = "NSE" \/ e = "BSE" ->
  match_instrument (sym ++ " " ++ e) = Some (sym, e).
Proof.
  intros Hne Hs He. destruct sym as [|c sym]; [contradiction|].
  simpl in Hs. apply andb_prop in Hs. destruct Hs as (Hc & Hs).
  apply negb_true_iff in Hc.
  change (String c sym ++ " " ++ e) with (String c (sym ++ " " ++ e)).
  unfold match_instrument.
  rewrite (not_space_not_newline c Hc), (lazy_prefix_word sym e Hs He).
  reflexivity.
Qed.

Lemma match_instrument_none s : no_space s = true -> match_instrument s = None.
Proof.
  intros Hs. destruct s as [|c s]; [reflexivity|].
  simpl in Hs. apply andb_prop in Hs. destruct Hs as (Hc & Hs).
  unfold match_instrument. rewrite (lazy_prefix_none s Hs).
  destruct (Ascii.eqb c Re.newline); reflexivity.
Qed.

Lemma lstrip_no_space s : no_space s = true -> lstrip s = s.
Proof.
  destruct s as [|c s]; [reflexivity|]. simpl. intros H.
  apply andb_prop in H. destruct H as (Hc & _).
  apply negb_true_iff in Hc. rewrite Hc. reflexivity.
Qed.

Lemma rstrip_no_space s : no_space s = true -> rstrip s = s.
Proof.
  induction s as [|c s IH]; [reflexivity|]. simpl. intros H.
  apply andb_prop in H. destruct H as (Hc & Hs).
  apply negb_true_iff in Hc. rewrite (IH Hs), Hc.
  destruct s; reflexivity.
Qed.

Lemma strip_no_space s : no_space s = true -> strip s = s.
Proof.
  intros H. unfold strip. rewrite (lstrip_no_space s H). apply rstrip_no_space. exact H.
Qed.

(** What a row of the legacy format emits: symbol and exchange. *)
Lemma legacy_row_instrument py_float py_str row h :
  parse_legacy_row py_float py_str row = Ok h ->
  exists c,
    dict_get "Instrument" row = Some c
    /\ (Parsed.symbol h, Parsed.exchange h)
       = match match_instrument (str_of_cell py_str c) with
         | Some (g1, g2) => (strip g1, g2)
         | None => (strip (str_of_cell py_str c), "NSE")
         end.
Proof.
  unfold parse_legacy_row, str_at, getitem.
  destruct (dict_get "Instrument" row) as [c|]; [|discriminate].
  simpl.
  destruct (match match_instrument (str_of_cell py_str c) with
            | Some (g1, g2) => (strip g1, g2)
            | None => (strip (str_of_cell py_str c), "NSE")
            end) as [symbol exchange] eqn:Hp.
  repeat match goal with
         | |- context [bind ?m _] =>
             destruct m as [?|?]; simpl; [|discriminate]
         end.
  intros E. inversion E; subst; clear E. simpl. exists c.
  split; [reflexivity|]. rewrite Hp. reflexivity.
Qed.

(** In the legacy format an instrument written as a symbol without white
    space, a space and [NSE] or [BSE] is read back as this symbol on this
    exchange; a symbol alone is read as itself on [NSE]; and a row with
    no instrument is not skipped: it is a holding with the symbol [nan]. *)
Theorem legacy_instrument_is_read_back :
  forall py_float py_str row sym h,
    no_space sym = true ->
    parse_legacy_row py_float py_str row = Ok h ->
    (forall e,
        sym <> "" ->
        e = "NSE" \/ e = "BSE" ->
        dict_get "Instrument" row = Some (CStr (sym ++ " " ++ e)) ->
        Parsed.symbol h = sym /\ Parsed.exchange h = e)
    /\ (dict_get "Instrument" row = Some (CStr sym) ->
        Parsed.symbol h = sym /\ Parsed.exchange h = "NSE")
    /\ (dict_get "Instrument" row = Some CNaN ->
        Parsed.symbol h = "nan" /\ Parsed.exchange h = "NSE").
Proof.
  intros py_float py_str row sym h Hs Hrow.
  apply legacy_row_instrument in Hrow. destruct Hrow as (c & Hc & Hpair).
  refine (conj _ (conj _ _)).
  - intros e Hne He Hi.
    assert (c = CStr (sym ++ " " ++ e)) as -> by congruence.
    cbn [str_of_cell] in Hpair. rewrite (match_instrument_word sym e Hne Hs He) in Hpair.
    rewrite (strip_no_space sym Hs) in Hpair. inversion Hpair. split; reflexivity.
  - intros Hi. assert (c = CStr sym) as -> by congruence.
    cbn [str_of_cell] in Hpair. rewrite (match_instrument_none sym Hs) in Hpair.
    rewrite (strip_no_space sym Hs) in Hpair. inversion Hpair. split; reflexivity.
  - intros Hi. assert (c = CNaN) as -> by congruence.
    cbn [str_of_cell] in Hpair.
    change (match_instrument "nan") with (@None (string * string)) in Hpair.
    change (strip "nan") with "nan" in Hpair.
    inversion Hpair. split; reflexivity.
Qed.

(** *** Rows and holdings *)

Lemma console_row_blank py_float py_str row r :
  parse_console_row py_float py_str row = Ok r ->
  console_blank py_str row = match r with None => true | Some _ => false end.
Proof.
  unfold parse_console_row, console_blank, getitem.
  destruct (dict_get "Symbol" row) as [c|]; [|discriminate]. simpl.
  destruct c as [|f|s]; simpl.
  - intros E; inversion E; reflexivity.
  - destruct (String.eqb (strip (py_str f)) ""); [intros E; inversion E; reflexivity|].
    repeat match goal with
           | |- context [bind ?m _] =>
               destruct m as [?|?]; simpl; [|discriminate]
           end.
    intros E; inversion E; reflexivity.
  - destruct (String.eqb (strip s) ""); [intros E; inversion E; reflexivity|].
    repeat match goal with
           | |- context [bind ?m _] =>
               destruct m as [?|?]; simpl; [|discriminate]
           end.
    intros E; inversion E; reflexivity.
Qed.

Lemma console_loop py_float py_str l :
  forall acc hs,
    for_each
      (fun holdings row =>
         r <- parse_console_row py_float py_str row ;;
         Ok (match r with
             | Some h => (holdings ++ [h])%list
             | None => holdings
             end)) l acc = Ok hs ->
    exists new,
      hs = (acc ++ new)%list
      /\ Forall2
           (fun row h => parse_console_row py_float py_str row = Ok (Some h))
           (filter (fun row => negb (console_blank py_str row)) l) new.
Proof.
  induction l as [|row l IH]; intros acc hs H; simpl in H.
  - inversion H; subst. exists []. rewrite app_nil_r. split; [reflexivity | constructor].
  - destruct (parse_console_row py_float py_str row) as [r|e] eqn:Hrow;
      simpl in H; [|discriminate].
    pose proof (console_row_blank _ _ _ _ Hrow) as Hb.
    apply IH in H. destruct H as (new & -> & Hall).
    simpl. rewrite Hb. destruct r as [h|]; simpl.
    + exists (h :: new). rewrite <- app_assoc. split; [reflexivity|].
      constructor; assumption.
    + exists new. split; [reflexivity | exact Hall].
Qed.

Lemma legacy_loop py_float py_str l :
  forall acc hs,
    for_each
      (fun holdings row =>
         h <- parse_legacy_row py_float py_str row ;; Ok (holdings ++ [h])%list)
      l acc = Ok hs ->
    exists new,
      hs = (acc ++ new)%list
      /\ Forall2 (fun row h => parse_legacy_row py_float py_str row = Ok h)
           l new.
Proof.
  induction l as [|row l IH]; intros acc hs H; simpl in H.
  - inversion H; subst. exists []. rewrite app_nil_r. split; [reflexivity | constructor].
  - destruct (parse_legacy_row py_float py_str row) as [h|e] eqn:Hrow;
      simpl in H; [|discriminate].
    apply IH in H. destruct H as (new & -> & Hall).
    exists (h :: new). rewrite <- app_assoc. split; [reflexivity|].
    constructor; assumption.
Qed.

Lemma for_each_raises {A S : Type} (body : S -> A -> result S) l x :
  In x l ->
  (forall s, exists e, body s x = Raised e) ->
  forall s, exists e, for_each body l s = Raised e.
Proof.
  intros Hin Hx. induction l as [|y l IH]; [destruct Hin|].
  intros s. simpl. destruct Hin as [-> | Hin].
  - destruct (Hx s) as (e & ->). exists e. reflexivity.
  - destruct (body s y) as [s'|e]; simpl; [apply IH; exact Hin | eauto].
Qed.

(** The Zerodha parser reads every row or none.  When it returns, the
    holdings are those of the rows, in order: of the rows with a symbol
    in the Console format, of all the rows in the legacy format.  When a
    row raises, as on a number that cannot be read, the parser raises
    and no holding is returned. *)
Theorem zerodha_rows_are_all_read :
  forall py_float py_str df,
    (forall hs,
        parse_rows py_float py_str df = Ok hs ->
        if mem "Symbol" (columns df) then
          Forall2
            (fun row h => parse_console_row py_float py_str row = Ok (Some h))
            (filter (fun row => negb (console_blank py_str row)) (rows df)) hs
        else
          Forall2 (fun row h => parse_legacy_row py_float py_str row = Ok h)
            (rows df) hs)
    /\ (forall row e,
           In row (rows df) ->
           (if mem "Symbol" (columns df)
            then parse_console_row py_float py_str row = Raised e
            else parse_legacy_row py_float py_str row = Raised e) ->
           exists e', parse_rows py_float py_str df = Raised e').
Proof.
  intros py_float py_str df. unfold parse_rows. split.
  - intros hs H. destruct (mem "Symbol" (columns df)).
    + apply console_loop in H. destruct H as (new & -> & Hall). exact Hall.
    + apply legacy_loop in H. destruct H as (new & -> & Hall). exact Hall.
  - intros row e Hin Hrow. destruct (mem "Symbol" (columns df)).
    + apply (for_each_raises _ _ row Hin). intros s. rewrite Hrow. simpl. eauto.
    + apply (for_each_raises _ _ row Hin). intros s. rewrite Hrow. simpl. eauto.
Qed.

(** The theorem at the row of [TCS BSE]. *)
Lemma legacy_instrument_is_read_back_witness :
  Parsed.symbol Samples.bse_holding = "TCS"
  /\ Parsed.exchange Samples.bse_holding = "BSE".
Proof.
  apply (proj1 (legacy_instrument_is_read_back Samples.no_text_float
                  Samples.no_float_text Samples.bse_row "TCS"
                  Samples.bse_holding eq_refl eq_refl) "BSE").
  - discriminate.
  - right. reflexivity.
  - reflexivity.
Defined.

End ZerodhaRows.

(** ** What the parsers return *)

Module Shapes.

Import Frame PyFloat Statements.
Local Open Scope list_scope.

Lemma iterrows_from_length i l :
  List.length (iterrows_from i l) = List.length l.
Proof. revert i. induction l; intros i; simpl; auto. Qed.

(** The loop of the generic parser: at most one holding for each row and
    one warning for each holding. *)
Lemma custom_loop py_float py_str mapping l :
  forall acc acc',
    for_each
      (fun '(holdings, warnings_list) '(idx, row) =>
         r <- GenericCSVParser.parse_custom_row py_float py_str mapping idx row ;;
         Ok (match r with
             | Some (h, Some w) =>
                 (holdings ++ [h], warnings_list ++ [w])
             | Some (h, None) => (holdings ++ [h], warnings_list)
             | None => (holdings, warnings_list)
             end)) l acc = Ok acc' ->
    List.length (snd acc) <= List.length (fst acc) ->
    List.length (fst acc') <= List.length (fst acc) + List.length l
    /\ List.length (snd acc') <= List.length (fst acc').
Proof.
  induction l as [|[idx row] l IH]; intros [hs ws] acc' Hrun Hle;
    simpl in Hrun.
  - inversion Hrun; subst. simpl in *. split; auto. lia.
  - destruct (GenericCSVParser.parse_custom_row _ _ _ _ _) as [r|e] eqn:Hrow;
      simpl in Hrun; [|discriminate].
    apply IH in Hrun.
    + destruct r as [[h [w|]]|]; simpl in *; rewrite ?length_app in *;
        simpl in *; destruct Hrun as (H1 & H2); split; auto; lia.
    + destruct r as [[h [w|]]|]; simpl in *; rewrite ?length_app; simpl; lia.
Qed.

(** When the generic parser returns, it returns at least one holding, at
    most one for each row, and at most one warning for each holding: a
    file whose rows all lack a symbol is refused, and no row gives two
    holdings or two warnings. *)
Theorem generic_result_has_holdings :
  forall py_float py_str df contents mapping hs ws,
    GenericCSVParser.parse_custom_holdings py_float py_str (Ok df) contents
      mapping = Ok (hs, ws) ->
    hs <> []
    /\ List.length hs <= List.length (rows df)
    /\ List.length ws <= List.length hs.
Proof.
  intros py_float py_str df contents mapping hs ws.
  unfold GenericCSVParser.parse_custom_holdings.
  destruct (negb (PyStr.truthy contents)); [discriminate|].
  destruct (empty df); [discriminate|].
  match goal with
  | |- context [bind ?c _] => destruct c as [m|e]; simpl; [|discriminate]
  end.
  destruct (GenericCSVParser.parse_custom_rows _ _ _ _) as [[hs0 ws0]|e]
    eqn:Hrun; [|discriminate].
  destruct hs0 as [|h0 hs0]; [discriminate|].
  intros E; inversion E; subst; clear E.
  unfold GenericCSVParser.parse_custom_rows in Hrun.
  apply (custom_loop py_float py_str m) in Hrun.
  - simpl in Hrun. unfold iterrows in Hrun.
    rewrite iterrows_from_length in Hrun.
    destruct Hrun as (H1 & H2).
    repeat split; auto. discriminate.
  - simpl. lia.
Qed.

(** *** The sheets of a workbook *)

Lemma collect_invariant (P : Parsed.holding -> Prop)
  (parse : nat -> series -> option (Parsed.holding * option Parsed.warning))
  df :
  (forall idx row h w, parse idx row = Some (h, w) -> P h) ->
  Forall P (fst (ExcelParser.collect parse df)).
Proof.
  intros Hp. unfold ExcelParser.collect.
  apply (fold_left_invariant
           (fun acc : list Parsed.holding * list Parsed.warning =>
              Forall P (fst acc))); [|constructor].
  intros [hs ws] [idx row] Hacc. simpl in *.
  destruct (parse idx row) as [[h [w|]]|] eqn:E; simpl; auto.
  all: apply Forall_snoc; [exact Hacc | eapply Hp; exact E].
Qed.

(** The holdings of a stock sheet are on [NSE] and are persisted as
    [STOCK]; those of a fund sheet are on [MF] and are persisted as
    [MUTUAL_FUND].  The asset type the Excel handler gives them is the
    one the handlers with the full map give: the [REIT] entry its map
    lacks is never looked up for a holding of the Excel parser. *)
Theorem excel_holdings_are_stocks_or_funds :
  forall py_float py_str df sheet_name,
    (forall hs ws,
        ExcelParser._parse_stock_sheet py_float py_str df sheet_name
        = Ok (hs, ws) ->
        Forall
          (fun h =>
             Parsed.exchange h = "NSE"
             /\ Uploads.asset_type_of Uploads.Excel h = models.STOCK
             /\ Uploads.asset_type_of Uploads.Generic h = models.STOCK)
          hs)
    /\ (forall _clean_mutual_fund_name,
           Forall
             (fun h =>
                Parsed.exchange h = "MF"
                /\ Uploads.asset_type_of Uploads.Excel h = models.MUTUAL_FUND
                /\ Uploads.asset_type_of Uploads.Generic h
                   = models.MUTUAL_FUND)
             (fst (ExcelParser._parse_mutual_fund_sheet py_float py_str
                     _clean_mutual_fund_name df sheet_name))).
Proof.
  intros py_float py_str df sheet_name. split.
  - intros hs ws. unfold ExcelParser._parse_stock_sheet.
    destruct (GenericCSVParser._auto_detect_columns df) as [mapping|e];
      simpl; [|discriminate].
    intros E. inversion E as [[Hc]]. clear E.
    replace hs with
      (fst (ExcelParser.collect
              (ExcelParser.parse_stock_row py_float py_str mapping sheet_name)
              df)) by (rewrite Hc; reflexivity).
    apply collect_invariant. intros idx row h w.
    unfold ExcelParser.parse_stock_row.
    destruct (GenericCSVParser.mapped_cell mapping "symbol" row)
      as [[| f | s]|]; try discriminate.
    all: destruct (ExcelParser.read_quantity _ _ _) as [q mq].
    all: destruct (GenericCSVParser.read_average_price _ _ _) as [a ma].
    all: intros E; inversion E; subst; repeat split.
  - intros clean. unfold ExcelParser._parse_mutual_fund_sheet.
    apply collect_invariant. intros idx row h w.
    unfold ExcelParser.parse_mutual_fund_row.
    destruct (GenericCSVParser.mapped_cell _ "scheme_name" row)
      as [[| f | s]|]; try discriminate.
    all: destruct (ExcelParser.read_number _ _ "units" _) as [u mu].
    all: destruct (ExcelParser.read_number _ _ "nav" _) as [n mn].
    all: destruct (ExcelParser.read_invested _ _ _ _ _) as [iv ap].
    all: intros E; inversion E; subst; repeat split.
Qed.

Lemma detect_without_scheme cols :
  find (GenericCSVParser.column_matches scheme_name_patterns) cols = None ->
  dict_get "scheme_name"
    (GenericCSVParser.detect ExcelParser.mf_patterns cols) = None.
Proof.
  intros Hq. unfold GenericCSVParser.detect, ExcelParser.mf_patterns.
  cbn [flat_map].
  change [["scheme"; "name"]; ["fund"; "name"]; ["scheme"]; ["fund"];
          ["symbol"]] with scheme_name_patterns.
  rewrite Hq.
  repeat match goal with
         | |- context [find ?p cols] => destruct (find p cols)
         end; reflexivity.
Qed.

Lemma collect_nothing
  (parse : nat -> series -> option (Parsed.holding * option Parsed.warning))
  df :
  (forall idx row, parse idx row = None) ->
  ExcelParser.collect parse df = ([], []).
Proof.
  intros Hp. unfold ExcelParser.collect.
  induction (iterrows df) as [|[idx row] l IH]; simpl; [reflexivity|].
  rewrite Hp. exact IH.
Qed.

(** A fund sheet none of whose columns is read as the name of the scheme
    yields nothing, whatever its rows: no holding and no warning. *)
Theorem fund_sheet_without_scheme_column_is_empty :
  forall py_float py_str _clean_mutual_fund_name df sheet_name,
    no_scheme_column df ->
    ExcelParser._parse_mutual_fund_sheet py_float py_str
      _clean_mutual_fund_name df sheet_name
    = ([], []).
Proof.
  intros py_float py_str clean df sheet_name Hno.
  unfold ExcelParser._parse_mutual_fund_sheet.
  apply collect_nothing. intros idx row.
  unfold ExcelParser.parse_mutual_fund_row, GenericCSVParser.mapped_cell.
  rewrite (detect_without_scheme _ Hno). reflexivity.
Qed.

(** The theorem at the CSV of two rows without quantities. *)
Lemma generic_result_has_holdings_witness :
  exists hs ws,
    GenericCSVParser.parse_custom_holdings Samples.no_text_float
      Samples.no_float_text (Ok Samples.no_quantity_frame) "Symbol,Avg Price"
      None = Ok (hs, ws)
    /\ hs <> []
    /\ List.length hs <= 2
    /\ List.length ws <= List.length hs.
Proof.
  eexists. eexists. split; [vm_compute; reflexivity|].
  apply (generic_result_has_holdings Samples.no_text_float
           Samples.no_float_text Samples.no_quantity_frame "Symbol,Avg Price"
           None).
  vm_compute. reflexivity.
Defined.

(** The theorem at a sheet of units and prices. *)
Lemma fund_sheet_without_scheme_column_is_empty_witness :
  ExcelParser._parse_mutual_fund_sheet Samples.no_text_float
    Samples.no_float_text Samples.plain_name Samples.units_frame "Funds"
  = ([], []).
Proof.
  apply (fund_sheet_without_scheme_column_is_empty Samples.no_text_float
           Samples.no_float_text Samples.plain_name Samples.units_frame
           "Funds").
  reflexivity.
Defined.

End Shapes.

(** ** The holdings of a PDF *)

Module PdfHoldings.

Import PyFloat Statements.
Import PDFParser.
Local Open Scope list_scope.

Lemma length_take n s : String.length (take n s) <= n.
Proof.
  unfold take. revert s. induction n as [|n IH]; intros s.
  - destruct s; simpl; lia.
  - destruct s as [|c s]; simpl; [lia|]. specialize (IH s). lia.
Qed.

Lemma scheme_holding py_float re_search text scheme h ws :
  parse_scheme py_float re_search text scheme = (Some h, ws) -> pdf_holding h.
Proof.
  unfold parse_scheme.
  destruct (find_index scheme text) as [pos|]; [|discriminate].
  destruct (re_search units_pattern _) as [g|];
    [destruct (float_no_commas py_float g) as [q|]|].
  all: destruct (re_search nav_pattern _) as [g'|];
    [destruct (float_no_commas py_float g')|].
  all: cbv beta iota zeta.
  all: match goal with
       | |- (if ?b then _ else _, _) = _ -> _ =>
           destruct b eqn:Hq; [|discriminate]
       end.
  all: intros E; inversion E; subst; clear E.
  all: unfold pdf_holding; simpl; repeat split; auto.
  all: left; repeat split; apply length_take.
Qed.

Lemma table_line_holding py_float re_findall lines h :
  parse_table_line py_float re_findall lines = Some h -> pdf_holding h.
Proof.
  unfold parse_table_line.
  destruct lines as [|line rest]; [discriminate|].
  destruct (has_fund_word line); [|discriminate].
  destruct (re_findall _ _) as [|n0 [|n1 ns]]; try discriminate.
  destruct (float_no_commas py_float n0) as [units|]; [|discriminate].
  destruct (float_no_commas py_float n1) as [nav|]; [|discriminate].
  destruct (gt units zero) eqn:Hq; simpl; [|discriminate].
  destruct (lt units million); [|discriminate].
  intros E. inversion E; subst; clear E.
  unfold pdf_holding. simpl. repeat split; auto.
  left. repeat split. apply length_take.
Qed.

Lemma table_holdings_all py_float re_findall lines :
  Forall pdf_holding (table_holdings py_float re_findall lines).
Proof.
  induction lines as [|line rest IH]; [constructor|].
  cbn [table_holdings]. apply Forall_app. split; [|exact IH].
  destruct (parse_table_line py_float re_findall (line :: rest)) as [h|] eqn:E;
    [|constructor].
  constructor; [|constructor]. eapply table_line_holding. exact E.
Qed.

Lemma schemes_all py_float re_search text schemes :
  Forall pdf_holding (fst (parse_schemes py_float re_search text schemes)).
Proof.
  unfold parse_schemes.
  apply (fold_left_invariant
           (fun acc : list Parsed.holding * list Parsed.warning =>
              Forall pdf_holding (fst acc))); [|constructor].
  intros [hs ws] scheme Hacc. simpl in *.
  destruct (parse_scheme py_float re_search text scheme) as [[h|] ws'] eqn:E;
    simpl.
  - apply Forall_snoc; [exact Hacc | eapply scheme_holding; exact E].
  - rewrite app_nil_r. exact Hacc.
Qed.

Lemma fund_statement_all py_float re_findall re_search text :
  Forall pdf_holding
    (fst (_parse_mutual_fund_statement py_float re_findall re_search text)).
Proof.
  unfold _parse_mutual_fund_statement.
  pose proof (schemes_all py_float re_search text
                (re_findall scheme_pattern text)) as H.
  destruct (parse_schemes _ _ _ _) as [[|h hs] ws]; simpl in *.
  - apply table_holdings_all.
  - exact H.
Qed.

Lemma isin_match_holding py_float re_search text m h ws :
  parse_isin_match py_float re_search text m = (Some h, ws) ->
  pdf_holding h
  /\ exists ws0 w,
       ws = ws0 ++ [w] /\ Parsed.w_symbol w = Parsed.symbol h
       /\ price_advisory w = true
       /\ Forall (fun w' => price_advisory w' = false) ws0.
Proof.
  unfold parse_isin_match. destruct m as [isin company_name].
  destruct (find_index isin text) as [pos|];
    [destruct (re_search quantity_pattern _) as [g|];
     [destruct (float_no_commas py_float g) as [f|]|]|].
  all: cbv beta iota zeta.
  all: match goal with
       | |- (if ?b then _ else _) = _ -> _ =>
           destruct b eqn:Hq; [|discriminate]
       end.
  all: intros E; inversion E; subst; clear E.
  all: split; [unfold pdf_holding; simpl; repeat split; auto|].
  all: first [ exists []; eexists; split; [reflexivity|]
             | eexists [_]; eexists; split; [reflexivity|] ].
  all: simpl; repeat split; repeat constructor.
Qed.

Lemma isin_match_none py_float re_search text m ws :
  parse_isin_match py_float re_search text m = (None, ws) ->
  Forall (fun w' => price_advisory w' = false) ws.
Proof.
  unfold parse_isin_match. destruct m as [isin company_name].
  destruct (find_index isin text) as [pos|];
    [destruct (re_search quantity_pattern _) as [g|];
     [destruct (float_no_commas py_float g) as [f|]|]|].
  all: cbv beta iota zeta.
  all: match goal with
       | |- (if ?b then _ else _) = _ -> _ =>
           destruct b eqn:Hq; [discriminate|]
       end.
  all: intros E; inversion E; subst; clear E.
  all: repeat constructor.
Qed.

Lemma filter_none {A : Type} (p : A -> bool) l :
  Forall (fun x => p x = false) l -> filter p l = [].
Proof.
  induction 1 as [|x l Hx _ IH]; simpl; [reflexivity|]. rewrite Hx. exact IH.
Qed.

Lemma demat_all py_float re_search re_findall2 text :
  let r := _parse_demat_statement py_float re_search re_findall2 text in
  Forall pdf_holding (fst r)
  /\ map Parsed.w_symbol (filter price_advisory (snd r))
     = map Parsed.symbol (fst r).
Proof.
  cbv zeta. unfold _parse_demat_statement.
  apply (fold_left_invariant
           (fun acc : list Parsed.holding * list Parsed.warning =>
              Forall pdf_holding (fst acc)
              /\ map Parsed.w_symbol (filter price_advisory (snd acc))
                 = map Parsed.symbol (fst acc)));
    [|split; [constructor | reflexivity]].
  intros [hs ws] m (Hacc & Hw). simpl in *.
  destruct (parse_isin_match py_float re_search text m) as [[h|] ws'] eqn:E;
    simpl.
  - apply isin_match_holding in E.
    destruct E as (Hh & ws0 & w & -> & Hs & Ha & Hn). split.
    + apply Forall_snoc; assumption.
    + rewrite !filter_app, !map_app, Hw, (filter_none _ _ Hn). simpl.
      rewrite Ha. simpl. rewrite Hs. reflexivity.
  - apply isin_match_none in E. rewrite app_nil_r. split; [exact Hacc|].
    rewrite filter_app, (filter_none _ _ E), app_nil_r. exact Hw.
Qed.

Lemma generic_match_holding py_float m h :
  parse_generic_match py_float m = Some h -> pdf_holding h.
Proof.
  unfold parse_generic_match. destruct m as [[symbol quantity] price].
  destruct (float_no_commas py_float quantity) as [q|]; [|discriminate].
  destruct (float_no_commas py_float price) as [p|]; [|discriminate].
  destruct (gt q zero) eqn:Hq; simpl; [|discriminate].
  destruct (lt q million); [|discriminate].
  intros E. inversion E; subst; clear E.
  unfold pdf_holding. simpl. repeat split; auto.
Qed.

Lemma generic_all py_float re_findall3 text :
  Forall pdf_holding (fst (_parse_generic_pdf py_float re_findall3 text)).
Proof.
  unfold _parse_generic_pdf. simpl.
  induction (re_findall3 pattern1 text) as [|m ms IH]; [constructor|].
  cbn [flat_map]. apply Forall_app. split; [|exact IH].
  destruct (parse_generic_match py_float m) as [h|] eqn:E; [|constructor].
  constructor; [|constructor]. eapply generic_match_holding. exact E.
Qed.

(** Every holding read from a PDF, by any of the three readers, has a
    quantity greater than 0 and no gain ([pnl] and [pnl_percentage] are
    0).  A fund is on the exchange [MF] with a symbol of at most 50
    characters; a share is on [NSE] with the current price and the
    current value 0, which are left to the enrichment. *)
Theorem pdf_holdings_have_a_quantity :
  forall py_float re_findall re_search re_findall2 re_findall3 contents pages
         hs ws,
    parse_pdf_file py_float re_findall re_search re_findall2 re_findall3
      contents pages = Ok (hs, ws) ->
    Forall pdf_holding hs.
Proof.
  intros py_float re_findall re_search re_findall2 re_findall3 contents pages
    hs ws.
  unfold parse_pdf_file.
  destruct (negb (PyStr.truthy contents)); [discriminate|].
  destruct pages as [page_texts|e]; [|discriminate].
  cbv zeta.
  match goal with
  | |- Ok (if ?a then ?x else if ?b then ?y else ?z) = _ -> _ =>
      intros E;
      assert (Forall pdf_holding
                (fst (if a then x else if b then y else z))) as H
        by (destruct a; [apply fund_statement_all|];
            destruct b; [apply demat_all | apply generic_all]);
      injection E as E; rewrite E in H; exact H
  end.
Qed.

(** The warnings of the PDF readers follow the holdings.  The demat
    reader gives one advisory that prices will be fetched for each
    holding, in order and under its symbol; the generic reader gives its
    one warning, under the symbol [PDF], exactly when it found no
    holding. *)
Theorem pdf_warnings_follow_the_holdings :
  forall py_float re_search re_findall2 re_findall3 text,
    (let r := _parse_demat_statement py_float re_search re_findall2 text in
     map Parsed.w_symbol (filter price_advisory (snd r))
     = map Parsed.symbol (fst r))
    /\ (let r := _parse_generic_pdf py_float re_findall3 text in
        match fst r with
        | [] =>
            exists w,
              snd r = [w] /\ Parsed.w_symbol w = "PDF"
              /\ Parsed.missing_fields w = ["all"]
        | _ => snd r = []
        end).
Proof.
  intros py_float re_search re_findall2 re_findall3 text. split.
  - apply demat_all.
  - cbv zeta. unfold _parse_generic_pdf. simpl.
    destruct (flat_map _ _); [|reflexivity].
    eexists. repeat split.
Qed.

(** The theorem at a fund statement of one page. *)
Lemma pdf_holdings_have_a_quantity_witness :
  Forall pdf_holding [Samples.folio_holding].
Proof.
  apply (pdf_holdings_have_a_quantity Samples.statement_float
           Samples.folio_findall Samples.statement_search Samples.no_findall2
           Samples.no_findall3 "%PDF" (Ok [Samples.folio_page])
           [Samples.folio_holding] []).
  vm_compute. reflexivity.
Defined.

End PdfHoldings.

(** ** The ISIN of a demat statement *)

Module Demat.

Import PyFloat Statements.
Import PDFParser.

Lemma findall_without_IN s :
  contains "IN" s = false -> forall k, IsinPattern.findall_from k s = [].
Proof.
  induction s as [|c s IH]; intros H k; [reflexivity|].
  cbn [contains] in H. apply orb_false_elim in H. destruct H as (H0 & H).
  cbn [IsinPattern.findall_from]. destruct k as [|k]; [|apply IH; exact H].
  unfold IsinPattern.match_here. rewrite H0. apply IH. exact H.
Qed.

Lemma id_char_not_space c : FileAccount.is_id_char c = true -> is_space c = false.
Proof. destruct c as [[] [] [] [] [] [] [] []]; simpl; intros H; try reflexivity; discriminate H. Qed.

Lemma standard_isin_no_match t c rest :
  id_run t = true -> String.length t = 10 ->
  IsinPattern.match_here (String "I" (String "N" (t ++ String c rest))) = None.
Proof.
  intros Ht Hl. unfold IsinPattern.match_here.
  cbn [startswith Ascii.eqb Bool.eqb andb Re.drop].
  destruct (FileAccount.id_chars 9 (t ++ String c rest)) as [[g r]|] eqn:E;
    [|reflexivity].
  destruct (FileNames.id_chars_rest 9 t (String c rest) g r Ht ltac:(lia) E)
    as (c0 & r' & -> & Hc0).
  cbn [IsinPattern.span]. rewrite (id_char_not_space c0 Hc0). reflexivity.
Qed.

Lemma findall_step c s :
  IsinPattern.findall_from 0 (String c s)
  = match IsinPattern.match_here (String c s) with
    | Some (g1, g2, len) => (g1, g2) :: IsinPattern.findall_from (len - 1) s
    | None => IsinPattern.findall_from 0 s
    end.
Proof. reflexivity. Qed.

(** The demat reader does not read an ISIN as it is written.  Its pattern
    takes [IN] and nine characters and wants white space next; an ISIN
    has [IN] and ten.  A statement that begins with such an ISIN and a
    character after it, and has the letters [IN] nowhere else, yields no
    holding and no warning. *)
Theorem a_standard_isin_is_not_read :
  forall py_float re_search isin c rest,
    standard_isin isin = true ->
    contains "IN" (Re.drop 1 (isin ++ String c rest)) = false ->
    _parse_demat_statement py_float re_search IsinPattern.re_findall
      (isin ++ String c rest)
    = ([], []).
Proof.
  intros py_float re_search isin c rest Hi Hno.
  unfold standard_isin in Hi.
  apply andb_prop in Hi. destruct Hi as (Hi & Hrun).
  apply andb_prop in Hi. destruct Hi as (Hs & Hl).
  apply Nat.eqb_eq in Hl.
  destruct isin as [|a [|b t]]; try discriminate.
  cbn [startswith] in Hs.
  apply andb_prop in Hs. destruct Hs as (Ha & Hb).
  apply andb_prop in Hb. destruct Hb as (Hb & _).
  apply Ascii.eqb_eq in Ha, Hb. subst a b.
  cbn [Re.drop] in Hrun. simpl in Hl.
  unfold _parse_demat_statement, IsinPattern.re_findall.
  rewrite String.eqb_refl.
  change (String "I" (String "N" t) ++ String c rest)
    with (String "I" (String "N" (t ++ String c rest))) in *.
  rewrite findall_step, (standard_isin_no_match t c rest Hrun ltac:(lia)).
  cbn [Re.drop] in Hno. rewrite (findall_without_IN _ Hno). reflexivity.
Qed.

(** The theorem at a line of a statement. *)
Lemma a_standard_isin_is_not_read_witness :
  _parse_demat_statement Samples.statement_float Samples.statement_search
    IsinPattern.re_findall "INE002A01018 Reliance Industries Ltd 10 shares"
  = ([], []).
Proof.
  apply (a_standard_isin_is_not_read Samples.statement_float
           Samples.statement_search "INE002A01018" " "
           "Reliance Industries Ltd 10 shares").
  - reflexivity.
  - reflexivity.
Defined.

End Demat.

(** ** The sheets of a workbook *)

Module Workbooks.

Import Frame Statements.
Import Workbook.

Lemma detect_without_symbol cols :
  find (GenericCSVParser.column_matches symbol_patterns) cols = None ->
  dict_get "symbol" (GenericCSVParser.detect GenericCSVParser.patterns cols)
  = None.
Proof.
  intros Hq. unfold GenericCSVParser.detect, GenericCSVParser.patterns.
  cbn [flat_map].
  change [["symbol"]; ["stock"; "name"]; ["instrument"]; ["scrip"];
          ["ticker"]; ["equity"]] with symbol_patterns.
  rewrite Hq.
  repeat match goal with
         | |- context [find ?p cols] => destruct (find p cols)
         end; reflexivity.
Qed.

Lemma unreadable_sheet py_float py_str clean sh :
  stock_sheet_without_symbols py_str sh ->
  forall all_data,
  exists e, parse_sheet py_float py_str clean all_data sh = Raised e.
Proof.
  intros (raw & i & df & Hraw & Hh & Hread & Hempty & Htype & Hsym) all_data.
  unfold parse_sheet. rewrite Hraw, Hh, Hread, Hempty, Htype.
  assert ((List.length (rows df) =? 0) = false) as ->.
  { unfold empty in Hempty. destruct (rows df); [discriminate | reflexivity]. }
  cbn [orb String.eqb Ascii.eqb Bool.eqb andb].
  cbv iota.
  unfold ExcelParser._parse_stock_sheet, GenericCSVParser._auto_detect_columns.
  rewrite (detect_without_symbol _ Hsym). simpl. eauto.
Qed.

Lemma sheet_skipped py_float py_str clean sh all_data :
  sheet_without_header py_str sh ->
  parse_sheet py_float py_str clean all_data sh = Ok all_data.
Proof.
  intros (raw & Hraw & Hh). unfold parse_sheet. rewrite Hraw, Hh. reflexivity.
Qed.

(** One sheet can fail a workbook.  When a sheet is read as a sheet of
    stocks and none of its columns is read as the symbol, the parser
    raises and returns the holdings of no sheet; and when no sheet has a
    header row in its first 50 rows, the parser raises that the file has
    no valid holdings data. *)
Theorem one_sheet_can_fail_the_workbook :
  forall py_float py_str _clean_mutual_fund_name contents sheets,
    PyStr.truthy contents = true ->
    (forall sh,
        In sh sheets ->
        stock_sheet_without_symbols py_str sh ->
        exists detail,
          parse_excel_file py_float py_str _clean_mutual_fund_name contents
            (Ok sheets) = Raised detail)
    /\ (Forall (sheet_without_header py_str) sheets ->
        parse_excel_file py_float py_str _clean_mutual_fund_name contents
          (Ok sheets)
        = Raised "No valid holdings data found in any sheet of the Excel file.").
Proof.
  intros py_float py_str clean contents sheets Hc.
  unfold parse_excel_file. rewrite Hc. simpl negb. cbv iota. split.
  - intros sh Hin Hsh.
    destruct (ZerodhaRows.for_each_raises
                (parse_sheet py_float py_str clean) sheets sh Hin
                (fun all_data =>
                   unreadable_sheet py_float py_str clean sh Hsh all_data) [])
      as (e & ->).
    simpl. eauto.
  - intros Hall.
    assert (forall acc,
               for_each (parse_sheet py_float py_str clean) sheets acc = Ok acc)
      as ->.
    { induction Hall as [|sh l Hsh _ IH]; intros acc; simpl; [reflexivity|].
      rewrite (sheet_skipped _ _ _ _ _ Hsh). simpl. apply IH. }
    reflexivity.
Qed.

(** The theorem at a workbook of one sheet with the columns [Quantity]
    and [LTP]. *)
Lemma one_sheet_can_fail_the_workbook_witness :
  exists detail,
    parse_excel_file Samples.no_text_float Samples.no_float_text
      Samples.plain_name "PK" (Ok [Samples.quantities_sheet])
    = Raised detail.
Proof.
  apply (proj1 (one_sheet_can_fail_the_workbook Samples.no_text_float
                  Samples.no_float_text Samples.plain_name "PK"
                  [Samples.quantities_sheet] eq_refl)
           Samples.quantities_sheet).
  - left. reflexivity.
  - exists [ [CStr "Quantity"; CStr "LTP"]; [CNum 5%float; CNum 100%float] ].
    exists 0.
    exists {| columns := ["Quantity"; "LTP"];
              rows :=
                [ [ ("Quantity", CNum 5%float); ("LTP", CNum 100%float) ] ]
           |}.
    repeat split; vm_compute; reflexivity.
Defined.

End Workbooks.

(** ** The names of mutual funds *)

Module Names.

Import Statements.
Import FundNames.
Local Open Scope list_scope.

Lemma append_empty s : (s ++ "")%string = s.
Proof. induction s as [|c s IH]; simpl; [reflexivity|]. rewrite IH. reflexivity. Qed.

Lemma no_space_snoc w c :
  no_space w = true -> is_space c = false ->
  no_space (w ++ String c "")%string = true.
Proof.
  intros Hw Hc. induction w as [|a w IH]; simpl in *.
  - rewrite Hc. reflexivity.
  - apply andb_prop in Hw. destruct Hw as (Ha & Hw). rewrite Ha, (IH Hw).
    reflexivity.
Qed.

Lemma words_from_words s : forall w,
  no_space w = true -> Forall word (words_from w s).
Proof.
  induction s as [|c s IH]; intros w Hw; simpl.
  - destruct (PyStr.truthy w) eqn:Ht; repeat constructor; assumption.
  - destruct (is_space c) eqn:Hc.
    + apply Forall_app. split; [|apply IH; reflexivity].
      destruct (PyStr.truthy w) eqn:Ht; repeat constructor; assumption.
    + apply IH. apply no_space_snoc; assumption.
Qed.

Lemma words_from_word w : forall acc s,
  no_space w = true ->
  words_from acc (w ++ s)%string = words_from (acc ++ w)%string s.
Proof.
  induction w as [|c w IH]; intros acc s Hw.
  - rewrite append_empty. reflexivity.
  - simpl in Hw. apply andb_prop in Hw. destruct Hw as (Hc & Hw).
    apply negb_true_iff in Hc. simpl. rewrite Hc, (IH _ s Hw).
    rewrite FileNames.append_assoc. reflexivity.
Qed.

(** The words of a line of words are these words. *)
Lemma split_join ws :
  Forall word ws -> split (String.concat " " ws) = ws.
Proof.
  unfold split. induction 1 as [|w ws (Ht & Hs) Hall IH]; [reflexivity|].
  destruct ws as [|w' ws].
  - cbn [String.concat]. rewrite <- (append_empty w) at 1.
    rewrite (words_from_word w "" "" Hs). simpl. rewrite Ht. reflexivity.
  - change (String.concat " " (w :: w' :: ws))
      with (w ++ String " " (String.concat " " (w' :: ws)))%string.
    rewrite (words_from_word w "" _ Hs).
    change ("" ++ w)%string with w. cbn [words_from].
    change (is_space " ") with true. cbv iota. rewrite Ht, IH. reflexivity.
Qed.

Lemma rstrip_app a b :
  b <> "" -> rstrip b = b -> rstrip (a ++ b)%string = (a ++ b)%string.
Proof.
  intros Hb Hr. induction a as [|c a IH]; [exact Hr|].
  simpl. rewrite IH. destruct (a ++ b)%string eqn:E; [|reflexivity].
  destruct a; simpl in E; [contradiction | discriminate].
Qed.

Lemma join_not_empty w ws :
  PyStr.truthy w = true -> String.concat " " (w :: ws) <> "".
Proof.
  intros Ht. destruct w as [|c w]; [discriminate|].
  destruct ws; simpl; discriminate.
Qed.

Lemma rstrip_join ws :
  Forall word ws -> rstrip (String.concat " " ws) = String.concat " " ws.
Proof.
  induction 1 as [|w ws (Ht & Hs) Hall IH]; [reflexivity|].
  destruct ws as [|w' ws].
  - apply ZerodhaRows.rstrip_no_space. exact Hs.
  - change (String.concat " " (w :: w' :: ws))
      with (w ++ String " " (String.concat " " (w' :: ws)))%string.
    replace (w ++ String " " (String.concat " " (w' :: ws)))%string
      with ((w ++ " ") ++ String.concat " " (w' :: ws))%string
      by (rewrite FileNames.append_assoc; reflexivity).
    apply rstrip_app; [|exact IH].
    inversion Hall as [|? ? (Ht' & _) _]; subst.
    apply join_not_empty. exact Ht'.
Qed.

Lemma lstrip_join ws :
  Forall word ws -> lstrip (String.concat " " ws) = String.concat " " ws.
Proof.
  intros Hall. destruct Hall as [|w ws (Ht & Hs) Hall]; [reflexivity|].
  destruct w as [|c w]; [discriminate|].
  simpl in Hs. apply andb_prop in Hs. destruct Hs as (Hc & _).
  apply negb_true_iff in Hc.
  destruct ws; simpl; rewrite Hc; reflexivity.
Qed.

Lemma strip_join ws :
  Forall word ws -> strip (String.concat " " ws) = String.concat " " ws.
Proof.
  intros Hall. unfold strip. rewrite (lstrip_join ws Hall).
  apply rstrip_join. exact Hall.
Qed.

(** Whatever the regular expressions delete from the name of a fund, the
    cleaned name is in normal form: its words joined by single spaces
    are the name itself, so it has no white space at its ends, one space
    between two words and no other white space.  The last [strip()] of
    the function changes nothing. *)
Theorem cleaned_name_is_in_normal_form :
  forall re_sub name,
    let cleaned := _clean_mutual_fund_name re_sub name in
    String.concat " " (split cleaned) = cleaned /\ strip cleaned = cleaned.
Proof.
  intros re_sub name. cbv zeta. unfold _clean_mutual_fund_name.
  destruct (PyStr.truthy name) eqn:Hn; simpl negb; cbv iota.
  - match goal with
    | |- context [re_sub ?p false (re_sub ?q false ?n)] =>
        set (n3 := re_sub p false (re_sub q false n))
    end.
    pose proof (words_from_words n3 "" eq_refl) as Hw.
    fold (split n3) in Hw. generalize dependent (split n3).
    intros ws Hw. rewrite (strip_join ws Hw), (split_join ws Hw).
    split; [reflexivity | apply strip_join; exact Hw].
  - destruct name; [|discriminate]. split; reflexivity.
Qed.

End Names.

(** ** Tickers and the refresh of prices *)

Module MarketData.

Import models Uploads Statements.
Import Market.

Lemma endswith_refl p : endswith p p = true.
Proof. destruct p; simpl; rewrite ?Ascii.eqb_refl, ?String.eqb_refl; reflexivity. Qed.

Lemma endswith_app p s : endswith p (s ++ p) = true.
Proof.
  induction s as [|c s IH]; [apply endswith_refl|].
  simpl. rewrite IH. apply orb_true_r.
Qed.

(** The ticker asked of Yahoo Finance for a symbol and a suffix ends with
    the dot and the suffix, and has them once: the ticker of a ticker is
    the ticker.  For a symbol without a dot, as the generic parser
    stores them, it is the symbol, a dot and the suffix. *)
Theorem ticker_has_one_suffix :
  forall symbol exchange,
    PyStr.truthy exchange = true ->
    let ticker := ticker_symbol symbol exchange in
    endswith ("." ++ exchange) ticker = true
    /\ ticker_symbol ticker exchange = ticker
    /\ (has_char "." symbol = false -> ticker = symbol ++ "." ++ exchange).
Proof.
  intros symbol exchange He. cbv zeta. unfold ticker_symbol. rewrite He.
  cbn [andb].
  destruct (endswith ("." ++ exchange) symbol) eqn:E; cbn [negb]; cbv iota.
  - rewrite E. cbn [negb]. cbv iota. repeat split.
    intros Hd. apply GenericSymbols.endswith_has in E. rewrite Hd in E.
    discriminate.
  - rewrite (endswith_app ("." ++ exchange) symbol). cbn [negb]. cbv iota.
    repeat split.
Qed.

Lemma upload_suffix h :
  on_nse_or_bse h = true -> Market.exchange_suffix h = Uploads.exchange_suffix h.
Proof.
  unfold on_nse_or_bse, Market.exchange_suffix, Uploads.exchange_suffix.
  destruct (exchange h) as [e|]; [|reflexivity].
  destruct (PyStr.truthy e); [|reflexivity]. cbn [negb orb].
  destruct (String.eqb (upper e) "NSE"); [reflexivity|].
  destruct (String.eqb (upper e) "BSE"); [reflexivity | discriminate].
Qed.

(** For a stock, an ETF or a mutual fund on NSE or BSE (or without an
    exchange), the refresh of prices ([update_holdings_prices]) does what
    the enrichment of the Zerodha and Excel uploads does: the same calls
    of the services, the same price, value and gain assigned, the same
    count. *)
Theorem refresh_agrees_with_the_enrichment :
  forall get_stock_info get_mutual_fund_info get_sgb_info search_mutual_fund
         hd h,
    hd = Zerodha \/ hd = Excel ->
    asset_type h = STOCK \/ asset_type h = ETF \/ asset_type h = MUTUAL_FUND ->
    on_nse_or_bse h = true ->
    refresh_one get_stock_info get_mutual_fund_info get_sgb_info h
    = as_refresh
        (enrich_one get_stock_info get_mutual_fund_info search_mutual_fund hd
           h).
Proof.
  intros gsi gmf gsgb smf hd h Hhd Ha Hx.
  unfold refresh_one, enrich_one, enrich_stock, enrich_fund_by_code, as_refresh.
  rewrite (upload_suffix h Hx).
  destruct Ha as [-> | [-> | ->]]; destruct Hhd as [-> | ->].
  all: repeat match goal with
         | |- context [match ?c with _ => _ end] =>
             lazymatch c with
             | reprice _ _ => fail
             | _ =>
                 lazymatch type of c with
                 | Holding => fail
                 | _ => destruct c; simpl; try reflexivity
                 end
             end
         end.
  all: destruct (reprice _ _) as [h' done]; reflexivity.
Qed.

(** The theorem at [INFY] and the suffix [NS]. *)
Lemma ticker_has_one_suffix_witness :
  endswith ".NS" (ticker_symbol "INFY" "NS") = true
  /\ ticker_symbol (ticker_symbol "INFY" "NS") "NS" = ticker_symbol "INFY" "NS"
  /\ (has_char "." "INFY" = false -> ticker_symbol "INFY" "NS" = "INFY.NS").
Proof.
  exact (ticker_has_one_suffix "INFY" "NS" eq_refl).
Defined.

(** The theorem at a share of [INFY] without a price. *)
Lemma refresh_agrees_with_the_enrichment_witness :
  refresh_one Samples.quoting_stock_info Samples.no_fund_info
    Samples.no_sgb_info Samples.stored_infy
  = as_refresh
      (enrich_one Samples.quoting_stock_info Samples.no_fund_info
         Samples.no_fund_search Zerodha Samples.stored_infy).
Proof.
  apply (refresh_agrees_with_the_enrichment Samples.quoting_stock_info
           Samples.no_fund_info Samples.no_sgb_info Samples.no_fund_search
           Zerodha Samples.stored_infy).
  - left. reflexivity.
  - left. reflexivity.
  - reflexivity.
Defined.

End MarketData.

